(** * bazo-miner: block assembly, transaction verification and wire encoding

    A shallow embedding of [miner/block.go], of the miner's transaction
    verification ([verify], [verifyFundsTx], [verifyStakeTx], ...) and of the
    [FundsTx] / [IotTx] types of the [protocol] package.

    Conventions.
    - Go's [uint64], [uint32] and [byte] are [Z] with the wrap-around written
      out ([wrap64], [wrap32]); [[32]byte] and [[64]byte] arrays are the
      big-endian number they spell (a 256-bit or 512-bit [Z]); a byte slice
      [[]byte] is [option (list Z)], [None] being Go's [nil].
    - Go maps are [gmap]s.  [map[[32]byte]*Account] holds one private
      [Account] per key (every entry of [StateCopy] points to its own copy),
      so a pointer update [acc.Balance -= x] is [alter] at the key.
    - A Go function that mutates its arguments returns their new values
      together with its result; dereferencing a nil pointer is the outcome
      [Panic]. *)

From Stdlib Require Import ZArith List Bool Lia.
From stdpp Require Import base decidable option gmap list.

Local Open Scope Z_scope.

(** ** Machine integers *)

Definition wrap64 (z : Z) : Z := z mod 2 ^ 64.
Definition wrap32 (z : Z) : Z := z mod 2 ^ 32.

(** [n] bytes of [v], most significant first ([binary.BigEndian]). *)
Fixpoint be_bytes (n : nat) (v : Z) : list Z :=
  match n with
  | O => []
  | S k => Z.land (Z.shiftr v (8 * Z.of_nat k)) 255 :: be_bytes k v
  end.

(** Bytes of a slice; a nil slice has none. *)
Definition slice_bytes (s : option (list Z)) : list Z :=
  match s with Some l => l | None => [] end.

(** ** Package [protocol] *)

Module Account.
(** Modelled from the spec: the [Account] struct is declared outside the
    given sources; its fields are those of the data model (address,
    balance, txCnt, staking flag, commitment key, optional contract and
    contract storage) in the order [NewAccount] receives them. *)
Record t := mk {
  Address : Z;                      (* [32]byte *)
  Issuer : Z;                       (* [32]byte *)
  Balance : Z;                      (* uint64 *)
  TxCnt : Z;                        (* uint32 *)
  IsStaking : bool;
  CommitmentKey : Z;                (* [COMM_KEY_LENGTH]byte *)
  StakingBlockHeight : Z;           (* uint32 *)
  Contract : option (list Z);       (* []byte *)
  ContractVariables : list (list Z)
}.

Definition set_Balance (v : Z) (a : t) : t :=
  mk (Address a) (Issuer a) v (TxCnt a) (IsStaking a) (CommitmentKey a)
     (StakingBlockHeight a) (Contract a) (ContractVariables a).
Definition set_TxCnt (v : Z) (a : t) : t :=
  mk (Address a) (Issuer a) (Balance a) v (IsStaking a) (CommitmentKey a)
     (StakingBlockHeight a) (Contract a) (ContractVariables a).
Definition set_IsStaking (v : bool) (a : t) : t :=
  mk (Address a) (Issuer a) (Balance a) (TxCnt a) v (CommitmentKey a)
     (StakingBlockHeight a) (Contract a) (ContractVariables a).
Definition set_CommitmentKey (v : Z) (a : t) : t :=
  mk (Address a) (Issuer a) (Balance a) (TxCnt a) (IsStaking a) v
     (StakingBlockHeight a) (Contract a) (ContractVariables a).
Definition set_ContractVariables (v : list (list Z)) (a : t) : t :=
  mk (Address a) (Issuer a) (Balance a) (TxCnt a) (IsStaking a)
     (CommitmentKey a) (StakingBlockHeight a) (Contract a) v.

(** Modelled from the spec: [protocol.NewAccount] is outside the given
    sources; it fills the struct from its arguments, the counters start
    at zero. *)
Definition NewAccount (address issuer balance : Z) (isStaking : bool)
    (commitmentKey : Z) (contract : option (list Z))
    (contractVariables : list (list Z)) : t :=
  mk address issuer balance 0 isStaking commitmentKey 0 contract
     contractVariables.
End Account.

(** What [protocol.SerializeHashContent] is applied to in the sources: an
    account address, or the anonymous struct built by [FundsTx.Hash]. *)
Inductive HashContent :=
| HCAddress (address : Z)
| HCFundsTx (Header Amount Fee TxCnt From To : Z) (Data : option (list Z)).

(** The value stream of [encoding/gob] for one struct: the pairs (field
    number, value) of the fields that are sent.  gob omits a field that has
    the zero value of its type, except arrays, which are always sent; an
    empty slice is omitted like a nil one.  The decoder stores each field it
    receives and leaves the others as they are. *)
Inductive gobValue :=
| GobUint (n : Z)
| GobBool (b : bool)
| GobArray (a : Z)
| GobBytes (l : list Z).

Definition gobField : Type := nat * gobValue.

Definition gobUint (i : nat) (n : Z) : list gobField :=
  if decide (n = 0) then [] else [(i, GobUint n)].
Definition gobBool (i : nat) (b : bool) : list gobField :=
  if b then [(i, GobBool true)] else [].
Definition gobArray (i : nat) (a : Z) : list gobField := [(i, GobArray a)].
Definition gobBytes (i : nat) (s : option (list Z)) : list gobField :=
  match s with
  | Some (x :: l) => [(i, GobBytes (x :: l))]
  | _ => []
  end.

(** A slice after one trip through gob: an empty slice is not sent, so it
    comes back nil. *)
Definition gobSlice (s : option (list Z)) : option (list Z) :=
  match s with
  | Some (x :: l) => Some (x :: l)
  | _ => None
  end.

Module FundsTx.
Definition FUNDSTX_SIZE : Z := 213.

Record t := mk {
  Header : Z;                  (* byte *)
  Amount : Z;                  (* uint64 *)
  Fee : Z;                     (* uint64 *)
  TxCnt : Z;                   (* uint32 *)
  From : Z;                    (* [32]byte *)
  To : Z;                      (* [32]byte *)
  Sig : Z;                     (* [64]byte *)
  Aggregated : bool;
  Data : option (list Z)       (* []byte *)
}.

Definition set_From (v : Z) (tx : t) : t :=
  mk (Header tx) (Amount tx) (Fee tx) (TxCnt tx) v (To tx) (Sig tx)
     (Aggregated tx) (Data tx).
Definition set_To (v : Z) (tx : t) : t :=
  mk (Header tx) (Amount tx) (Fee tx) (TxCnt tx) (From tx) v (Sig tx)
     (Aggregated tx) (Data tx).
Definition set_Aggregated (v : bool) (tx : t) : t :=
  mk (Header tx) (Amount tx) (Fee tx) (TxCnt tx) (From tx) (To tx) (Sig tx)
     v (Data tx).
Definition set_TxCnt (v : Z) (tx : t) : t :=
  mk (Header tx) (Amount tx) (Fee tx) v (From tx) (To tx) (Sig tx)
     (Aggregated tx) (Data tx).

(** The zero value [var decoded FundsTx]. *)
Definition zero : t := mk 0 0 0 0 0 0 0 false None.

(** [Hash]: the struct hashed leaves out [Sig] and [Aggregated]. *)
Definition Hash (SerializeHashContent : HashContent -> Z) (tx : t) : Z :=
  SerializeHashContent
    (HCFundsTx (Header tx) (Amount tx) (Fee tx) (TxCnt tx) (From tx) (To tx)
               (Data tx)).

(** The struct literal of [Encode]: every field but [Aggregated], which
    keeps its zero value. *)
Definition encodeData (tx : t) : t :=
  mk (Header tx) (Amount tx) (Fee tx) (TxCnt tx) (From tx) (To tx) (Sig tx)
     false (Data tx).

Definition gobEncode (d : t) : list gobField :=
  gobUint 1 (Header d) ++ gobUint 2 (Amount d) ++ gobUint 3 (Fee d) ++
  gobUint 4 (TxCnt d) ++ gobArray 5 (From d) ++ gobArray 6 (To d) ++
  gobArray 7 (Sig d) ++ gobBool 8 (Aggregated d) ++ gobBytes 9 (Data d).

Definition gobStore (d : t) (f : gobField) : t :=
  match f with
  | (1%nat, GobUint n) =>
      mk n (Amount d) (Fee d) (TxCnt d) (From d) (To d) (Sig d)
         (Aggregated d) (Data d)
  | (2%nat, GobUint n) =>
      mk (Header d) n (Fee d) (TxCnt d) (From d) (To d) (Sig d)
         (Aggregated d) (Data d)
  | (3%nat, GobUint n) =>
      mk (Header d) (Amount d) n (TxCnt d) (From d) (To d) (Sig d)
         (Aggregated d) (Data d)
  | (4%nat, GobUint n) =>
      mk (Header d) (Amount d) (Fee d) n (From d) (To d) (Sig d)
         (Aggregated d) (Data d)
  | (5%nat, GobArray a) => set_From a d
  | (6%nat, GobArray a) => set_To a d
  | (7%nat, GobArray a) =>
      mk (Header d) (Amount d) (Fee d) (TxCnt d) (From d) (To d) a
         (Aggregated d) (Data d)
  | (8%nat, GobBool b) => set_Aggregated b d
  | (9%nat, GobBytes l) =>
      mk (Header d) (Amount d) (Fee d) (TxCnt d) (From d) (To d) (Sig d)
         (Aggregated d) (Some l)
  | _ => d
  end.

Definition gobDecode (s : list gobField) (d : t) : t :=
  fold_left gobStore s d.

Definition Encode (tx : t) : list gobField := gobEncode (encodeData tx).
Definition Decode (encodedTx : list gobField) : t := gobDecode encodedTx zero.

Definition TxFee (tx : t) : Z := Fee tx.
Definition Size (tx : t) : Z := FUNDSTX_SIZE.
Definition Sender (tx : t) : Z := From tx.
Definition Receiver (tx : t) : Z := To tx.
End FundsTx.

Module IotTx.
Record t := mk {
  Header : Z;                  (* byte *)
  TxCnt : Z;                   (* uint32 *)
  From : Z;                    (* [32]byte *)
  To : Z;                      (* [32]byte *)
  Sig : Z;                     (* [64]byte *)
  Data : option (list Z);      (* []byte *)
  Fee : Z                      (* uint64 *)
}.

Definition set_From (v : Z) (tx : t) : t :=
  mk (Header tx) (TxCnt tx) v (To tx) (Sig tx) (Data tx) (Fee tx).
Definition set_To (v : Z) (tx : t) : t :=
  mk (Header tx) (TxCnt tx) (From tx) v (Sig tx) (Data tx) (Fee tx).

Definition zero : t := mk 0 0 0 0 0 None 0.

Definition TxFee (tx : t) : Z := Fee tx.

(** [Hash]: To, From, TxCnt, fee, Header, Data written big-endian into one
    buffer, then SHA3-256. *)
Definition Hash (sha3_Sum256 : list Z -> Z) (tx : t) : Z :=
  sha3_Sum256
    (be_bytes 32 (To tx) ++ be_bytes 32 (From tx) ++ be_bytes 4 (TxCnt tx) ++
     be_bytes 8 (TxFee tx) ++ be_bytes 1 (Header tx) ++
     slice_bytes (Data tx)).

(** The struct literal of [Encode] copies all seven fields. *)
Definition encodeData (tx : t) : t :=
  mk (Header tx) (TxCnt tx) (From tx) (To tx) (Sig tx) (Data tx) (Fee tx).

Definition gobEncode (d : t) : list gobField :=
  gobUint 1 (Header d) ++ gobUint 2 (TxCnt d) ++ gobArray 3 (From d) ++
  gobArray 4 (To d) ++ gobArray 5 (Sig d) ++ gobBytes 6 (Data d) ++
  gobUint 7 (Fee d).

Definition gobStore (d : t) (f : gobField) : t :=
  match f with
  | (1%nat, GobUint n) =>
      mk n (TxCnt d) (From d) (To d) (Sig d) (Data d) (Fee d)
  | (2%nat, GobUint n) =>
      mk (Header d) n (From d) (To d) (Sig d) (Data d) (Fee d)
  | (3%nat, GobArray a) => set_From a d
  | (4%nat, GobArray a) => set_To a d
  | (5%nat, GobArray a) =>
      mk (Header d) (TxCnt d) (From d) (To d) a (Data d) (Fee d)
  | (6%nat, GobBytes l) =>
      mk (Header d) (TxCnt d) (From d) (To d) (Sig d) (Some l) (Fee d)
  | (7%nat, GobUint n) =>
      mk (Header d) (TxCnt d) (From d) (To d) (Sig d) (Data d) n
  | _ => d
  end.

Definition gobDecode (s : list gobField) (d : t) : t :=
  fold_left gobStore s d.

Definition Encode (tx : t) : list gobField := gobEncode (encodeData tx).
Definition Decode (encodedTx : list gobField) : t := gobDecode encodedTx zero.

Definition Sender (tx : t) : Z := 0.
Definition Receiver (tx : t) : Z := 0.
End IotTx.

(** Modelled from the spec: the structs [AccTx], [ConfigTx], [StakeTx] and
    [AggTx] are declared outside the given sources; they carry the fields
    the miner reads and the data model lists. *)
Module AccTx.
Record t := mk {
  Header : Z;                  (* byte; bit 0x02 asks for removal *)
  Issuer : Z;
  Fee : Z;
  PubKey : list Z;
  Sig : Z
}.
Definition TxFee (tx : t) : Z := Fee tx.
End AccTx.

Module ConfigTx.
Record t := mk {
  Header : Z;
  Id : Z;
  Payload : Z;
  Fee : Z;
  TxCnt : Z;
  Sig : Z
}.
Definition TxFee (tx : t) : Z := Fee tx.
End ConfigTx.

Module StakeTx.
Record t := mk {
  Header : Z;
  Fee : Z;
  IsStaking : bool;
  Account : Z;                 (* [32]byte *)
  Sig : Z;
  CommitmentKey : Z
}.
Definition set_Account (v : Z) (tx : t) : t :=
  mk (Header tx) (Fee tx) (IsStaking tx) v (Sig tx) (CommitmentKey tx).
Definition TxFee (tx : t) : Z := Fee tx.
End StakeTx.

Module AggTx.
Record t := mk {
  Amount : Z;
  Fee : Z;
  From : list Z;               (* [][32]byte *)
  To : list Z;                 (* [][32]byte *)
  AggregatedTxSlice : list Z   (* [][32]byte *)
}.
Definition TxFee (tx : t) : Z := Fee tx.

(** Modelled from the spec: [protocol.ConstrAggTx] is outside the given
    sources; it builds the record from its five arguments (summed amount,
    fee, senders, receivers, member hashes), unsigned. *)
Definition ConstrAggTx (amount fee : Z) (from to transactions : list Z) : t :=
  mk amount fee from to transactions.
End AggTx.

(** The interface [protocol.Transaction] with the six types that implement
    it. *)
Inductive Transaction :=
| TAccTx (tx : AccTx.t)
| TFundsTx (tx : FundsTx.t)
| TConfigTx (tx : ConfigTx.t)
| TStakeTx (tx : StakeTx.t)
| TAggTx (tx : AggTx.t)
| TIotTx (tx : IotTx.t).

Definition TxFee (tx : Transaction) : Z :=
  match tx with
  | TAccTx t => AccTx.TxFee t
  | TFundsTx t => FundsTx.TxFee t
  | TConfigTx t => ConfigTx.TxFee t
  | TStakeTx t => StakeTx.TxFee t
  | TAggTx t => AggTx.TxFee t
  | TIotTx t => IotTx.TxFee t
  end.

Module Block.
(** The fields of [protocol.Block] that block assembly reads or writes. *)
Record t := mk {
  PrevHash : Z;
  PrevHashWithoutTx : Z;
  CommitmentProof : Z;
  Height : Z;
  Aggregated : bool;
  StateCopy : gmap Z Account.t;
  AccTxData : list Z;
  FundsTxData : list Z;
  ConfigTxData : list Z;
  StakeTxData : list Z;
  AggTxData : list Z;
  IoTTxData : list Z
}.

Definition set_StateCopy (v : gmap Z Account.t) (b : t) : t :=
  mk (PrevHash b) (PrevHashWithoutTx b) (CommitmentProof b) (Height b)
     (Aggregated b) v (AccTxData b) (FundsTxData b) (ConfigTxData b)
     (StakeTxData b) (AggTxData b) (IoTTxData b).
Definition set_AccTxData (v : list Z) (b : t) : t :=
  mk (PrevHash b) (PrevHashWithoutTx b) (CommitmentProof b) (Height b)
     (Aggregated b) (StateCopy b) v (FundsTxData b) (ConfigTxData b)
     (StakeTxData b) (AggTxData b) (IoTTxData b).
Definition set_FundsTxData (v : list Z) (b : t) : t :=
  mk (PrevHash b) (PrevHashWithoutTx b) (CommitmentProof b) (Height b)
     (Aggregated b) (StateCopy b) (AccTxData b) v (ConfigTxData b)
     (StakeTxData b) (AggTxData b) (IoTTxData b).
Definition set_ConfigTxData (v : list Z) (b : t) : t :=
  mk (PrevHash b) (PrevHashWithoutTx b) (CommitmentProof b) (Height b)
     (Aggregated b) (StateCopy b) (AccTxData b) (FundsTxData b) v
     (StakeTxData b) (AggTxData b) (IoTTxData b).
Definition set_StakeTxData (v : list Z) (b : t) : t :=
  mk (PrevHash b) (PrevHashWithoutTx b) (CommitmentProof b) (Height b)
     (Aggregated b) (StateCopy b) (AccTxData b) (FundsTxData b)
     (ConfigTxData b) v (AggTxData b) (IoTTxData b).
Definition set_AggTxData (v : list Z) (b : t) : t :=
  mk (PrevHash b) (PrevHashWithoutTx b) (CommitmentProof b) (Height b)
     (Aggregated b) (StateCopy b) (AccTxData b) (FundsTxData b)
     (ConfigTxData b) (StakeTxData b) v (IoTTxData b).
Definition set_IoTTxData (v : list Z) (b : t) : t :=
  mk (PrevHash b) (PrevHashWithoutTx b) (CommitmentProof b) (Height b)
     (Aggregated b) (StateCopy b) (AccTxData b) (FundsTxData b)
     (ConfigTxData b) (StakeTxData b) (AggTxData b) v.

(** The six per-category hash sequences, in the block's category order. *)
Definition TxData (b : t) : list (list Z) :=
  [AccTxData b; FundsTxData b; ConfigTxData b; StakeTxData b; AggTxData b;
   IoTTxData b].
End Block.

(** ** What the miner takes from outside the given sources

    Hash functions, signature verification, the virtual machine and the
    [Hash] methods of the transaction types declared elsewhere, together
    with the two constants of the miner's configuration. *)
Record Externals := {
  SerializeHashContent : HashContent -> Z;     (* protocol *)
  SerializeHashContentIoT : Z -> Z;            (* protocol *)
  sha3_Sum256 : list Z -> Z;                   (* x/crypto/sha3 *)
  ed25519_Verify : Z -> Z -> Z -> bool;        (* publicKey, message, sig *)
  AccTx_Hash : AccTx.t -> Z;
  ConfigTx_Hash : ConfigTx.t -> Z;
  StakeTx_Hash : StakeTx.t -> Z;
  AggTx_Hash : AggTx.t -> Z;
  (** [vm.NewVM(context).Exec(false)] followed by [context.PersistChanges()]:
      [None] when execution fails, otherwise the contract variables of the
      receiver afterwards. *)
  vm_Exec : Account.t -> FundsTx.t -> option (list (list Z));
  MAX_MONEY : Z;
  FEE_MINIMUM : Z
}.

(** [tx.Hash()] through the [Transaction] interface. *)
Definition TxHash (E : Externals) (tx : Transaction) : Z :=
  match tx with
  | TAccTx t => AccTx_Hash E t
  | TFundsTx t => FundsTx.Hash (SerializeHashContent E) t
  | TConfigTx t => ConfigTx_Hash E t
  | TStakeTx t => StakeTx_Hash E t
  | TAggTx t => AggTx_Hash E t
  | TIotTx t => IotTx.Hash (sha3_Sum256 E) t
  end.

(** [ConstrFundsTx]: fills the fields, hashes and signs.  [Sign] is
    [ed25519.Sign], [None] being a nil signature; the two [fmt.Println] are
    left out and the error returned is always nil. *)
Definition ConstrFundsTx (E : Externals) (Sign : Z -> Z -> option Z)
    (header amount fee txCnt from to sigKey : Z) (data : option (list Z))
  : FundsTx.t :=
  let tx := FundsTx.mk header amount fee txCnt from to 0 false data in
  let txHash := FundsTx.Hash (SerializeHashContent E) tx in
  match Sign sigKey txHash with
  | None => tx
  | Some signature =>
      FundsTx.mk header amount fee txCnt from to signature false data
  end.

(** [ConstrIotTx]: [tx.Fee = tx.TxFee()] reads the fee of the transaction
    under construction; the parameter [fee] is not used. *)
Definition ConstrIotTx (E : Externals) (Sign : Z -> Z -> option Z)
    (header fee txCnt from to sigKey : Z) (data : option (list Z)) : IotTx.t :=
  let tx := IotTx.zero in
  let tx := IotTx.mk header (IotTx.TxCnt tx) (IotTx.From tx) (IotTx.To tx)
                     (IotTx.Sig tx) (IotTx.Data tx) (IotTx.Fee tx) in
  let tx := IotTx.mk (IotTx.Header tx) (IotTx.TxCnt tx) (IotTx.From tx)
                     (IotTx.To tx) (IotTx.Sig tx) (IotTx.Data tx)
                     (IotTx.TxFee tx) in
  let tx := IotTx.mk (IotTx.Header tx) txCnt from to (IotTx.Sig tx) data
                     (IotTx.Fee tx) in
  let txHash := IotTx.Hash (sha3_Sum256 E) tx in
  match Sign sigKey txHash with
  | None => tx
  | Some signature =>
      IotTx.mk (IotTx.Header tx) (IotTx.TxCnt tx) (IotTx.From tx) (IotTx.To tx)
               signature (IotTx.Data tx) (IotTx.Fee tx)
  end.

(** ** Package [storage] and the miner's global parameters *)

Record Parameters := {
  Fee_minimum : Z;
  Staking_minimum : Z
}.

Module storage.
Record t := mk {
  State : gmap Z Account.t;        (* map[[32]byte]*Account *)
  RootKeys : gmap Z Account.t;
  OpenTx : list Transaction        (* handed to WriteOpenTx, newest first *)
}.

(** Modelled from the spec: [storage.IsRootKey] is outside the given
    sources; [is_root(addr)] looks the key up in the root-key registry. *)
Definition IsRootKey (s : t) (hash : Z) : bool :=
  bool_decide (is_Some (RootKeys s !! hash)).

(** Modelled from the spec: [storage.WriteAccount] is outside the given
    sources; [put(addr, Account)] stores the account in the global state
    under its address. *)
Definition WriteAccount (acc : Account.t) (s : t) : t :=
  mk (<[Account.Address acc := acc]> (State s)) (RootKeys s) (OpenTx s).

(** Modelled from the spec: [storage.WriteOpenTx] is outside the given
    sources; [write_open_tx(Tx)] adds the transaction to open storage. *)
Definition WriteOpenTx (tx : Transaction) (s : t) : t :=
  mk (State s) (RootKeys s) (tx :: OpenTx s).
End storage.

(** ** Package [miner] *)

(** The [error] values the functions below return. *)
Inductive error :=
| ErrFeeTooLow             (* "Transaction fee too low: ..." *)
| ErrNotVerified           (* "Transaction could not be verified." *)
| ErrTypeNotRecognized     (* "Transaction type not recognized." *)
| ErrAccountExists         (* "Account already exists." *)
| ErrSenderMissing         (* "Sender account not present in the state: ..." *)
| ErrReceiverMissing       (* "Receiver account not present in the state: ..." *)
| ErrNotEnoughFunds        (* "Not enough funds to complete the transaction!" *)
| ErrOverflow              (* "Transaction amount (...) leads to overflow ..." *)
| ErrVM                    (* virtualMachine.GetErrorMsg() *)
| ErrAlreadySet            (* "Account has bool already set to the desired value." *)
| ErrNullPointer           (* "NullPointer" *)
| ErrAlreadyClosed         (* "Block validation had fundsTx that was already in a previous block." *)
| ErrAggTxNotRead          (* "AggTx could not be read: ..." *)
| ErrAggTxTimeout          (* "AggTx fetch timed out" *)
| ErrAggTxHashMismatch     (* "Received AggTxHash did not correspond to our request." *)
| ErrNested.               (* an error of the nested FundsTx fetch *)

(** How a call ends: [nil], an [error], or a run-time panic. *)
Inductive outcome :=
| Nil
| Err (e : error)
| Panic.

Module miner.
Section WithExternals.
Context (E : Externals).

(** [crypto.GetPubKeyFromAddressED]: the address bytes are the key. *)
Definition GetPubKeyFromAddressED (address : Z) : Z := address.

Definition newBlock (prevHash prevHashWithoutTx commitmentProof height : Z)
  : Block.t :=
  Block.mk prevHash prevHashWithoutTx commitmentProof height false ∅
           [] [] [] [] [] [].

(** *** Verification *)

Definition verifyFundsTx (s : storage.t) (tx : FundsTx.t)
  : bool * FundsTx.t :=
  if (FundsTx.Amount tx =? 0) || (FundsTx.Amount tx >? MAX_MONEY E) then
    (false, tx)
  else
    match storage.State s !! FundsTx.From tx,
          storage.State s !! FundsTx.To tx with
    | Some accFrom, Some accTo =>
        let accFromHash :=
          SerializeHashContent E (HCAddress (Account.Address accFrom)) in
        let accToHash :=
          SerializeHashContent E (HCAddress (Account.Address accTo)) in
        let txHash := FundsTx.Hash (SerializeHashContent E) tx in
        let pubKey := GetPubKeyFromAddressED (Account.Address accFrom) in
        let tx := FundsTx.set_To accToHash (FundsTx.set_From accFromHash tx) in
        if ed25519_Verify E pubKey txHash (FundsTx.Sig tx)
           && negb (bool_decide (FundsTx.From tx = FundsTx.To tx))
        then (true, tx)
        else (false, tx)
    | _, _ => (false, tx)
    end.

Definition verifyIotTx (s : storage.t) (tx : IotTx.t) : bool * IotTx.t :=
  match storage.State s !! IotTx.From tx, storage.State s !! IotTx.To tx with
  | Some accFrom, Some accTo =>
      let accFromHash := SerializeHashContentIoT E (Account.Address accFrom) in
      let accToHash := SerializeHashContentIoT E (Account.Address accTo) in
      let tx := IotTx.set_To accToHash (IotTx.set_From accFromHash tx) in
      let txHash := IotTx.Hash (sha3_Sum256 E) tx in
      let pubKey := Account.Address accFrom in
      if ed25519_Verify E pubKey txHash (IotTx.Sig tx)
         && negb (bool_decide (IotTx.From tx = IotTx.To tx))
      then
        (true,
         IotTx.set_To
           (SerializeHashContent E (HCAddress (Account.Address accTo)))
           (IotTx.set_From
              (SerializeHashContent E (HCAddress (Account.Address accFrom)))
              tx))
      else (false, tx)
  | _, _ => (false, tx)
  end.

(** The loop over [storage.RootKeys] returns true at the first root key
    that verifies the signature. *)
Definition verifyRootSig (s : storage.t) (txHash sig : Z) : bool :=
  existsb
    (fun kv : Z * Account.t =>
       ed25519_Verify E (GetPubKeyFromAddressED (Account.Address (snd kv)))
                      txHash sig)
    (map_to_list (storage.RootKeys s)).

Definition verifyAccTx (s : storage.t) (tx : AccTx.t) : bool :=
  verifyRootSig s (AccTx_Hash E tx) (AccTx.Sig tx).

Definition verifyConfigTx (s : storage.t) (tx : ConfigTx.t) : bool :=
  verifyRootSig s (ConfigTx_Hash E tx) (ConfigTx.Sig tx).

Definition verifyStakeTx (s : storage.t) (tx : StakeTx.t)
  : bool * StakeTx.t * storage.t :=
  let '(acc, s) :=
    match storage.State s !! StakeTx.Account tx with
    | Some acc => (acc, s)
    | None =>
        let newAcc :=
          Account.NewAccount (StakeTx.Account tx) 0 0 false 0 None [] in
        (newAcc, storage.WriteAccount newAcc s)
    end in
  let tx :=
    StakeTx.set_Account
      (SerializeHashContent E (HCAddress (Account.Address acc))) tx in
  let txHash := StakeTx_Hash E tx in
  let pubKey := GetPubKeyFromAddressED (Account.Address acc) in
  (ed25519_Verify E pubKey txHash (StakeTx.Sig tx), tx, s).

Definition verifyAggTx (tx : AggTx.t) : bool := true.

Definition verify (s : storage.t) (tx : Transaction)
  : bool * Transaction * storage.t :=
  match tx with
  | TFundsTx t => let '(v, t) := verifyFundsTx s t in (v, TFundsTx t, s)
  | TAccTx t => (verifyAccTx s t, tx, s)
  | TConfigTx t => (verifyConfigTx s t, tx, s)
  | TStakeTx t => let '(v, t, s) := verifyStakeTx s t in (v, TStakeTx t, s)
  | TAggTx t => (verifyAggTx t, tx, s)
  | TIotTx t => let '(v, t) := verifyIotTx s t in (v, TIotTx t, s)
  end.

(** *** Adding transactions to a block *)

(** The lines every add function starts with, once for each account it
    touches: an account missing from [StateCopy] is copied from [storage.State]
    when its address hashes to the key; when the global state has no
    account under the key the add function returns its error ([None]
    here).  An account found under a key its address does not hash to is
    not copied and no error is returned. *)
Definition copyAccount (s : storage.t) (stateCopy : gmap Z Account.t)
    (key : Z) : option (gmap Z Account.t) :=
  match stateCopy !! key with
  | Some _ => Some stateCopy
  | None =>
      match storage.State s !! key with
      | Some acc =>
          if bool_decide
               (SerializeHashContent E (HCAddress (Account.Address acc)) = key)
          then Some (<[key := acc]> stateCopy)
          else Some stateCopy
      | None => None
      end
  end.

Definition addAccTx (s : storage.t) (b : Block.t) (tx : AccTx.t)
  : outcome * Block.t :=
  let accHash := sha3_Sum256 E (AccTx.PubKey tx) in
  if negb (Z.land (AccTx.Header tx) 2 =? 2)
     && bool_decide (is_Some (storage.State s !! accHash))
  then (Err ErrAccountExists, b)
  else (Nil, Block.set_AccTxData (Block.AccTxData b ++ [AccTx_Hash E tx]) b).

Definition addIoTTx (s : storage.t) (b : Block.t) (tx : IotTx.t)
  : outcome * Block.t :=
  match copyAccount s (Block.StateCopy b) (IotTx.From tx) with
  | None => (Err ErrSenderMissing, b)
  | Some sc =>
    let b := Block.set_StateCopy sc b in
    match copyAccount s (Block.StateCopy b) (IotTx.To tx) with
    | None => (Err ErrReceiverMissing, b)
    | Some sc =>
      let b := Block.set_StateCopy sc b in
      (* both checks only print or do nothing, but read the sender *)
      match Block.StateCopy b !! IotTx.From tx with
      | None => (Panic, b)
      | Some _ =>
        let accSender (a : Account.t) :=
          let a := Account.set_TxCnt (wrap32 (Account.TxCnt a + 1)) a in
          Account.set_Balance (wrap64 (Account.Balance a - IotTx.Fee tx)) a in
        let b :=
          Block.set_StateCopy
            (alter accSender (IotTx.From tx) (Block.StateCopy b)) b in
        (Nil,
         Block.set_IoTTxData
           (Block.IoTTxData b ++ [IotTx.Hash (sha3_Sum256 E) tx]) b)
      end
    end
  end.

Definition addFundsTx (s : storage.t) (b : Block.t) (tx : FundsTx.t)
  : outcome * Block.t :=
  match copyAccount s (Block.StateCopy b) (FundsTx.From tx) with
  | None => (Err ErrSenderMissing, b)
  | Some sc =>
    let b := Block.set_StateCopy sc b in
    match copyAccount s (Block.StateCopy b) (FundsTx.To tx) with
    | None => (Err ErrReceiverMissing, b)
    | Some sc =>
      let b := Block.set_StateCopy sc b in
      match Block.StateCopy b !! FundsTx.From tx with
      | None => (Panic, b)
      | Some accFrom =>
        if negb (storage.IsRootKey s (FundsTx.From tx))
           && (wrap64 (FundsTx.Amount tx + FundsTx.Fee tx)
               >? Account.Balance accFrom)
        then (Err ErrNotEnoughFunds, b)
        else
          (* the txCnt comparison has an empty body *)
          match Block.StateCopy b !! FundsTx.To tx with
          | None => (Panic, b)
          | Some accTo =>
            if wrap64 (Account.Balance accTo + FundsTx.Amount tx)
               >? MAX_MONEY E
            then (Err ErrOverflow, b)
            else
              let run :=
                match FundsTx.Data tx, Account.Contract accTo with
                | Some _, Some _ =>
                    match vm_Exec E accTo tx with
                    | None => None
                    | Some vars =>
                        Some (Block.set_StateCopy
                                (alter (Account.set_ContractVariables vars)
                                       (FundsTx.To tx) (Block.StateCopy b)) b)
                    end
                | _, _ => Some b
                end in
              match run with
              | None => (Err ErrVM, b)
              | Some b =>
                let accSender (a : Account.t) :=
                  let a := Account.set_TxCnt (wrap32 (Account.TxCnt a + 1)) a in
                  Account.set_Balance
                    (wrap64 (Account.Balance a - FundsTx.Amount tx)) a in
                let b :=
                  Block.set_StateCopy
                    (alter accSender (FundsTx.From tx) (Block.StateCopy b)) b in
                let accReceiver (a : Account.t) :=
                  Account.set_Balance
                    (wrap64 (Account.Balance a + FundsTx.Amount tx)) a in
                let b :=
                  Block.set_StateCopy
                    (alter accReceiver (FundsTx.To tx) (Block.StateCopy b)) b in
                (Nil,
                 Block.set_FundsTxData
                   (Block.FundsTxData b
                    ++ [FundsTx.Hash (SerializeHashContent E) tx]) b)
              end
          end
      end
    end
  end.

Definition addFundsTxFinal (b : Block.t) (tx : FundsTx.t) : Block.t :=
  Block.set_FundsTxData
    (Block.FundsTxData b ++ [FundsTx.Hash (SerializeHashContent E) tx]) b.

Definition addAggTxFinal (b : Block.t) (tx : AggTx.t) : Block.t :=
  Block.set_AggTxData (Block.AggTxData b ++ [AggTx_Hash E tx]) b.

Definition addIoTTxFinal (b : Block.t) (tx : IotTx.t) : Block.t :=
  Block.set_IoTTxData
    (Block.IoTTxData b ++ [IotTx.Hash (sha3_Sum256 E) tx]) b.

Definition addConfigTx (b : Block.t) (tx : ConfigTx.t) : outcome * Block.t :=
  (Nil, Block.set_ConfigTxData (Block.ConfigTxData b ++ [ConfigTx_Hash E tx]) b).

Definition addStakeTx (p : Parameters) (s : storage.t) (b : Block.t)
    (tx : StakeTx.t) : outcome * Block.t :=
  match copyAccount s (Block.StateCopy b) (StakeTx.Account tx) with
  | None => (Err ErrSenderMissing, b)
  | Some sc =>
    let b := Block.set_StateCopy sc b in
    match Block.StateCopy b !! StakeTx.Account tx with
    | None => (Panic, b)
    | Some acc =>
      if negb (storage.IsRootKey s
                 (SerializeHashContent E (HCAddress (StakeTx.Account tx))))
         && (wrap64 (StakeTx.Fee tx + Staking_minimum p)
             >=? Account.Balance acc)
      then (Err ErrNotEnoughFunds, b)
      else if bool_decide (Account.IsStaking acc = StakeTx.IsStaking tx)
      then (Err ErrAlreadySet, b)
      else
        let accSender (a : Account.t) :=
          Account.set_CommitmentKey (StakeTx.CommitmentKey tx)
            (Account.set_IsStaking (StakeTx.IsStaking tx) a) in
        let b :=
          Block.set_StateCopy
            (alter accSender (StakeTx.Account tx) (Block.StateCopy b)) b in
        (Nil,
         Block.set_StakeTxData (Block.StakeTxData b ++ [StakeTx_Hash E tx]) b)
    end
  end.

(** What [addTx] leaves behind: its result, the block, the global storage
    ([verifyStakeTx] may write to it) and the transaction ([verify]
    rewrites address fields in place). *)
Record added := mkAdded {
  result : outcome;
  block : Block.t;
  store : storage.t;
  transaction : Transaction
}.

Definition addTx (p : Parameters) (s : storage.t) (b : Block.t)
    (tx : Transaction) : added :=
  if TxFee tx <? Fee_minimum p then mkAdded (Err ErrFeeTooLow) b s tx
  else
    let '(verified, tx, s) := verify s tx in
    if negb verified then mkAdded (Err ErrNotVerified) b s tx
    else
      match tx with
      | TAccTx t => let '(r, b) := addAccTx s b t in mkAdded r b s tx
      | TFundsTx t => let '(r, b) := addFundsTx s b t in mkAdded r b s tx
      | TConfigTx t => let '(r, b) := addConfigTx b t in mkAdded r b s tx
      | TStakeTx t => let '(r, b) := addStakeTx p s b t in mkAdded r b s tx
      | TIotTx t => let '(r, b) := addIoTTx s b t in mkAdded r b s tx
      | TAggTx _ => mkAdded (Err ErrTypeNotRecognized) b s tx
      end.

(** *** Aggregation *)

(** The local variables of the first loop of [AggregateFundsTransactions]. *)
Record aggLoop := mkAggLoop {
  amount : Z;
  transactionSenders : list Z;
  nrOfSender : gmap Z Z;
  transactionReceivers : list Z;
  nrOfReceivers : gmap Z Z;
  transactionHashes : list Z
}.

Definition aggLoop0 : aggLoop := mkAggLoop 0 [] ∅ [] ∅ [].

(** [m[k] = m[k]]: the key is entered with the value it reads, which is
    zero for a new key. *)
Definition reassign (k : Z) (m : gmap Z Z) : gmap Z Z :=
  <[k := default 0 (m !! k)]> m.

Definition aggStep (l : aggLoop) (tx : FundsTx.t) : aggLoop :=
  mkAggLoop
    (wrap64 (amount l + FundsTx.Amount tx))
    (transactionSenders l ++ [FundsTx.From tx])
    (reassign (FundsTx.From tx) (nrOfSender l))
    (transactionReceivers l ++ [FundsTx.To tx])
    (reassign (FundsTx.To tx) (nrOfReceivers l))
    (transactionHashes l ++ [FundsTx.Hash (SerializeHashContent E) tx]).

(** What [AggregateFundsTransactions] leaves behind: its result, the
    block, the open storage, the transactions it was given (it marks them
    aggregated) and the AggTx it built, if any. *)
Record aggregated := mkAggregated {
  aggResult : outcome;
  aggBlock : Block.t;
  aggStore : storage.t;
  aggMembers : list FundsTx.t;
  aggTx : option AggTx.t
}.

Definition AggregateFundsTransactions (s : storage.t)
    (SortedAndSelectedFundsTx : list FundsTx.t) (block : Block.t)
    (selection : Z) : aggregated :=
  if (1 <? Z.of_nat (length SortedAndSelectedFundsTx)) then
    let l := fold_left aggStep SortedAndSelectedFundsTx aggLoop0 in
    let members := map (FundsTx.set_Aggregated true) SortedAndSelectedFundsTx in
    let '(senders, receivers) :=
      if Z.of_nat (size (nrOfSender l)) <? Z.of_nat (size (nrOfReceivers l))
      then (take 1 (transactionSenders l), transactionReceivers l)
      else if Z.of_nat (size (nrOfSender l))
              >? Z.of_nat (size (nrOfReceivers l))
      then (transactionSenders l, take 1 (transactionReceivers l))
      else (transactionSenders l, transactionReceivers l) in
    let aggTx :=
      AggTx.ConstrAggTx (amount l) (FEE_MINIMUM E) senders receivers
                        (transactionHashes l) in
    mkAggregated Nil (addAggTxFinal block aggTx)
                 (storage.WriteOpenTx (TAggTx aggTx) s) members (Some aggTx)
  else
    match SortedAndSelectedFundsTx with
    | tx :: _ =>
        mkAggregated Nil (addFundsTxFinal block tx) s
                     SortedAndSelectedFundsTx None
    | [] => mkAggregated (Err ErrNullPointer) block s [] None
    end.

(** *** Fetching the AggTx payloads of a block

    [fetchAggTxData] runs as one task and reports on [errChan]; the model
    is the task taken alone.  What it meets outside itself is given as
    data: closed and open storage as lookups, and the peer network as the
    list of what each successive [p2p.TxReq] leads to.  The nested fetch
    of the member FundsTx runs as a task of its own; the outer task sees
    only the first value it sends, which is [nested] below. *)

Inductive response :=
| ReqFailed                                   (* TxReq returned an error *)
| TimedOut                                    (* nothing within TXFETCH_TIMEOUT *)
| Received (tx : AggTx.t) (nested : option error).

Record fetched := mkFetched {
  errChan : list (option error);      (* the values sent, in order *)
  aggTxSlice : list (option AggTx.t);
  opened : list AggTx.t;              (* handed to WriteOpenTx *)
  stopped : bool                      (* the task returned early *)
}.

Definition send (e : option error) (f : fetched) : fetched :=
  mkFetched (errChan f ++ [e]) (aggTxSlice f) (opened f) (stopped f).
Definition sendNested (e : option error) (f : fetched) : fetched :=
  match e with Some _ => send e f | None => f end.
Definition stop (f : fetched) : fetched :=
  mkFetched (errChan f) (aggTxSlice f) (opened f) true.
Definition open (tx : AggTx.t) (f : fetched) : fetched :=
  mkFetched (errChan f) (aggTxSlice f) (opened f ++ [tx]) (stopped f).
(** [aggTxSlice[cnt] = aggTx]; an index past the end of the slice is a
    run-time panic. *)
Definition store_at (i : nat) (tx : AggTx.t) (net : list response)
    (f : fetched) : outcome * list response * fetched :=
  if bool_decide (i < length (aggTxSlice f))%nat then
    (Nil, net,
     mkFetched (errChan f) (<[i := Some tx]> (aggTxSlice f)) (opened f)
               (stopped f))
  else (Panic, net, f).

(** The request loop between the label [here] and the [goto]: [cnt] is
    the inner counter on arrival at the label.  It yields the AggTx held
    when the loop is left by falling through, or nothing when the task
    returned, and the responses not yet consumed.  When the list of
    responses is used up the peer never answers. *)
Fixpoint requestAggTx (txHash : Z) (cnt : Z) (net : list response)
    (f : fetched) : option AggTx.t * list response * fetched :=
  match net with
  | [] => (None, [], stop (send (Some ErrAggTxTimeout) f))
  | r :: net =>
      let cnt := cnt + 1 in
      match r with
      | ReqFailed => (None, net, stop (send (Some ErrAggTxNotRead) f))
      | TimedOut => (None, net, stop (send (Some ErrAggTxTimeout) f))
      | Received aggTx nested =>
          let f := sendNested nested (open aggTx f) in
          if negb (bool_decide (AggTx_Hash E aggTx = txHash)) && (cnt <? 2)
          then requestAggTx txHash cnt net f
          else (Some aggTx, net, f)
      end
  end.

(** One round of the loop over [block.AggTxData], for the hash at index
    [i].  [closed] and [openTx] are [storage.ReadClosedTx] and
    [storage.ReadOpenTx]; [nestedClosed] is what the nested fetch sends
    for a closed AggTx during the initial setup. *)
Definition fetchAggTx (closed openTx : Z -> option Transaction)
    (nestedClosed : AggTx.t -> option error) (initialSetup : bool)
    (i : nat) (txHash : Z) (net : list response) (f : fetched)
  : outcome * list response * fetched :=
  match closed txHash with
  | Some closedTx =>
      if initialSetup then
        match closedTx with
        | TAggTx t => store_at i t net (sendNested (nestedClosed t) f)
        | _ => (Panic, net, f)
        end
      else (Nil, net, stop (send (Some ErrAlreadyClosed) f))
  | None =>
      match openTx txHash with
      | Some (TAggTx t) => store_at i t net f
      | Some _ => (Panic, net, f)
      | None =>
          match requestAggTx txHash 0 net f with
          | (Some t, net, f) => store_at i t net f
          | (None, net, f) => (Nil, net, f)
          end
      end
  end.

Fixpoint fetchAggTxLoop (closed openTx : Z -> option Transaction)
    (nestedClosed : AggTx.t -> option error) (initialSetup : bool)
    (i : nat) (hashes : list Z) (net : list response) (f : fetched)
  : outcome * fetched :=
  match hashes with
  | [] => (Nil, send None f)
  | txHash :: hashes =>
      match fetchAggTx closed openTx nestedClosed initialSetup i txHash net f with
      | (Nil, net, f) =>
          if stopped f then (Nil, f)
          else fetchAggTxLoop closed openTx nestedClosed initialSetup
                              (S i) hashes net f
      | (r, _, f) => (r, f)
      end
  end.

(** [aggTxSlice] arrives with one nil entry per hash of [block.NrAggTx]. *)
Definition fetchAggTxData (closed openTx : Z -> option Transaction)
    (nestedClosed : AggTx.t -> option error) (initialSetup : bool)
    (block : Block.t) (aggTxSlice : list (option AggTx.t))
    (net : list response) : outcome * fetched :=
  fetchAggTxLoop closed openTx nestedClosed initialSetup 0
                 (Block.AggTxData block) net
                 (mkFetched [] aggTxSlice [] false).
End WithExternals.

(** *** Choosing what to aggregate *)

(** One round of the loop of [getMaxKeyAndValueFormMap], at key [k]. *)
Definition getMaxStep (m : gmap Z Z) (best : Z * Z) (k : Z) : Z * Z :=
  if default 0 (m !! k) >? fst best then (default 0 (m !! k), k) else best.

(** [getMaxKeyAndValueFormMap]: Go leaves the order in which [range] visits
    a map open, so the keys come in the order [keys]; the result is the pair
    (max, biggestK), starting from zero and the zero address. *)
Definition getMaxKeyAndValueFormMap (keys : list Z) (m : gmap Z Z) : Z * Z :=
  fold_left (getMaxStep m) keys (0, 0).

(** *** Sorting before aggregation *)

(** Go's [<] on strings: byte by byte, a proper prefix comes first. *)
Fixpoint string_lt (a b : list Z) : bool :=
  match a, b with
  | [], [] => false
  | [], _ :: _ => true
  | _ :: _, [] => false
  | x :: a, y :: b =>
      if x <? y then true else if y <? x then false else string_lt a b
  end.

Definition lessFunc : Type := FundsTx.t -> FundsTx.t -> bool.

Record multiSorter := mkMultiSorter {
  transactions : list FundsTx.t;
  less : list lessFunc
}.

Definition OrderedBy (less : list lessFunc) : multiSorter :=
  mkMultiSorter [] less.

Definition Len (ms : multiSorter) : Z := Z.of_nat (length (transactions ms)).

(** [Swap]; an index past the end is a run-time panic ([None]). *)
Definition Swap (ms : multiSorter) (i j : nat) : option multiSorter :=
  match transactions ms !! i, transactions ms !! j with
  | Some p, Some q =>
      Some (mkMultiSorter (<[j := p]> (<[i := q]> (transactions ms))) (less ms))
  | _, _ => None
  end.

(** The loop of [Less] over all but the last comparison, then the last one;
    without any comparison [ms.less[k]] is out of range ([None]). *)
Fixpoint lessLoop (less : list lessFunc) (p q : FundsTx.t) : option bool :=
  match less with
  | [] => None
  | [f] => Some (f p q)
  | f :: rest =>
      if f p q then Some true
      else if f q p then Some false
      else lessLoop rest p q
  end.

Definition Less (ms : multiSorter) (i j : nat) : option bool :=
  match transactions ms !! i, transactions ms !! j with
  | Some p, Some q => lessLoop (less ms) p q
  | _, _ => None
  end.

(** The two comparisons of [sortFundsTxBeforeAggregation]. *)
Definition sender (c1 c2 : FundsTx.t) : bool :=
  string_lt (be_bytes 32 (FundsTx.From c1)) (be_bytes 32 (FundsTx.From c2)).
Definition txcount (c1 c2 : FundsTx.t) : bool :=
  FundsTx.TxCnt c1 <? FundsTx.TxCnt c2.

(** The sorter [sortFundsTxBeforeAggregation] hands to [sort.Sort]. *)
Definition sortFundsTxBeforeAggregation_sorter (Slice : list FundsTx.t)
  : multiSorter :=
  mkMultiSorter Slice (less (OrderedBy [sender; txcount])).

(** *** Validating a block *)

(** The errors of the validation functions below. *)
Inductive invalid :=
| TimestampFuture          (* "Timestamp was too far in the future. ..." *)
| TimestampPast            (* "Timestamp was too far in the past. ..." *)
| DuplicateAcc             (* "Duplicate Account Transaction Hash detected." *)
| DuplicateFunds           (* "Duplicate Funds Transaction Hash detected." *)
| DuplicateConfig          (* "Duplicate Config Transaction Hash detected." *)
| DuplicateStake           (* "Duplicate Stake Transaction Hash detected." *)
| DuplicateAgg             (* "Duplicate Aggregation Transaction Hash detected." *)
| DuplicateIoT             (* "Duplicate IoT Transaction Hash detected." *)
| SlashInvalidHashes       (* "... Invalid conflicting block hashes provided." *)
| SlashSameHashes          (* "... Conflicting block hashes are the same." *)
| SlashSameChain           (* "... Conflicting block hashes are on the same chain." *)
| SlashNotFound1           (* "... Could not find a block with the provided conflicting hash (1)." *)
| SlashNoAncestor1         (* "... Could not find a ancestor for the provided conflicting hash (1)." *)
| SlashNotFound2           (* "... Could not find a block with the provided conflicting hash (2)." *)
| SlashNoAncestor2         (* "... Could not find a ancestor for the provided conflicting hash (2)." *)
| SlashWindow.             (* the same text as [SlashNoAncestor2], for the heights *)

(** [int64] arithmetic. *)
Definition wrapInt64 (z : Z) : Z := (z + 2 ^ 63) mod 2 ^ 64 - 2 ^ 63.

(** [timestampCheck], with the system time [p2p.ReadSystemTime()] as an
    argument; [int64(time.Hour.Seconds())] is 3600. *)
Definition timestampCheck (systemTime timestamp : Z) : option invalid :=
  if timestamp >? systemTime then
    if wrapInt64 (timestamp - systemTime) >? 3600 then Some TimestampFuture
    else None
  else
    if wrapInt64 (systemTime - timestamp) >? 3600 then Some TimestampPast
    else None.

(** One of the six loops of [preValidate] over a hash sequence: the set
    [duplicates] of hashes seen so far, or the error of the loop. *)
Fixpoint scanDuplicates (e : invalid) (hashes : list Z) (duplicates : gset Z)
  : invalid + gset Z :=
  match hashes with
  | [] => inr duplicates
  | txHash :: hashes =>
      if bool_decide (txHash ∈ duplicates) then inl e
      else scanDuplicates e hashes ({[txHash]} ∪ duplicates)
  end.

(** The duplicate scan of [preValidate]: the six loops in their order, on
    one shared set. *)
Definition preValidate_duplicates (block : Block.t) : option invalid :=
  match scanDuplicates DuplicateAcc (Block.AccTxData block) ∅ with
  | inl e => Some e
  | inr d =>
  match scanDuplicates DuplicateFunds (Block.FundsTxData block) d with
  | inl e => Some e
  | inr d =>
  match scanDuplicates DuplicateConfig (Block.ConfigTxData block) d with
  | inl e => Some e
  | inr d =>
  match scanDuplicates DuplicateStake (Block.StakeTxData block) d with
  | inl e => Some e
  | inr d =>
  match scanDuplicates DuplicateAgg (Block.AggTxData block) d with
  | inl e => Some e
  | inr d =>
  match scanDuplicates DuplicateIoT (Block.IoTTxData block) d with
  | inl e => Some e
  | inr _ => None
  end end end end end end.

(** An entry of [slashingDict], with the fields [finalizeBlock] reads. *)
Record SlashingProof := mkSlashingProof {
  ConflictingBlockHash1 : Z;
  ConflictingBlockHash2 : Z;
  ConflictingBlockHashWithoutTx1 : Z;
  ConflictingBlockHashWithoutTx2 : Z
}.

(** How [slashingCheck] ends: (true, nil), (false, error), or a panic. *)
Inductive slashed :=
| SlashValid
| SlashInvalid (e : invalid)
| SlashPanic.

Section Slashing.
(** Block storage, the chain walk and the block codec are outside the given
    sources; the peer network is the list of what arrives on
    [p2p.BlockReqChan] after each request, [None] when nothing arrives
    within BLOCKFETCH_TIMEOUT (as when the list is used up). *)
Variables (ReadClosedBlock ReadClosedBlockWithoutTx ReadOpenBlock
             : Z -> option Block.t)
          (IsInSameChain : option Block.t -> option Block.t -> bool)
          (getNewChain_ancestor : option Block.t -> bool)
          (Block_Decode : list Z -> option Block.t).

(** The lines run for a conflicting block that no closed storage has: open
    storage, then the network, then the search for an ancestor.  The result
    is the block found (it may be nil after decoding) and the responses
    left, or the error returned. *)
Definition findConflictingBlock (hash : Z) (net : list (option (list Z)))
    (notFound noAncestor : invalid)
  : invalid + (option Block.t * list (option (list Z))) :=
  let fetched :=
    match ReadOpenBlock hash with
    | Some b => inr (Some b, net)
    | None =>
        match net with
        | Some encodedBlock :: net => inr (Block_Decode encodedBlock, net)
        | None :: _ | [] => inl notFound
        end
    end in
  match fetched with
  | inl e => inl e
  | inr (conflictingBlock, net) =>
      if getNewChain_ancestor conflictingBlock then inr (conflictingBlock, net)
      else inl noAncestor
  end.

Definition slashingCheck (Slashing_window_size : Z)
    (slashingDict : gmap Z SlashingProof)
    (slashedAddress conflictingBlockHash1 conflictingBlockHash2
       conflictingBlockHashWithoutTx1 conflictingBlockHashWithoutTx2 : Z)
    (net : list (option (list Z)))
  : slashed * gmap Z SlashingProof :=
  if bool_decide (conflictingBlockHash1 = 0)
     || bool_decide (conflictingBlockHash2 = 0)
  then (SlashInvalid SlashInvalidHashes, slashingDict)
  else if bool_decide (conflictingBlockHash1 = conflictingBlockHash2)
  then (SlashInvalid SlashSameHashes, slashingDict)
  else
    let conflictingBlock1 :=
      match ReadClosedBlock conflictingBlockHash1 with
      | Some b => Some b
      | None => ReadClosedBlockWithoutTx conflictingBlockHashWithoutTx1
      end in
    let conflictingBlock2 :=
      match ReadClosedBlock conflictingBlockHash2 with
      | Some b => Some b
      | None => ReadClosedBlockWithoutTx conflictingBlockHashWithoutTx2
      end in
    if IsInSameChain conflictingBlock1 conflictingBlock2
    then (SlashInvalid SlashSameChain, slashingDict)
    else
      let found1 :=
        match conflictingBlock1 with
        | Some b => inr (Some b, net)
        | None =>
            findConflictingBlock conflictingBlockHash1 net
                                 SlashNotFound1 SlashNoAncestor1
        end in
      match found1 with
      | inl e => (SlashInvalid e, slashingDict)
      | inr (conflictingBlock1, net) =>
        let found2 :=
          match conflictingBlock2 with
          | Some b => inr (Some b, net)
          | None =>
              findConflictingBlock conflictingBlockHash2 net
                                   SlashNotFound2 SlashNoAncestor2
          end in
        match found2 with
        | inl e => (SlashInvalid e, slashingDict)
        | inr (conflictingBlock2, _) =>
          match conflictingBlock1, conflictingBlock2 with
          | Some b1, Some b2 =>
              if negb (Block.Height b1
                       <? wrap32 (wrap32 Slashing_window_size + Block.Height b2))
              then (SlashInvalid SlashWindow, slashingDict)
              else (SlashValid, delete slashedAddress slashingDict)
          | _, _ => (SlashPanic, slashingDict)
          end
        end
      end.
End Slashing.

(** The steps of [validateState] and what it calls: each step's state
    change, and the rollback functions.  The state changes themselves are
    outside the given sources; [failing s] says whether the change of step
    [s] returns an error when it is called. *)
Inductive step :=
| AccStep                  (* accStateChange / accStateChangeRollback *)
| FundsStep                (* fundsStateChange / fundsStateChangeRollback *)
| AggStep                  (* aggTxStateChange / aggregatedSenderStateRollback *)
| StakeStep                (* stakeStateChange / stakeStateChangeRollback *)
| IotStep                  (* iotStateChange *)
| FeesStep                 (* collectTxFees / collectTxFeesRollback *)
| BlockRewardStep          (* collectBlockReward / collectBlockRewardRollback *)
| SlashRewardStep          (* collectSlashReward / collectSlashRewardRollback *)
| StakingHeightStep.       (* updateStakingHeight *)

Inductive call :=
| Change (s : step)
| Rollback (s : step).

(** [validateState]: the calls it makes, in order, and the step whose error
    it returns, if any. *)
Definition validateState (failing : step -> bool) : list call * option step :=
  if failing AccStep then ([Change AccStep], Some AccStep)
  else if failing FundsStep then
    ([Change AccStep; Change FundsStep; Rollback AccStep], Some FundsStep)
  else if failing AggStep then
    ([Change AccStep; Change FundsStep; Change AggStep;
      Rollback FundsStep; Rollback AccStep], Some AggStep)
  else if failing StakeStep then
    ([Change AccStep; Change FundsStep; Change AggStep; Change StakeStep;
      Rollback FundsStep; Rollback AccStep; Rollback AggStep], Some StakeStep)
  else if failing IotStep then
    ([Change AccStep; Change FundsStep; Change AggStep; Change StakeStep;
      Change IotStep], Some IotStep)
  else if failing FeesStep then
    ([Change AccStep; Change FundsStep; Change AggStep; Change StakeStep;
      Change IotStep; Change FeesStep;
      Rollback StakeStep; Rollback FundsStep; Rollback AggStep;
      Rollback AccStep], Some FeesStep)
  else if failing BlockRewardStep then
    ([Change AccStep; Change FundsStep; Change AggStep; Change StakeStep;
      Change IotStep; Change FeesStep; Change BlockRewardStep;
      Rollback FeesStep; Rollback StakeStep; Rollback FundsStep;
      Rollback AggStep; Rollback AccStep], Some BlockRewardStep)
  else if failing SlashRewardStep then
    ([Change AccStep; Change FundsStep; Change AggStep; Change StakeStep;
      Change IotStep; Change FeesStep; Change BlockRewardStep;
      Change SlashRewardStep;
      Rollback BlockRewardStep; Rollback FeesStep; Rollback StakeStep;
      Rollback FundsStep; Rollback AggStep; Rollback AccStep],
     Some SlashRewardStep)
  else if failing StakingHeightStep then
    ([Change AccStep; Change FundsStep; Change AggStep; Change StakeStep;
      Change IotStep; Change FeesStep; Change BlockRewardStep;
      Change SlashRewardStep; Change StakingHeightStep;
      Rollback SlashRewardStep; Rollback BlockRewardStep; Rollback FeesStep;
      Rollback StakeStep; Rollback FundsStep; Rollback AggStep;
      Rollback AccStep], Some StakingHeightStep)
  else
    ([Change AccStep; Change FundsStep; Change AggStep; Change StakeStep;
      Change IotStep; Change FeesStep; Change BlockRewardStep;
      Change SlashRewardStep; Change StakingHeightStep], None).

(** *** Fetching the FundsTx payloads of a block

    [fetchFundsTxData] as one task, like [fetchAggTxData] above: closed
    storage and the stash of invalid open transactions are lookups, open
    storage is the [OpenTx] of [storage.t], and the peer network is the list
    of what each successive [p2p.TxReq] leads to. *)

Inductive fetchError :=
| FundsAlreadyClosed       (* "Block validation had fundsTx that was already in a previous block." *)
| FundsNotRead             (* "FundsTx could not be read: ..." *)
| FundsTimeout             (* "FundsTx fetch timed out" *)
| FundsHashMismatch.       (* "Received FundstxHash did not correspond to our request." *)

Inductive fundsResponse :=
| FundsReqFailed                                (* TxReq returned an error *)
| FundsTimedOut                                 (* nothing within TXFETCH_TIMEOUT *)
| FundsReceived (tx : FundsTx.t).

Record fundsFetch := mkFundsFetch {
  fundsErrChan : list (option fetchError);   (* the values sent, in order *)
  fundsTxSlice : list (option FundsTx.t);
  fundsStore : storage.t;
  fundsBootstrap : list FundsTx.t;           (* handed to WriteBootstrapTxReceived *)
  fundsStopped : bool                        (* the task returned early *)
}.

Section FetchFunds.
Context (E : Externals).
Variables (ReadClosedTx ReadINVALIDOpenTx : Z -> option Transaction).

(** Modelled from the spec: [storage.ReadOpenTx] is outside the given
    sources; [read_open_tx(hash)] gives the transaction of open storage
    with that hash, the one written last if there are several. *)
Definition ReadOpenTx (s : storage.t) (hash : Z) : option Transaction :=
  find (fun tx => bool_decide (TxHash E tx = hash)) (storage.OpenTx s).

Definition fundsSend (e : option fetchError) (f : fundsFetch) : fundsFetch :=
  mkFundsFetch (fundsErrChan f ++ [e]) (fundsTxSlice f) (fundsStore f)
               (fundsBootstrap f) (fundsStopped f).
Definition fundsStop (f : fundsFetch) : fundsFetch :=
  mkFundsFetch (fundsErrChan f) (fundsTxSlice f) (fundsStore f)
               (fundsBootstrap f) true.
Definition fundsWithStore (s : storage.t) (f : fundsFetch) : fundsFetch :=
  mkFundsFetch (fundsErrChan f) (fundsTxSlice f) s (fundsBootstrap f)
               (fundsStopped f).

(** [fundsTxSlice[cnt] = fundsTx]; an index past the end is a run-time
    panic. *)
Definition fundsStoreAt (cnt : nat) (tx : FundsTx.t)
    (net : list fundsResponse) (f : fundsFetch)
  : outcome * list fundsResponse * fundsFetch :=
  if bool_decide (cnt < length (fundsTxSlice f))%nat then
    (Nil, net,
     mkFundsFetch (fundsErrChan f) (<[cnt := Some tx]> (fundsTxSlice f))
                  (fundsStore f) (fundsBootstrap f) (fundsStopped f))
  else (Panic, net, f).

(** What arrives after [p2p.TxReq]: the transaction is written to open
    storage (and to the bootstrap store during the initial setup), a wrong
    hash is reported, and in both cases the transaction is kept. *)
Definition requestFundsTx (initialSetup : bool) (cnt : nat) (txHash : Z)
    (net : list fundsResponse) (f : fundsFetch)
  : outcome * list fundsResponse * fundsFetch :=
  match net with
  | [] => (Nil, [], fundsStop (fundsSend (Some FundsTimeout) f))
  | FundsReqFailed :: net =>
      (Nil, net, fundsStop (fundsSend (Some FundsNotRead) f))
  | FundsTimedOut :: net =>
      (Nil, net, fundsStop (fundsSend (Some FundsTimeout) f))
  | FundsReceived fundsTx :: net =>
      let f :=
        fundsWithStore
          (storage.WriteOpenTx (TFundsTx fundsTx) (fundsStore f)) f in
      let f :=
        if initialSetup then
          mkFundsFetch (fundsErrChan f) (fundsTxSlice f) (fundsStore f)
                       (fundsBootstrap f ++ [fundsTx]) (fundsStopped f)
        else f in
      let f :=
        if bool_decide
             (FundsTx.Hash (SerializeHashContent E) fundsTx = txHash)
        then f
        else fundsSend (Some FundsHashMismatch) f in
      fundsStoreAt cnt fundsTx net f
  end.

(** One round of the loop over [block.FundsTxData], for the hash at index
    [cnt]. *)
Definition fetchFundsTx (initialSetup : bool) (cnt : nat) (txHash : Z)
    (net : list fundsResponse) (f : fundsFetch)
  : outcome * list fundsResponse * fundsFetch :=
  match ReadClosedTx txHash with
  | Some closedTx =>
      if initialSetup then
        match closedTx with
        | TFundsTx fundsTx => fundsStoreAt cnt fundsTx net f
        | _ => (Panic, net, f)
        end
      else (Nil, net, fundsStop (fundsSend (Some FundsAlreadyClosed) f))
  | None =>
      match ReadOpenTx (fundsStore f) txHash with
      | Some (TFundsTx fundsTx) => fundsStoreAt cnt fundsTx net f
      | Some _ => (Panic, net, f)
      | None =>
          match ReadINVALIDOpenTx txHash with
          | None => requestFundsTx initialSetup cnt txHash net f
          | Some txINVALID =>
              let '(verified, txINVALID, s) := verify E (fundsStore f) txINVALID in
              let f := fundsWithStore s f in
              if verified then
                match txINVALID with
                | TFundsTx fundsTx => fundsStoreAt cnt fundsTx net f
                | _ => (Panic, net, f)
                end
              else requestFundsTx initialSetup cnt txHash net f
          end
      end
  end.

Fixpoint fetchFundsTxLoop (initialSetup : bool) (cnt : nat) (hashes : list Z)
    (net : list fundsResponse) (f : fundsFetch) : outcome * fundsFetch :=
  match hashes with
  | [] => (Nil, fundsSend None f)
  | txHash :: hashes =>
      match fetchFundsTx initialSetup cnt txHash net f with
      | (Nil, net, f) =>
          if fundsStopped f then (Nil, f)
          else fetchFundsTxLoop initialSetup (S cnt) hashes net f
      | (r, _, f) => (r, f)
      end
  end.

(** [fundsTxSlice] arrives with [block.NrFundsTx] nil entries. *)
Definition fetchFundsTxData (initialSetup : bool) (block : Block.t)
    (fundsTxSlice : list (option FundsTx.t)) (s : storage.t)
    (net : list fundsResponse) : outcome * fundsFetch :=
  fetchFundsTxLoop initialSetup 0 (Block.FundsTxData block) net
                   (mkFundsFetch [] fundsTxSlice s [] false).
End FetchFunds.
End miner.

(** ** Notions used to state the properties *)

(** The overlay [sc'] holds what [sc] held, and every further entry is the
    account the global state [st] has under that key. *)
Definition copied_from (st sc sc' : gmap Z Account.t) : Prop :=
  forall k, sc' !! k = sc !! k \/ (sc !! k = None /\ sc' !! k = st !! k).

(** What an add function may do to a block it rejects: nothing but the
    overlay differs, and the overlay only gained copies. *)
Definition rejected_frame (s : storage.t) (b b' : Block.t) : Prop :=
  b' = Block.set_StateCopy (Block.StateCopy b') b
  /\ copied_from (storage.State s) (Block.StateCopy b) (Block.StateCopy b').

(** Every account of the map is stored under the hash of its address. *)
Definition keyed_by_hash (E : Externals) (m : gmap Z Account.t) : Prop :=
  forall k acc,
    m !! k = Some acc ->
    SerializeHashContent E (HCAddress (Account.Address acc)) = k.

(** The overlay [sc'] still has every account of [sc], under the same key
    and with the same address, and is keyed by hash if [sc] was. *)
Definition overlay_keeps (E : Externals) (sc sc' : gmap Z Account.t) : Prop :=
  (forall k acc,
      sc !! k = Some acc ->
      exists acc', sc' !! k = Some acc'
                   /\ Account.Address acc' = Account.Address acc)
  /\ (keyed_by_hash E sc -> keyed_by_hash E sc').

(** The place of a transaction's category among the six hash sequences of
    a block. *)
Definition category (tx : Transaction) : nat :=
  match tx with
  | TAccTx _ => 0
  | TFundsTx _ => 1
  | TConfigTx _ => 2
  | TStakeTx _ => 3
  | TAggTx _ => 4
  | TIotTx _ => 5
  end.


(** ** A small world for running the model

    The theorems below hold for every [Externals]; to evaluate the code on
    concrete inputs the hashes are replaced by plain arithmetic and a
    signature counts as valid when it is the sum of key and message. *)
Module Example.
Definition externals : Externals := {|
  SerializeHashContent c :=
    match c with
    | HCAddress a => a + 100
    | HCFundsTx _ amount _ txCnt _ _ _ => amount + txCnt
    end;
  SerializeHashContentIoT a := a + 200;
  sha3_Sum256 l := fold_right Z.add 0 l;
  ed25519_Verify publicKey message sig := sig =? publicKey + message;
  AccTx_Hash tx := AccTx.Fee tx;
  ConfigTx_Hash tx := ConfigTx.Id tx + ConfigTx.Payload tx;
  StakeTx_Hash tx := StakeTx.Account tx + StakeTx.Fee tx;
  AggTx_Hash tx := AggTx.Amount tx + fold_right Z.add 0 (AggTx.AggregatedTxSlice tx);
  vm_Exec _ _ := None;
  MAX_MONEY := 2 ^ 63 - 1;
  FEE_MINIMUM := 1
|}.

Definition parameters : Parameters :=
  {| Fee_minimum := 1; Staking_minimum := 1000 |}.

(** Accounts: address, balance, txCnt; stored under [address + 100]. *)
Definition account (address balance txCnt : Z) : Account.t :=
  Account.mk address 0 balance txCnt false 0 0 None [].

Definition alice : Account.t := account 11 1000 0.
Definition bob : Account.t := account 22 0 0.
Definition carol : Account.t := account 33 (2 ^ 64 - 1) 0.
Definition dave : Account.t := account 44 1005 0.

Definition state : gmap Z Account.t :=
  <[111 := alice]> (<[122 := bob]> (<[133 := carol]> (<[144 := dave]> ∅))).

Definition store : storage.t := storage.mk state ∅ [].

Definition emptyBlock : Block.t := miner.newBlock 0 0 0 1.

(** A block that has already touched alice and bob. *)
Definition touchedBlock : Block.t :=
  Block.set_StateCopy (<[111 := alice]> (<[122 := bob]> ∅)) emptyBlock.

(** alice pays herself 100; the signature [11 + 100] is valid. *)
Definition selfTransfer : FundsTx.t :=
  FundsTx.mk 0 100 1 0 111 111 111 false None.

(** A stake transaction of an account the state does not know. *)
Definition strangerStake : StakeTx.t := StakeTx.mk 0 1 true 555 0 77.

(** alice pays bob 100 with txCnt 7 while her account stands at txCnt 0;
    the hash is [100 + 7] and the signature [11 + 107]. *)
Definition replayedTx : FundsTx.t :=
  FundsTx.mk 0 100 1 7 111 122 118 false None.

(** alice pays bob 5000, more than she has; the signature is [11 + 5000]. *)
Definition overdraft : FundsTx.t :=
  FundsTx.mk 0 5000 1 0 111 122 5011 false None.

(** alice pays carol 1, whose balance is [2^64 - 1]; the signature is
    [11 + 1]. *)
Definition wrappingTx : FundsTx.t :=
  FundsTx.mk 0 1 1 0 111 133 12 false None.

(** bob, whose balance is 0, sends alice a message for a fee of 10.  The
    signed hash is taken over the IoT address hashes 222 and 211:
    [211 + 222 + 10 = 443], and the signature is [22 + 443]. *)
Definition unpaidIot : IotTx.t := IotTx.mk 0 0 122 111 465 None 10.

(** dave, whose balance is 1005, starts staking for a fee of 5 with a
    staking minimum of 1000; the hash is [144 + 5] and the signature
    [44 + 149]. *)
Definition exactStake : StakeTx.t := StakeTx.mk 0 5 true 144 193 77.

(** alice pays bob twice. *)
Definition pay1 : FundsTx.t := FundsTx.mk 0 100 1 0 111 122 0 false None.
Definition pay2 : FundsTx.t := FundsTx.mk 0 200 1 1 111 122 0 false None.

(** A block that lists the AggTx hash 999, with closed and open storage
    empty, and a peer that answers every request with an AggTx whose hash
    is [350 + 5 + 6 = 361]. *)
Definition wanted : Block.t := Block.set_AggTxData [999] emptyBlock.
Definition forged : AggTx.t := AggTx.mk 350 1 [111] [122; 133] [5; 6].
Definition nothing (hash : Z) : option Transaction := None.
Definition noNested (tx : AggTx.t) : option error := None.
Definition peer : list miner.response :=
  [miner.Received forged None; miner.Received forged None;
   miner.Received forged None].

(** A signing function to go with [externals]: the signature of a message
    is key + message, which [ed25519_Verify] accepts for the public key
    equal to the key. *)
Definition sign (sigKey message : Z) : option Z := Some (sigKey + message).

(** A FundsTx marked as aggregated, with data. *)
Definition markedTx : FundsTx.t :=
  FundsTx.mk 0 100 1 0 111 122 118 true (Some [1; 2]).

(** alice pays bob 100 for a fee of 0, and alice pays bob nothing. *)
Definition freeTx : FundsTx.t := FundsTx.mk 0 100 0 0 111 122 0 false None.
Definition emptyTx : FundsTx.t := FundsTx.mk 0 0 1 0 111 122 0 false None.

(** A global state whose key 111 holds an account with address 12, which
    hashes to 112. *)
Definition misfiled : storage.t :=
  storage.mk (<[111 := account 12 1000 0]> (<[122 := bob]> ∅)) ∅ [].

(** A block that has touched dave, and his stake transaction for a fee
    of 4. *)
Definition daveBlock : Block.t :=
  Block.set_StateCopy (<[144 := dave]> ∅) emptyBlock.
Definition affordableStake : StakeTx.t := StakeTx.mk 0 4 true 144 0 77.

(** Tallies of two senders. *)
Definition tallies : gmap Z Z := <[111 := 3]> (<[122 := 5]> ∅).

(** Two blocks at heights 7 and 9 in closed storage under the hashes 70 and
    90, on different chains, and a slashing dictionary with one entry. *)
Definition closedBlocks (hash : Z) : option Block.t :=
  if hash =? 70 then Some (miner.newBlock 0 0 0 7)
  else if hash =? 90 then Some (miner.newBlock 0 0 0 9)
  else None.
Definition noBlock (hash : Z) : option Block.t := None.
Definition differentChains (b1 b2 : option Block.t) : bool := false.
Definition hasAncestor (b : option Block.t) : bool := true.
Definition undecodable (encodedBlock : list Z) : option Block.t := None.
Definition slashingDict : gmap Z miner.SlashingProof :=
  <[555 := miner.mkSlashingProof 70 90 71 91]> ∅.

(** A block validation in which collecting the fees fails. *)
Definition feesFail (s : miner.step) : bool :=
  match s with miner.FeesStep => true | _ => false end.

(** A block that lists the FundsTx hash 107, the hash of [replayedTx]. *)
Definition fundsWanted : Block.t := Block.set_FundsTxData [107] emptyBlock.
Definition emptyFetch : miner.fundsFetch :=
  miner.mkFundsFetch [] [None] store [] false.
End Example.

(** * Properties *)

(** ** Wire encoding (C3) *)

Section Encoding.
(** Encoding sends no [Aggregated] field, whatever the flag is. *)
Lemma FundsTx_Encode_ignores_Aggregated (tx : FundsTx.t) (flag : bool) :
  FundsTx.Encode (FundsTx.set_Aggregated flag tx) = FundsTx.Encode tx.
Proof. reflexivity. Qed.

(** No decoder at all can give back the flag: two transactions that
    differ in it have the same encoding. *)
Lemma FundsTx_no_decoder_restores_Aggregated
    (decode : list gobField -> FundsTx.t) (tx : FundsTx.t) :
  ~ (decode (FundsTx.Encode (FundsTx.set_Aggregated true tx))
       = FundsTx.set_Aggregated true tx
     /\ decode (FundsTx.Encode (FundsTx.set_Aggregated false tx))
       = FundsTx.set_Aggregated false tx).
Proof.
  rewrite !FundsTx_Encode_ignores_Aggregated. intros [H1 H2].
  rewrite H1 in H2. discriminate H2.
Qed.

Lemma FundsTx_Decode_Encode (tx : FundsTx.t) :
  FundsTx.Decode (FundsTx.Encode tx)
    = FundsTx.mk (FundsTx.Header tx) (FundsTx.Amount tx) (FundsTx.Fee tx)
                 (FundsTx.TxCnt tx) (FundsTx.From tx) (FundsTx.To tx)
                 (FundsTx.Sig tx) false (gobSlice (FundsTx.Data tx)).
Proof.
  destruct tx as [h a f c from to sg ag d].
  unfold FundsTx.Decode, FundsTx.Encode, FundsTx.gobDecode, FundsTx.gobEncode,
    FundsTx.encodeData, gobUint, gobArray, gobBool, gobBytes, gobSlice.
  cbn [FundsTx.Header FundsTx.Amount FundsTx.Fee FundsTx.TxCnt FundsTx.From
       FundsTx.To FundsTx.Sig FundsTx.Aggregated FundsTx.Data].
  destruct (decide (h = 0)), (decide (a = 0)), (decide (f = 0)),
    (decide (c = 0)); subst; destruct d as [[|x l]|]; reflexivity.
Qed.

Lemma IotTx_Decode_Encode (tx : IotTx.t) :
  IotTx.Decode (IotTx.Encode tx)
    = IotTx.mk (IotTx.Header tx) (IotTx.TxCnt tx) (IotTx.From tx)
               (IotTx.To tx) (IotTx.Sig tx) (gobSlice (IotTx.Data tx))
               (IotTx.Fee tx).
Proof.
  destruct tx as [h c from to sg d f].
  unfold IotTx.Decode, IotTx.Encode, IotTx.gobDecode, IotTx.gobEncode,
    IotTx.encodeData, gobUint, gobArray, gobBytes, gobSlice.
  cbn [IotTx.Header IotTx.TxCnt IotTx.From IotTx.To IotTx.Sig IotTx.Data
       IotTx.Fee].
  destruct (decide (h = 0)), (decide (c = 0)), (decide (f = 0)); subst;
    destruct d as [[|x l]|]; reflexivity.
Qed.

(** Where nothing is lost the round trip is exact. *)
Corollary FundsTx_roundtrip_exact (tx : FundsTx.t) :
  FundsTx.Aggregated tx = false -> FundsTx.Data tx <> Some [] ->
  FundsTx.Decode (FundsTx.Encode tx) = tx.
Proof.
  intros Hag Hd. rewrite FundsTx_Decode_Encode.
  destruct tx as [h a f c from to sg ag d]; cbn in *. subst ag.
  destruct d as [[|x l]|]; [congruence | reflexivity | reflexivity].
Qed.

Corollary IotTx_roundtrip_exact (tx : IotTx.t) :
  IotTx.Data tx <> Some [] -> IotTx.Decode (IotTx.Encode tx) = tx.
Proof.
  intros Hd. rewrite IotTx_Decode_Encode.
  destruct tx as [h c from to sg d f]; cbn in *.
  destruct d as [[|x l]|]; [congruence | reflexivity | reflexivity].
Qed.
End Encoding.

(** C3, as stated, fails: a FundsTx whose Aggregated flag is true does not
    come back from decode(encode(tx)); the flag is false afterwards. *)
Lemma C3_aggregated_flag_lost :
  FundsTx.Aggregated (FundsTx.mk 0 100 1 0 111 122 118 true None) = true
  /\ FundsTx.Decode (FundsTx.Encode (FundsTx.mk 0 100 1 0 111 122 118 true None))
     <> FundsTx.mk 0 100 1 0 111 122 118 true None.
Proof. split; [reflexivity | vm_compute; discriminate]. Qed.

(** C3, amended: for the two variants whose codecs are in the sources,
    decoding the encoding of a FundsTx gives back every field except the
    Aggregated flag, which is false afterwards, and decoding the encoding of
    an IotTx gives back every field; in both an empty non-nil Data slice
    comes back nil. *)
Theorem C3_decode_encode (ftx : FundsTx.t) (itx : IotTx.t) :
  FundsTx.Decode (FundsTx.Encode ftx)
    = FundsTx.mk (FundsTx.Header ftx) (FundsTx.Amount ftx) (FundsTx.Fee ftx)
                 (FundsTx.TxCnt ftx) (FundsTx.From ftx) (FundsTx.To ftx)
                 (FundsTx.Sig ftx) false (gobSlice (FundsTx.Data ftx))
  /\ IotTx.Decode (IotTx.Encode itx)
    = IotTx.mk (IotTx.Header itx) (IotTx.TxCnt itx) (IotTx.From itx)
               (IotTx.To itx) (IotTx.Sig itx) (gobSlice (IotTx.Data itx))
               (IotTx.Fee itx).
Proof. split; [apply FundsTx_Decode_Encode | apply IotTx_Decode_Encode]. Qed.

(** ** Verification (C9, C10) *)

Section Verification.
Context (E : Externals).

(** [verifyFundsTx] rewrites both address fields whenever both accounts
    exist and the amount is admissible, whatever the signature. *)
Lemma verifyFundsTx_rewrites (s : storage.t) (tx : FundsTx.t)
    (accFrom accTo : Account.t) :
  storage.State s !! FundsTx.From tx = Some accFrom ->
  storage.State s !! FundsTx.To tx = Some accTo ->
  FundsTx.Amount tx <> 0 -> FundsTx.Amount tx <= MAX_MONEY E ->
  snd (miner.verifyFundsTx E s tx)
    = FundsTx.set_To (SerializeHashContent E (HCAddress (Account.Address accTo)))
        (FundsTx.set_From
           (SerializeHashContent E (HCAddress (Account.Address accFrom))) tx).
Proof.
  intros HF HT Hz Hm. unfold miner.verifyFundsTx. rewrite HF, HT.
  destruct (FundsTx.Amount tx =? 0) eqn:H0; [lia|].
  destruct (FundsTx.Amount tx >? MAX_MONEY E) eqn:H1; [lia|]. cbn [orb].
  match goal with |- context [if ?c then _ else _] => destruct c end;
    reflexivity.
Qed.

(** A FundsTx that is verified leaves [verifyFundsTx] with different
    sender and receiver. *)
Lemma verifyFundsTx_true_distinct (s : storage.t) (tx tx' : FundsTx.t) :
  miner.verifyFundsTx E s tx = (true, tx') ->
  FundsTx.From tx' <> FundsTx.To tx'.
Proof.
  unfold miner.verifyFundsTx. intros H.
  repeat case_match; simplify_eq.
  match goal with
  | Hc : _ && negb (bool_decide (?a = ?b)) = true |- _ =>
      apply andb_prop in Hc; destruct Hc as [_ Hc];
      apply negb_true_iff, bool_decide_eq_false in Hc; exact Hc
  end.
Qed.

Lemma verifyStakeTx_known_account (s : storage.t) (tx : StakeTx.t)
    (acc : Account.t) :
  storage.State s !! StakeTx.Account tx = Some acc ->
  snd (miner.verifyStakeTx E s tx) = s
  /\ StakeTx.Account (snd (fst (miner.verifyStakeTx E s tx)))
     = SerializeHashContent E (HCAddress (Account.Address acc)).
Proof. intros H. unfold miner.verifyStakeTx. rewrite H. split; reflexivity. Qed.
End Verification.

(** C9: when the accounts found under From and To have equal address
    hashes, [verifyFundsTx] returns false, whatever [ed25519.Verify] says of
    the signature; so does [verify]. *)
Theorem C9_self_transfer_never_verified (E : Externals) (s : storage.t)
    (tx : FundsTx.t) (accFrom accTo : Account.t) :
  storage.State s !! FundsTx.From tx = Some accFrom ->
  storage.State s !! FundsTx.To tx = Some accTo ->
  SerializeHashContent E (HCAddress (Account.Address accFrom))
    = SerializeHashContent E (HCAddress (Account.Address accTo)) ->
  fst (miner.verifyFundsTx E s tx) = false
  /\ fst (fst (miner.verify E s (TFundsTx tx))) = false.
Proof.
  intros HF HT Heq.
  assert (H : fst (miner.verifyFundsTx E s tx) = false).
  { unfold miner.verifyFundsTx. rewrite HF, HT.
    destruct (_ || _); [reflexivity|].
    cbn [FundsTx.set_To FundsTx.set_From FundsTx.From FundsTx.To FundsTx.Sig].
    rewrite Heq, bool_decide_eq_true_2 by reflexivity.
    rewrite andb_false_r. reflexivity. }
  split; [exact H|].
  cbn [miner.verify]. destruct (miner.verifyFundsTx E s tx) as [v t].
  exact H.
Qed.

(** The self-transfer of the example carries a valid signature and is
    still refused. *)
Lemma C9_witness :
  ed25519_Verify Example.externals 11
    (FundsTx.Hash (SerializeHashContent Example.externals)
       Example.selfTransfer)
    (FundsTx.Sig Example.selfTransfer) = true
  /\ fst (miner.verifyFundsTx Example.externals Example.store
            Example.selfTransfer) = false
  /\ fst (fst (miner.verify Example.externals Example.store
                  (TFundsTx Example.selfTransfer))) = false.
Proof.
  split; [reflexivity|].
  apply (C9_self_transfer_never_verified Example.externals Example.store
           Example.selfTransfer Example.alice Example.alice);
    reflexivity.
Defined.

(** C10: for a StakeTx whose account is not in the global state,
    [verifyStakeTx] does not fail: it writes a fresh account (that address,
    zero balance, not staking, empty commitment key) into the global state,
    which was not there before, replaces the transaction's Account field by
    the hash of that address, and returns what [ed25519.Verify] says; the
    write happens whatever the signature is. *)
Theorem C10_verifyStakeTx_writes_state (E : Externals) (s : storage.t)
    (tx : StakeTx.t) :
  storage.State s !! StakeTx.Account tx = None ->
  exists (verified : bool) (tx' : StakeTx.t) (s' : storage.t)
         (newAcc : Account.t),
    miner.verifyStakeTx E s tx = (verified, tx', s')
    /\ storage.State s' !! StakeTx.Account tx = Some newAcc
    /\ s' <> s
    /\ (forall k, k <> StakeTx.Account tx ->
                  storage.State s' !! k = storage.State s !! k)
    /\ Account.Address newAcc = StakeTx.Account tx
    /\ Account.Balance newAcc = 0
    /\ Account.IsStaking newAcc = false
    /\ Account.CommitmentKey newAcc = 0
    /\ tx' = StakeTx.set_Account
               (SerializeHashContent E (HCAddress (StakeTx.Account tx))) tx
    /\ verified = ed25519_Verify E (StakeTx.Account tx) (StakeTx_Hash E tx')
                                  (StakeTx.Sig tx).
Proof.
  intros Habs.
  set (newAcc := Account.NewAccount (StakeTx.Account tx) 0 0 false 0 None []).
  exists (ed25519_Verify E (StakeTx.Account tx)
            (StakeTx_Hash E
               (StakeTx.set_Account
                  (SerializeHashContent E (HCAddress (StakeTx.Account tx))) tx))
            (StakeTx.Sig tx)),
    (StakeTx.set_Account
       (SerializeHashContent E (HCAddress (StakeTx.Account tx))) tx),
    (storage.WriteAccount newAcc s), newAcc.
  assert (Hnew : storage.State (storage.WriteAccount newAcc s)
                   !! StakeTx.Account tx = Some newAcc).
  { cbn. apply lookup_insert_eq. }
  repeat split; try reflexivity.
  - unfold miner.verifyStakeTx. rewrite Habs. reflexivity.
  - exact Hnew.
  - intros Hs. rewrite Hs, Habs in Hnew. discriminate Hnew.
  - intros k Hk. cbn. apply lookup_insert_ne. cbn. congruence.
Qed.

(** The stake transaction of the unknown account 555, whose signature is
    not valid: the account is in the state afterwards. *)
Lemma C10_witness :
  storage.State Example.store !! StakeTx.Account Example.strangerStake = None
  /\ exists (tx' : StakeTx.t) (s' : storage.t) (newAcc : Account.t),
       miner.verifyStakeTx Example.externals Example.store
         Example.strangerStake = (false, tx', s')
       /\ storage.State s' !! 555 = Some newAcc
       /\ Account.Balance newAcc = 0
       /\ StakeTx.Account tx' = 655.
Proof.
  split; [reflexivity|].
  destruct (C10_verifyStakeTx_writes_state Example.externals Example.store
              Example.strangerStake eq_refl)
    as (v & tx' & s' & newAcc & Hrun & Hin & _ & _ & _ & Hbal & _ & _ & Htx & Hv).
  exists tx', s', newAcc. subst v tx'. repeat split; assumption.
Defined.

(** ** Adding transactions (C1, C2, C5, C6, C8) *)

Section Adding.
Context (E : Externals).

Lemma copied_from_refl (st sc : gmap Z Account.t) : copied_from st sc sc.
Proof. intros k. left. reflexivity. Qed.

Lemma copied_from_trans (st sc1 sc2 sc3 : gmap Z Account.t) :
  copied_from st sc1 sc2 -> copied_from st sc2 sc3 -> copied_from st sc1 sc3.
Proof.
  intros H12 H23 k. destruct (H23 k) as [H|[Hn H]], (H12 k) as [H'|[Hn' H']].
  - left. congruence.
  - right. split; [assumption | congruence].
  - right. split; congruence.
  - right. split; [assumption | congruence].
Qed.

Lemma copyAccount_copied_from (s : storage.t) (sc sc' : gmap Z Account.t)
    (key : Z) :
  miner.copyAccount E s sc key = Some sc' ->
  copied_from (storage.State s) sc sc'.
Proof.
  unfold miner.copyAccount. intros H.
  destruct (sc !! key) eqn:Hsc.
  { injection H as <-. apply copied_from_refl. }
  destruct (storage.State s !! key) as [acc|] eqn:Hst; [|discriminate].
  destruct (bool_decide _).
  - injection H as <-. intros k. destruct (decide (key = k)) as [<-|Hne].
    + right. split; [assumption|]. rewrite lookup_insert_eq. congruence.
    + left. apply lookup_insert_ne. assumption.
  - injection H as <-. apply copied_from_refl.
Qed.

(** An account already in the overlay is not copied again. *)
Lemma copyAccount_present (s : storage.t) (sc : gmap Z Account.t)
    (key : Z) (acc : Account.t) :
  sc !! key = Some acc -> miner.copyAccount E s sc key = Some sc.
Proof. intros H. unfold miner.copyAccount. rewrite H. reflexivity. Qed.


Lemma rejected_frame_copy (s : storage.t) (b : Block.t)
    (sc : gmap Z Account.t) :
  copied_from (storage.State s) (Block.StateCopy b) sc ->
  rejected_frame s b (Block.set_StateCopy sc b).
Proof. intros H. split; [reflexivity | exact H]. Qed.





Lemma copied_from_present (st sc sc' : gmap Z Account.t) (k : Z) (a : Account.t) :
  copied_from st sc sc' -> sc !! k = Some a -> sc' !! k = Some a.
Proof. intros H Hk. destruct (H k) as [H'|[H' _]]; congruence. Qed.

Lemma addFundsTx_accepted (s : storage.t) (b b' : Block.t) (tx : FundsTx.t) :
  miner.addFundsTx E s b tx = (Nil, b') ->
  exists (sc scvm : gmap Z Account.t) (accFrom accTo : Account.t),
    copied_from (storage.State s) (Block.StateCopy b) sc
    /\ sc !! FundsTx.From tx = Some accFrom
    /\ sc !! FundsTx.To tx = Some accTo
    /\ wrap64 (Account.Balance accTo + FundsTx.Amount tx) <= MAX_MONEY E
    /\ (scvm = sc
        \/ exists vars,
             scvm = alter (Account.set_ContractVariables vars) (FundsTx.To tx) sc)
    /\ Block.StateCopy b'
       = alter (fun a => Account.set_Balance
                           (wrap64 (Account.Balance a + FundsTx.Amount tx)) a)
               (FundsTx.To tx)
           (alter (fun a =>
                     Account.set_Balance
                       (wrap64 (Account.Balance
                                  (Account.set_TxCnt
                                     (wrap32 (Account.TxCnt a + 1)) a)
                                - FundsTx.Amount tx))
                       (Account.set_TxCnt (wrap32 (Account.TxCnt a + 1)) a))
                  (FundsTx.From tx) scvm)
    /\ Block.FundsTxData b'
       = Block.FundsTxData b ++ [FundsTx.Hash (SerializeHashContent E) tx].
Proof.
  unfold miner.addFundsTx. intros H.
  destruct (miner.copyAccount E s (Block.StateCopy b) (FundsTx.From tx))
    as [sc1|] eqn:H1; [|discriminate].
  cbn [Block.StateCopy Block.set_StateCopy] in H.
  destruct (miner.copyAccount E s sc1 (FundsTx.To tx)) as [sc2|] eqn:H2;
    [|discriminate].
  cbn [Block.StateCopy Block.set_StateCopy] in H.
  destruct (sc2 !! FundsTx.From tx) as [accFrom|] eqn:HF; [|discriminate].
  destruct (negb _ && _); [discriminate|].
  destruct (sc2 !! FundsTx.To tx) as [accTo|] eqn:HT; [|discriminate].
  destruct (wrap64 (Account.Balance accTo + FundsTx.Amount tx) >? MAX_MONEY E)
    eqn:Hov; [discriminate|].
  apply copyAccount_copied_from in H1, H2.
  assert (Hcp := copied_from_trans _ _ _ _ H1 H2).
  destruct (FundsTx.Data tx) as [d|], (Account.Contract accTo) as [c|];
    try destruct (vm_Exec E accTo tx) as [vars|]; try discriminate;
    injection H as <-; cbn;
    (eexists sc2, _, accFrom, accTo; repeat split;
      [exact Hcp | exact HF | exact HT | lia | ]);
    first [left; reflexivity | right; eexists; reflexivity].
Qed.

(** Every accepted FundsTx advances the sender's txCnt by one, modulo
    [2^32], whatever the txCnt of the transaction is. *)
Lemma addFundsTx_increments_TxCnt (s : storage.t) (b b' : Block.t)
    (tx : FundsTx.t) (accFrom : Account.t) :
  Block.StateCopy b !! FundsTx.From tx = Some accFrom ->
  miner.addFundsTx E s b tx = (Nil, b') ->
  exists acc',
    Block.StateCopy b' !! FundsTx.From tx = Some acc'
    /\ Account.TxCnt acc' = wrap32 (Account.TxCnt accFrom + 1).
Proof.
  intros Hb Hadd.
  destruct (addFundsTx_accepted _ _ _ _ Hadd)
    as (sc & scvm & accF & accT & Hcp & HF & HT & _ & Hvm & Hsc & _).
  rewrite (copied_from_present _ _ _ _ _ Hcp Hb) in HF. injection HF as <-.
  rewrite Hsc.
  assert (Hscvm : exists a, scvm !! FundsTx.From tx = Some a
                            /\ Account.TxCnt a = Account.TxCnt accFrom).
  { destruct Hvm as [->|[vars ->]].
    - exists accFrom. split; [apply (copied_from_present _ _ _ _ _ Hcp Hb) | reflexivity].
    - assert (HF := copied_from_present _ _ _ _ _ Hcp Hb).
      rewrite lookup_alter. case_decide as Heq.
      + rewrite Heq, HF. eexists; split; reflexivity.
      + rewrite HF. eexists; split; reflexivity. }
  destruct Hscvm as (a & Ha & Hcnt).
  destruct (decide (FundsTx.To tx = FundsTx.From tx)) as [Heq|Hne].
  - rewrite Heq, !lookup_alter_eq, Ha.
    eexists; (split; [reflexivity|]); cbn; congruence.
  - rewrite lookup_alter_ne, lookup_alter_eq, Ha by assumption.
    eexists; (split; [reflexivity|]); cbn; congruence.
Qed.

(** The receiver of an accepted FundsTx, when it is not the sender, ends
    with a balance of at most [MAX_MONEY]. *)
Lemma addFundsTx_receiver_bounded (s : storage.t) (b b' : Block.t)
    (tx : FundsTx.t) :
  FundsTx.From tx <> FundsTx.To tx ->
  miner.addFundsTx E s b tx = (Nil, b') ->
  exists acc',
    Block.StateCopy b' !! FundsTx.To tx = Some acc'
    /\ Account.Balance acc' <= MAX_MONEY E.
Proof.
  intros Hne Hadd.
  destruct (addFundsTx_accepted _ _ _ _ Hadd)
    as (sc & scvm & accF & accT & Hcp & HF & HT & Hle & Hvm & Hsc & _).
  rewrite Hsc, lookup_alter_eq, lookup_alter_ne by assumption.
  destruct Hvm as [->|[vars ->]].
  - rewrite HT. eexists. split; [reflexivity|]. exact Hle.
  - rewrite lookup_alter_eq, HT. eexists. split; [reflexivity|]. exact Hle.
Qed.

(** [addFundsTx] does not look at the txCnt of a transaction without data:
    the result is the same for every value of it. *)
Lemma addFundsTx_ignores_TxCnt (s : storage.t) (b : Block.t) (tx : FundsTx.t)
    (n : Z) :
  FundsTx.Data tx = None ->
  fst (miner.addFundsTx E s b (FundsTx.set_TxCnt n tx))
    = fst (miner.addFundsTx E s b tx).
Proof.
  intros Hd. unfold miner.addFundsTx.
  cbn [FundsTx.set_TxCnt FundsTx.From FundsTx.To FundsTx.Amount FundsTx.Fee
       FundsTx.Data].
  rewrite Hd. repeat case_match; reflexivity.
Qed.

(** Where the 64-bit sum does not wrap the overflow check is exact: a
    receiver balance that would pass [MAX_MONEY] is never accepted. *)
Lemma addFundsTx_overflow_without_wrap (s : storage.t) (b : Block.t)
    (tx : FundsTx.t) (accTo : Account.t) :
  Block.StateCopy b !! FundsTx.To tx = Some accTo ->
  0 <= Account.Balance accTo + FundsTx.Amount tx < 2 ^ 64 ->
  MAX_MONEY E < Account.Balance accTo + FundsTx.Amount tx ->
  fst (miner.addFundsTx E s b tx) <> Nil.
Proof.
  intros Hb Hrange Hgt Hnil.
  destruct (miner.addFundsTx E s b tx) as [r b'] eqn:Hadd. cbn in Hnil. subst r.
  destruct (addFundsTx_accepted _ _ _ _ Hadd)
    as (sc & scvm & accF & accT & Hcp & HF & HT & Hle & _).
  rewrite (copied_from_present _ _ _ _ _ Hcp Hb) in HT. injection HT as <-.
  unfold wrap64 in Hle. rewrite Z.mod_small in Hle by exact Hrange. lia.
Qed.

(** [addIoTTx] rejects nothing once both accounts are in the overlay: the
    fee is taken from the sender modulo [2^64], whatever the balance. *)
Lemma addIoTTx_always_accepts (s : storage.t) (b : Block.t) (tx : IotTx.t)
    (accFrom accTo : Account.t) :
  Block.StateCopy b !! IotTx.From tx = Some accFrom ->
  Block.StateCopy b !! IotTx.To tx = Some accTo ->
  exists b',
    miner.addIoTTx E s b tx = (Nil, b')
    /\ Block.StateCopy b' !! IotTx.From tx
       = Some (Account.set_Balance
                 (wrap64 (Account.Balance accFrom - IotTx.Fee tx))
                 (Account.set_TxCnt (wrap32 (Account.TxCnt accFrom + 1))
                    accFrom))
    /\ Block.IoTTxData b'
       = Block.IoTTxData b ++ [IotTx.Hash (sha3_Sum256 E) tx].
Proof.
  intros HF HT. unfold miner.addIoTTx.
  rewrite (copyAccount_present s _ _ _ HF).
  cbn [Block.StateCopy Block.set_StateCopy].
  rewrite (copyAccount_present s _ _ _ HT).
  cbn [Block.StateCopy Block.set_StateCopy]. rewrite HF.
  eexists. split; [reflexivity|]. cbn. split; [|reflexivity].
  rewrite lookup_alter_eq, HF. reflexivity.
Qed.

(** A staking account that is not a root account and holds exactly
    fee + staking minimum is turned away. *)
Lemma addStakeTx_rejects_exact_minimum (p : Parameters) (s : storage.t)
    (b : Block.t) (tx : StakeTx.t) (acc : Account.t) :
  Block.StateCopy b !! StakeTx.Account tx = Some acc ->
  storage.IsRootKey s (SerializeHashContent E (HCAddress (StakeTx.Account tx)))
    = false ->
  0 <= StakeTx.Fee tx + Staking_minimum p < 2 ^ 64 ->
  Account.Balance acc = StakeTx.Fee tx + Staking_minimum p ->
  miner.addStakeTx E p s b tx = (Err ErrNotEnoughFunds, b).
Proof.
  intros Hb Hroot Hrange Hbal. unfold miner.addStakeTx.
  rewrite (copyAccount_present s _ _ _ Hb).
  cbn [Block.StateCopy Block.set_StateCopy]. rewrite Hb, Hroot.
  unfold wrap64. rewrite Z.mod_small by exact Hrange.
  rewrite Hbal. cbn [negb andb].
  destruct (Z.geb_spec (StakeTx.Fee tx + Staking_minimum p)
              (StakeTx.Fee tx + Staking_minimum p)) as [_|Hlt]; [|lia].
  destruct b; reflexivity.
Qed.

(** Through [addTx] sender and receiver differ, so the receiver of every
    accepted FundsTx ends with a balance of at most [MAX_MONEY]. *)
Lemma addTx_FundsTx_receiver_bounded (p : Parameters) (s : storage.t)
    (b : Block.t) (tx : FundsTx.t) :
  miner.result (miner.addTx E p s b (TFundsTx tx)) = Nil ->
  exists tx' acc',
    miner.transaction (miner.addTx E p s b (TFundsTx tx)) = TFundsTx tx'
    /\ Block.StateCopy (miner.block (miner.addTx E p s b (TFundsTx tx)))
         !! FundsTx.To tx' = Some acc'
    /\ Account.Balance acc' <= MAX_MONEY E.
Proof.
  unfold miner.addTx.
  destruct (TxFee (TFundsTx tx) <? Fee_minimum p); [discriminate|].
  cbn [miner.verify].
  destruct (miner.verifyFundsTx E s tx) as [verified tx'] eqn:Hv.
  destruct verified; cbn [negb]; [|discriminate].
  destruct (miner.addFundsTx E s b tx') as [r b'] eqn:Hadd. cbn.
  intros ->.
  destruct (addFundsTx_receiver_bounded s b b' tx'
              (verifyFundsTx_true_distinct E s tx tx' Hv) Hadd)
    as (acc' & Hacc & Hle).
  exists tx', acc'. auto.
Qed.
End Adding.




(** C1: the code accepts a FundsTx whose txCnt differs from the sender's.
    alice's account stands at txCnt 0 and her payment carries txCnt 7;
    [addTx] returns nil, the hash is in the block and her txCnt became 1. *)
Theorem C1_txcnt_mismatch_accepted :
  Account.TxCnt Example.alice = 0
  /\ FundsTx.TxCnt Example.replayedTx = 7
  /\ miner.result (miner.addTx Example.externals Example.parameters
                     Example.store Example.emptyBlock
                     (TFundsTx Example.replayedTx)) = Nil
  /\ Block.FundsTxData
       (miner.block (miner.addTx Example.externals Example.parameters
                       Example.store Example.emptyBlock
                       (TFundsTx Example.replayedTx))) = [107]
  /\ Block.StateCopy
       (miner.block (miner.addTx Example.externals Example.parameters
                       Example.store Example.emptyBlock
                       (TFundsTx Example.replayedTx))) !! 111
     = Some (Example.account 11 900 1).
Proof. repeat split; vm_compute; reflexivity. Qed.

(** C5: the code accepts an IotTx whose sender cannot pay the fee.  bob is
    no root account and has balance 0; his message with fee 10 is added,
    his balance wraps round to [2^64 - 10] and his txCnt becomes 1. *)
Theorem C5_unfunded_iot_accepted :
  storage.IsRootKey Example.store 122 = false
  /\ Account.Balance Example.bob < IotTx.Fee Example.unpaidIot
  /\ miner.result (miner.addTx Example.externals Example.parameters
                     Example.store Example.emptyBlock
                     (TIotTx Example.unpaidIot)) = Nil
  /\ Block.IoTTxData
       (miner.block (miner.addTx Example.externals Example.parameters
                       Example.store Example.emptyBlock
                       (TIotTx Example.unpaidIot))) = [243]
  /\ Block.StateCopy
       (miner.block (miner.addTx Example.externals Example.parameters
                       Example.store Example.emptyBlock
                       (TIotTx Example.unpaidIot))) !! 122
     = Some (Example.account 22 (2 ^ 64 - 10) 1).
Proof. repeat split; vm_compute; reflexivity. Qed.

(** C6: the code rejects a StakeTx of an account that holds exactly
    fee + staking minimum.  dave is no root account, does not stake yet and
    has 1005 = 5 + 1000; [addTx] returns "Not enough funds". *)
Theorem C6_exact_minimum_rejected :
  storage.IsRootKey Example.store
    (SerializeHashContent Example.externals (HCAddress 144)) = false
  /\ Account.Balance Example.dave
     = StakeTx.Fee Example.exactStake + Staking_minimum Example.parameters
  /\ Account.IsStaking Example.dave <> StakeTx.IsStaking Example.exactStake
  /\ miner.result (miner.addTx Example.externals Example.parameters
                     Example.store Example.emptyBlock
                     (TStakeTx Example.exactStake)) = Err ErrNotEnoughFunds.
Proof. repeat split; try (vm_compute; reflexivity). discriminate. Qed.

(** C8: the code accepts a FundsTx that takes the receiver past MAX_MONEY
    when the 64-bit sum wraps.  carol has [2^64 - 1]; alice's payment of 1
    is added and carol's balance is 0 afterwards. *)
Theorem C8_wrapping_sum_accepted :
  MAX_MONEY Example.externals
    < Account.Balance Example.carol + FundsTx.Amount Example.wrappingTx
  /\ miner.result (miner.addTx Example.externals Example.parameters
                     Example.store Example.emptyBlock
                     (TFundsTx Example.wrappingTx)) = Nil
  /\ Block.StateCopy
       (miner.block (miner.addTx Example.externals Example.parameters
                       Example.store Example.emptyBlock
                       (TFundsTx Example.wrappingTx))) !! 133
     = Some (Example.account 33 0 0).
Proof. repeat split; vm_compute; reflexivity. Qed.

(** ** Aggregation (C7) *)

Section Aggregation.
Context (E : Externals).


Lemma fold_aggStep_lists (txs : list FundsTx.t) (l : miner.aggLoop) :
  miner.transactionSenders (fold_left (miner.aggStep E) txs l)
    = miner.transactionSenders l ++ map FundsTx.From txs
  /\ miner.transactionReceivers (fold_left (miner.aggStep E) txs l)
    = miner.transactionReceivers l ++ map FundsTx.To txs
  /\ miner.transactionHashes (fold_left (miner.aggStep E) txs l)
    = miner.transactionHashes l
      ++ map (FundsTx.Hash (SerializeHashContent E)) txs.
Proof.
  revert l. induction txs as [|tx txs IH]; intros l; cbn [fold_left map].
  - rewrite !app_nil_r. auto.
  - destruct (IH (miner.aggStep E l tx)) as (-> & -> & ->). cbn.
    rewrite <- !app_assoc. auto.
Qed.



(** The summed amount is the sum of the members' amounts modulo [2^64],
    when these are 64-bit values. *)
Lemma fold_aggStep_amount (txs : list FundsTx.t) (l : miner.aggLoop) :
  miner.amount (fold_left (miner.aggStep E) txs l)
    = fold_left (fun a tx => wrap64 (a + FundsTx.Amount tx)) txs (miner.amount l).
Proof.
  revert l. induction txs as [|tx txs IH]; intros l; cbn [fold_left].
  - reflexivity.
  - rewrite IH. reflexivity.
Qed.
End Aggregation.




(** ** Fetching AggTx payloads (C4) *)

Section Fetching.
Context (E : Externals).

(** After a first answer with the wrong hash the request is repeated once,
    and the second answer is kept whatever its hash is; nothing is sent on
    the error channel for the mismatch. *)
Lemma requestAggTx_gives_up_after_two (txHash : Z) (t1 t2 : AggTx.t)
    (n1 n2 : option error) (net : list miner.response) (f : miner.fetched) :
  AggTx_Hash E t1 <> txHash ->
  miner.requestAggTx E txHash 0 (miner.Received t1 n1 :: miner.Received t2 n2 :: net) f
    = (Some t2, net,
       miner.sendNested n2 (miner.open t2 (miner.sendNested n1 (miner.open t1 f)))).
Proof.
  intros H1. cbn [miner.requestAggTx].
  rewrite (bool_decide_eq_false_2 _ H1). cbn [negb andb Z.add Z.ltb Z.compare Pos.compare Pos.compare_cont].
  rewrite andb_false_r. reflexivity.
Qed.
End Fetching.

(** C4: the code accepts an AggTx whose hash is not the one requested.  The
    peer answers with hash 361 for the requested 999: the request is made
    twice, not three times, the second answer is stored in the block data
    and the only value sent on the error channel is nil. *)
Theorem C4_mismatched_aggtx_accepted :
  AggTx_Hash Example.externals Example.forged <> 999
  /\ miner.fetchAggTxData Example.externals Example.nothing Example.nothing
       Example.noNested false Example.wanted [None] Example.peer
     = (Nil,
        miner.mkFetched [None] [Some Example.forged]
                        [Example.forged; Example.forged] false).
Proof. split; [vm_compute; discriminate | vm_compute; reflexivity]. Qed.

(** * Further properties of the code *)

(** ** Hashing, encoding and construction *)

Lemma slice_bytes_gobSlice (d : option (list Z)) :
  slice_bytes (gobSlice d) = slice_bytes d.
Proof. destruct d as [[|x l]|]; reflexivity. Qed.

(** X2: the hash of a FundsTx is the same before and after
    [Encode] followed by [Decode], whatever its [Aggregated] flag, provided
    its [Data] is not an empty non-nil slice (gob decodes that as nil, and
    the hash content keeps the slice as it is). *)
Theorem FundsTx_Hash_survives_encoding (H : HashContent -> Z) (tx : FundsTx.t) :
  FundsTx.Data tx <> Some [] ->
  FundsTx.Hash H (FundsTx.Decode (FundsTx.Encode tx)) = FundsTx.Hash H tx.
Proof.
  intros Hd. rewrite FundsTx_Decode_Encode. unfold FundsTx.Hash. cbn.
  destruct (FundsTx.Data tx) as [[|x l]|]; [congruence | reflexivity | reflexivity].
Qed.

(** X1: the hash of an IotTx is the same before and after
    [Encode] followed by [Decode]: gob turns an empty [Data] into nil, and
    [Hash] writes both as no bytes. *)
Theorem IotTx_Hash_survives_encoding (sha3 : list Z -> Z) (tx : IotTx.t) :
  IotTx.Hash sha3 (IotTx.Decode (IotTx.Encode tx)) = IotTx.Hash sha3 tx.
Proof.
  rewrite IotTx_Decode_Encode. unfold IotTx.Hash, IotTx.TxFee. cbn.
  rewrite slice_bytes_gobSlice. reflexivity.
Qed.

(** [Hash] reads neither [Sig] nor [Aggregated]. *)
Lemma FundsTx_Hash_ignores_Sig_Aggregated (H : HashContent -> Z)
    (h a f c from to sg sg' : Z) (ag ag' : bool) (d : option (list Z)) :
  FundsTx.Hash H (FundsTx.mk h a f c from to sg ag d)
    = FundsTx.Hash H (FundsTx.mk h a f c from to sg' ag' d).
Proof. reflexivity. Qed.

(** X4: [ConstrIotTx] ignores its [fee] argument: it assigns
    [tx.Fee = tx.TxFee()], the fee of the fresh transaction, which is 0.
    With a positive minimum fee [addTx] therefore turns every constructed
    IotTx away as too cheap, leaving block and storage as they were. *)
Theorem ConstrIotTx_drops_fee (E : Externals) (Sign : Z -> Z -> option Z)
    (p : Parameters) (s : storage.t) (b : Block.t)
    (header fee txCnt from to sigKey : Z) (data : option (list Z)) :
  0 < Fee_minimum p ->
  IotTx.Fee (ConstrIotTx E Sign header fee txCnt from to sigKey data) = 0
  /\ miner.addTx E p s b
       (TIotTx (ConstrIotTx E Sign header fee txCnt from to sigKey data))
     = miner.mkAdded (Err ErrFeeTooLow) b s
         (TIotTx (ConstrIotTx E Sign header fee txCnt from to sigKey data)).
Proof.
  intros Hmin.
  assert (Hfee : IotTx.Fee (ConstrIotTx E Sign header fee txCnt from to sigKey data) = 0).
  { unfold ConstrIotTx. destruct (Sign _ _); reflexivity. }
  split; [exact Hfee|].
  unfold miner.addTx. cbn [TxFee]. unfold IotTx.TxFee. rewrite Hfee.
  destruct (Z.ltb_spec 0 (Fee_minimum p)); [reflexivity | lia].
Qed.

(** X3: a FundsTx built by [ConstrFundsTx] with the key of the
    sender's account, between two accounts of the state with different
    address hashes and for an amount within (0, MAX_MONEY], is not marked
    aggregated and passes [verifyFundsTx], which replaces [From] and [To]
    by the hashes of the two accounts' addresses. *)
Theorem ConstrFundsTx_is_verified (E : Externals) (Sign : Z -> Z -> option Z)
    (s : storage.t) (header amount fee txCnt from to sigKey : Z)
    (data : option (list Z)) (accFrom accTo : Account.t) :
  (forall message, exists signature,
      Sign sigKey message = Some signature
      /\ ed25519_Verify E (Account.Address accFrom) message signature = true) ->
  storage.State s !! from = Some accFrom ->
  storage.State s !! to = Some accTo ->
  SerializeHashContent E (HCAddress (Account.Address accFrom))
    <> SerializeHashContent E (HCAddress (Account.Address accTo)) ->
  0 < amount <= MAX_MONEY E ->
  let tx := ConstrFundsTx E Sign header amount fee txCnt from to sigKey data in
  FundsTx.Aggregated tx = false
  /\ miner.verifyFundsTx E s tx
     = (true,
        FundsTx.set_To (SerializeHashContent E (HCAddress (Account.Address accTo)))
          (FundsTx.set_From
             (SerializeHashContent E (HCAddress (Account.Address accFrom))) tx)).
Proof.
  intros Hkey HF HT Hne Hamt tx.
  destruct (Hkey (FundsTx.Hash (SerializeHashContent E)
                    (FundsTx.mk header amount fee txCnt from to 0 false data)))
    as (sg & Hsign & Hver).
  assert (Htx : tx = FundsTx.mk header amount fee txCnt from to sg false data).
  { unfold tx, ConstrFundsTx. rewrite Hsign. reflexivity. }
  rewrite Htx. split; [reflexivity|].
  unfold miner.verifyFundsTx.
  cbn [FundsTx.Amount FundsTx.From FundsTx.To FundsTx.Sig FundsTx.set_To
       FundsTx.set_From].
  destruct (Z.eqb_spec amount 0); [lia|].
  destruct (Z.gtb_spec amount (MAX_MONEY E)); [lia|]. cbn [orb].
  rewrite HF, HT. unfold miner.GetPubKeyFromAddressED.
  cbn [FundsTx.Amount FundsTx.From FundsTx.To FundsTx.Sig FundsTx.set_To
       FundsTx.set_From FundsTx.Header FundsTx.Fee FundsTx.TxCnt FundsTx.Aggregated FundsTx.Data].
  change (FundsTx.Hash (SerializeHashContent E)
            (FundsTx.mk header amount fee txCnt from to sg false data))
    with (FundsTx.Hash (SerializeHashContent E)
            (FundsTx.mk header amount fee txCnt from to 0 false data)).
  rewrite Hver, (bool_decide_eq_false_2 _ Hne). reflexivity.
Qed.

Lemma addTx_fee_gate (E : Externals) (p : Parameters) (s : storage.t)
    (b : Block.t) (tx : Transaction) :
  TxFee tx < Fee_minimum p ->
  miner.addTx E p s b tx = miner.mkAdded (Err ErrFeeTooLow) b s tx.
Proof.
  intros H. unfold miner.addTx.
  destruct (Z.ltb_spec (TxFee tx) (Fee_minimum p)); [reflexivity | lia].
Qed.

(** X6: [addTx] has no case for an AggTx: whatever the
    transaction, block and storage are returned as they were, with the fee
    error or the error of an unrecognised type. *)
Theorem addTx_never_adds_AggTx (E : Externals) (p : Parameters) (s : storage.t)
    (b : Block.t) (tx : AggTx.t) :
  miner.block (miner.addTx E p s b (TAggTx tx)) = b
  /\ miner.store (miner.addTx E p s b (TAggTx tx)) = s
  /\ (miner.result (miner.addTx E p s b (TAggTx tx)) = Err ErrFeeTooLow
      \/ miner.result (miner.addTx E p s b (TAggTx tx)) = Err ErrTypeNotRecognized).
Proof.
  unfold miner.addTx. destruct (TxFee (TAggTx tx) <? Fee_minimum p); cbn; auto.
Qed.


(** ** What adding a transaction does to block and storage *)

Section Frames.
Context (E : Externals).

Lemma verifyStakeTx_storage (s : storage.t) (tx : StakeTx.t) :
  (storage.State s !! StakeTx.Account tx = None
   /\ snd (miner.verifyStakeTx E s tx)
      = storage.WriteAccount
          (Account.NewAccount (StakeTx.Account tx) 0 0 false 0 None []) s)
  \/ (is_Some (storage.State s !! StakeTx.Account tx)
      /\ snd (miner.verifyStakeTx E s tx) = s).
Proof.
  unfold miner.verifyStakeTx.
  destruct (storage.State s !! StakeTx.Account tx) eqn:H; [right|left]; eauto.
Qed.

Lemma verify_storage (s : storage.t) (tx : Transaction) :
  snd (miner.verify E s tx) = s
  \/ exists t, tx = TStakeTx t
               /\ storage.State s !! StakeTx.Account t = None
               /\ snd (miner.verify E s tx)
                  = storage.WriteAccount
                      (Account.NewAccount (StakeTx.Account t) 0 0 false 0 None [])
                      s.
Proof.
  destruct tx as [t|t|t|t|t|t]; cbn [miner.verify]; try (left; reflexivity).
  - left. destruct (miner.verifyFundsTx E s t). reflexivity.
  - destruct (verifyStakeTx_storage s t) as [[Hn Hs]|[_ Hs]];
      destruct (miner.verifyStakeTx E s t) as [[v t'] s']; cbn in *; subst.
    + right. eauto.
    + left. reflexivity.
  - left. destruct (miner.verifyIotTx E s t). reflexivity.
Qed.

Lemma addTx_store (p : Parameters) (s : storage.t) (b : Block.t)
    (tx : Transaction) :
  miner.store (miner.addTx E p s b tx) = s
  \/ (Fee_minimum p <= TxFee tx
      /\ miner.store (miner.addTx E p s b tx) = snd (miner.verify E s tx)).
Proof.
  unfold miner.addTx.
  destruct (Z.ltb_spec (TxFee tx) (Fee_minimum p)); [left; reflexivity|].
  right. split; [assumption|].
  destruct (miner.verify E s tx) as [[verified tx'] s'].
  destruct verified; cbn [negb]; [|reflexivity].
  destruct tx' as [t|t|t|t|t|t]; try reflexivity.
  - destruct (miner.addAccTx E s' b t). reflexivity.
  - destruct (miner.addFundsTx E s' b t). reflexivity.
  - destruct (miner.addStakeTx E p s' b t). reflexivity.
  - destruct (miner.addIoTTx E s' b t). reflexivity.
Qed.
End Frames.

(** X8: [addTx] never touches the root keys or the open
    transactions, and the global state only grows; the storage changes at
    all only for a StakeTx whose account key is not yet in the state (the
    write of [verifyStakeTx]). *)
Theorem addTx_storage_frame (E : Externals) (p : Parameters) (s : storage.t)
    (b : Block.t) (tx : Transaction) :
  storage.RootKeys (miner.store (miner.addTx E p s b tx)) = storage.RootKeys s
  /\ storage.OpenTx (miner.store (miner.addTx E p s b tx)) = storage.OpenTx s
  /\ storage.State s ⊆ storage.State (miner.store (miner.addTx E p s b tx))
  /\ (miner.store (miner.addTx E p s b tx) = s
      \/ exists t, tx = TStakeTx t
                   /\ storage.State s !! StakeTx.Account t = None
                   /\ Fee_minimum p <= StakeTx.Fee t).
Proof.
  destruct (addTx_store E p s b tx) as [->|[Hfee ->]].
  { repeat split; auto. }
  destruct (verify_storage E s tx) as [->|(t & -> & Hn & ->)].
  { repeat split; auto. }
  repeat split; cbn.
  - apply insert_subseteq. exact Hn.
  - right. exists t. auto.
Qed.

(** X5: a FundsTx with amount 0, with an amount above
    MAX_MONEY, or whose sender or receiver key is not in the state never
    enters a block: [addTx] returns the fee error or the verification
    error, and block, storage and transaction are as they were. *)
Theorem addTx_rejects_unverifiable_FundsTx (E : Externals) (p : Parameters)
    (s : storage.t) (b : Block.t) (tx : FundsTx.t) :
  FundsTx.Amount tx = 0 \/ MAX_MONEY E < FundsTx.Amount tx
  \/ storage.State s !! FundsTx.From tx = None
  \/ storage.State s !! FundsTx.To tx = None ->
  miner.addTx E p s b (TFundsTx tx)
    = miner.mkAdded
        (if FundsTx.Fee tx <? Fee_minimum p then Err ErrFeeTooLow
         else Err ErrNotVerified)
        b s (TFundsTx tx).
Proof.
  intros H. unfold miner.addTx. cbn [TxFee]. unfold FundsTx.TxFee.
  destruct (FundsTx.Fee tx <? Fee_minimum p); [reflexivity|].
  cbn [miner.verify].
  assert (Hv : miner.verifyFundsTx E s tx = (false, tx)).
  { unfold miner.verifyFundsTx.
    destruct (Z.eqb_spec (FundsTx.Amount tx) 0); [reflexivity|].
    destruct (Z.gtb_spec (FundsTx.Amount tx) (MAX_MONEY E)); [reflexivity|].
    cbn [orb].
    destruct H as [H|[H|[H|H]]]; [lia | lia | |].
    - rewrite H. reflexivity.
    - rewrite H. destruct (storage.State s !! FundsTx.From tx); reflexivity. }
  rewrite Hv. reflexivity.
Qed.

(** X7: when [addTx] succeeds, exactly one hash, that of the
    transaction as verification left it, is appended to the hash sequence
    of the transaction's own category; the other five sequences and the
    block's header fields are as they were. *)
Theorem addTx_appends_one_hash (E : Externals) (p : Parameters) (s : storage.t)
    (b : Block.t) (tx : Transaction) :
  miner.result (miner.addTx E p s b tx) = Nil ->
  category (miner.transaction (miner.addTx E p s b tx)) = category tx
  /\ Block.TxData (miner.block (miner.addTx E p s b tx))
     = alter (fun hashes =>
                hashes ++ [TxHash E (miner.transaction (miner.addTx E p s b tx))])
             (category tx) (Block.TxData b)
  /\ Block.PrevHash (miner.block (miner.addTx E p s b tx)) = Block.PrevHash b
  /\ Block.PrevHashWithoutTx (miner.block (miner.addTx E p s b tx))
     = Block.PrevHashWithoutTx b
  /\ Block.CommitmentProof (miner.block (miner.addTx E p s b tx))
     = Block.CommitmentProof b
  /\ Block.Height (miner.block (miner.addTx E p s b tx)) = Block.Height b
  /\ Block.Aggregated (miner.block (miner.addTx E p s b tx))
     = Block.Aggregated b.
Proof.
  unfold miner.addTx.
  destruct (TxFee tx <? Fee_minimum p); [discriminate|].
  destruct (miner.verify E s tx) as [[verified tx'] s'] eqn:Hv.
  assert (Hcat : category tx' = category tx).
  { destruct tx as [t|t|t|t|t|t]; cbn [miner.verify] in Hv.
    - injection Hv as _ <- _. reflexivity.
    - destruct (miner.verifyFundsTx E s t). injection Hv as _ <- _. reflexivity.
    - injection Hv as _ <- _. reflexivity.
    - destruct (miner.verifyStakeTx E s t) as [[? ?] ?].
      injection Hv as _ <- _. reflexivity.
    - injection Hv as _ <- _. reflexivity.
    - destruct (miner.verifyIotTx E s t). injection Hv as _ <- _. reflexivity. }
  rewrite <- Hcat. clear Hv Hcat.
  destruct verified; cbn [negb]; [|discriminate].
  destruct tx' as [t|t|t|t|t|t].
  - unfold miner.addAccTx. destruct (_ && _); [discriminate|]. intros _.
    destruct b; repeat split.
  - destruct (miner.addFundsTx E s' b t) as [r b'] eqn:Hadd. cbn. intros ->.
    revert Hadd. unfold miner.addFundsTx. intros Hadd.
    repeat case_match; simplify_eq; destruct b; repeat split.
  - intros _. destruct b; repeat split.
  - destruct (miner.addStakeTx E p s' b t) as [r b'] eqn:Hadd. cbn. intros ->.
    revert Hadd. unfold miner.addStakeTx. intros Hadd.
    repeat case_match; simplify_eq; destruct b; repeat split.
  - discriminate.
  - destruct (miner.addIoTTx E s' b t) as [r b'] eqn:Hadd. cbn. intros ->.
    revert Hadd. unfold miner.addIoTTx. intros Hadd.
    repeat case_match; simplify_eq; destruct b; repeat split.
Qed.


(** ** The overlay *)

Section Overlay.
Context (E : Externals).

Lemma overlay_keeps_refl (sc : gmap Z Account.t) : overlay_keeps E sc sc.
Proof. split; [eauto | auto]. Qed.

Lemma overlay_keeps_trans (sc1 sc2 sc3 : gmap Z Account.t) :
  overlay_keeps E sc1 sc2 -> overlay_keeps E sc2 sc3 -> overlay_keeps E sc1 sc3.
Proof.
  intros [H12 K12] [H23 K23]. split; [|auto].
  intros k acc Hk. destruct (H12 k acc Hk) as (a2 & Ha2 & Hadr).
  destruct (H23 k a2 Ha2) as (a3 & Ha3 & Hadr'). exists a3. split; congruence.
Qed.

Lemma overlay_keeps_copy (s : storage.t) (sc sc' : gmap Z Account.t) (key : Z) :
  miner.copyAccount E s sc key = Some sc' -> overlay_keeps E sc sc'.
Proof.
  unfold miner.copyAccount. intros H.
  destruct (sc !! key) eqn:Hsc.
  { injection H as <-. apply overlay_keeps_refl. }
  destruct (storage.State s !! key) as [acc|] eqn:Hst; [|discriminate].
  destruct (bool_decide _) eqn:Hh.
  - injection H as <-. apply bool_decide_eq_true in Hh. split.
    + intros k a Hk. exists a. split; [|reflexivity].
      rewrite lookup_insert_ne; [assumption | congruence].
    + intros Hkeyed k a. rewrite lookup_insert. case_decide.
      * intros [= <-]. congruence.
      * apply Hkeyed.
  - injection H as <-. apply overlay_keeps_refl.
Qed.

Lemma overlay_keeps_alter (f : Account.t -> Account.t) (key : Z)
    (sc : gmap Z Account.t) :
  (forall a, Account.Address (f a) = Account.Address a) ->
  overlay_keeps E sc (alter f key sc).
Proof.
  intros Hf. split.
  - intros k a Hk. rewrite lookup_alter. case_decide as Hd.
    + subst. rewrite Hk. cbn. eauto.
    + eauto.
  - intros Hkeyed k a. rewrite lookup_alter. case_decide as Hd.
    + subst. destruct (sc !! k) as [a0|] eqn:Ha0; cbn; [|discriminate].
      intros [= <-]. rewrite Hf. eauto.
    + apply Hkeyed.
Qed.

Ltac keeps :=
  cbn [Block.StateCopy Block.set_StateCopy Block.set_FundsTxData
       Block.set_IoTTxData Block.set_StakeTxData Block.set_AccTxData
       Block.set_ConfigTxData];
  repeat first
    [ apply overlay_keeps_refl
    | match goal with
      | H : miner.copyAccount _ _ ?a _ = Some ?b |- overlay_keeps _ ?a _ =>
          apply (overlay_keeps_trans a b);
          [exact (overlay_keeps_copy _ _ _ _ H)|]
      end
    | match goal with
      | |- overlay_keeps _ ?a (alter ?f ?k ?m) =>
          apply (overlay_keeps_trans a m);
          [|apply overlay_keeps_alter; intros []; reflexivity]
      end ].

Lemma addFundsTx_overlay_keeps (s : storage.t) (b b' : Block.t)
    (tx : FundsTx.t) (r : outcome) :
  miner.addFundsTx E s b tx = (r, b') ->
  overlay_keeps E (Block.StateCopy b) (Block.StateCopy b').
Proof.
  unfold miner.addFundsTx. intros H.
  repeat case_match; simplify_eq; keeps.
Qed.

Lemma addIoTTx_overlay_keeps (s : storage.t) (b b' : Block.t)
    (tx : IotTx.t) (r : outcome) :
  miner.addIoTTx E s b tx = (r, b') ->
  overlay_keeps E (Block.StateCopy b) (Block.StateCopy b').
Proof.
  unfold miner.addIoTTx. intros H.
  repeat case_match; simplify_eq; keeps.
Qed.

Lemma addStakeTx_overlay_keeps (p : Parameters) (s : storage.t) (b b' : Block.t)
    (tx : StakeTx.t) (r : outcome) :
  miner.addStakeTx E p s b tx = (r, b') ->
  overlay_keeps E (Block.StateCopy b) (Block.StateCopy b').
Proof.
  unfold miner.addStakeTx. intros H.
  repeat case_match; simplify_eq; keeps.
Qed.

Lemma addTx_overlay_keeps (p : Parameters) (s : storage.t) (b : Block.t)
    (tx : Transaction) :
  overlay_keeps E (Block.StateCopy b)
    (Block.StateCopy (miner.block (miner.addTx E p s b tx))).
Proof.
  unfold miner.addTx.
  destruct (TxFee tx <? Fee_minimum p); [apply overlay_keeps_refl|].
  destruct (miner.verify E s tx) as [[verified tx'] s'].
  destruct verified; cbn [negb]; [|apply overlay_keeps_refl].
  destruct tx' as [t|t|t|t|t|t].
  - unfold miner.addAccTx. destruct (_ && _); apply overlay_keeps_refl.
  - destruct (miner.addFundsTx E s' b t) as [r b'] eqn:Hadd.
    exact (addFundsTx_overlay_keeps _ _ _ _ _ Hadd).
  - apply overlay_keeps_refl.
  - destruct (miner.addStakeTx E p s' b t) as [r b'] eqn:Hadd.
    exact (addStakeTx_overlay_keeps _ _ _ _ _ _ Hadd).
  - apply overlay_keeps_refl.
  - destruct (miner.addIoTTx E s' b t) as [r b'] eqn:Hadd.
    exact (addIoTTx_overlay_keeps _ _ _ _ _ Hadd).
Qed.
End Overlay.

(** X9: [addTx] never removes an account from the block's
    state copy and never changes the address of one, whether it accepts or
    rejects the transaction. *)
Theorem addTx_overlay_never_shrinks (E : Externals) (p : Parameters)
    (s : storage.t) (b : Block.t) (tx : Transaction) (k : Z) (acc : Account.t) :
  Block.StateCopy b !! k = Some acc ->
  exists acc',
    Block.StateCopy (miner.block (miner.addTx E p s b tx)) !! k = Some acc'
    /\ Account.Address acc' = Account.Address acc.
Proof. apply (addTx_overlay_keeps E p s b tx). Qed.

(** X10: if every account of the block's state copy is stored
    under the hash of its address, this still holds after [addTx]. *)
Theorem addTx_overlay_stays_keyed (E : Externals) (p : Parameters)
    (s : storage.t) (b : Block.t) (tx : Transaction) :
  keyed_by_hash E (Block.StateCopy b) ->
  keyed_by_hash E (Block.StateCopy (miner.block (miner.addTx E p s b tx))).
Proof. apply (addTx_overlay_keeps E p s b tx). Qed.


(** ** Nil dereferences *)

Section NoPanic.
Context (E : Externals).

Lemma copyAccount_reaches (s : storage.t) (sc sc' : gmap Z Account.t) (key : Z) :
  (forall acc, storage.State s !! key = Some acc ->
               SerializeHashContent E (HCAddress (Account.Address acc)) = key) ->
  miner.copyAccount E s sc key = Some sc' -> is_Some (sc' !! key).
Proof.
  unfold miner.copyAccount. intros Hk H.
  destruct (sc !! key) eqn:Hsc.
  { injection H as <-. rewrite Hsc. eauto. }
  destruct (storage.State s !! key) as [acc|] eqn:Hst; [|discriminate].
  rewrite (bool_decide_eq_true_2 _ (Hk acc eq_refl)) in H.
  injection H as <-. rewrite lookup_insert_eq. eauto.
Qed.

Lemma copyAccount_keeps_keys (s : storage.t) (sc sc' : gmap Z Account.t)
    (key k : Z) :
  miner.copyAccount E s sc key = Some sc' ->
  is_Some (sc !! k) -> is_Some (sc' !! k).
Proof.
  intros H [a Ha]. apply copyAccount_copied_from in H.
  destruct (H k) as [H'|[H' _]]; [rewrite H', Ha; eauto | congruence].
Qed.

Lemma addFundsTx_no_panic (s : storage.t) (b : Block.t) (tx : FundsTx.t) :
  (forall acc, storage.State s !! FundsTx.From tx = Some acc ->
     SerializeHashContent E (HCAddress (Account.Address acc)) = FundsTx.From tx) ->
  (forall acc, storage.State s !! FundsTx.To tx = Some acc ->
     SerializeHashContent E (HCAddress (Account.Address acc)) = FundsTx.To tx) ->
  fst (miner.addFundsTx E s b tx) <> Panic.
Proof.
  intros HF HT. unfold miner.addFundsTx.
  destruct (miner.copyAccount E s (Block.StateCopy b) (FundsTx.From tx))
    as [sc1|] eqn:H1; [|discriminate].
  cbn [Block.StateCopy Block.set_StateCopy].
  destruct (miner.copyAccount E s sc1 (FundsTx.To tx)) as [sc2|] eqn:H2;
    [|discriminate].
  cbn [Block.StateCopy Block.set_StateCopy].
  destruct (copyAccount_keeps_keys _ _ _ _ _ H2 (copyAccount_reaches _ _ _ _ HF H1))
    as [aF ->].
  destruct (copyAccount_reaches _ _ _ _ HT H2) as [aT ->].
  repeat case_match; discriminate.
Qed.

Lemma addIoTTx_no_panic (s : storage.t) (b : Block.t) (tx : IotTx.t) :
  (forall acc, storage.State s !! IotTx.From tx = Some acc ->
     SerializeHashContent E (HCAddress (Account.Address acc)) = IotTx.From tx) ->
  fst (miner.addIoTTx E s b tx) <> Panic.
Proof.
  intros HF. unfold miner.addIoTTx.
  destruct (miner.copyAccount E s (Block.StateCopy b) (IotTx.From tx))
    as [sc1|] eqn:H1; [|discriminate].
  cbn [Block.StateCopy Block.set_StateCopy].
  destruct (miner.copyAccount E s sc1 (IotTx.To tx)) as [sc2|] eqn:H2;
    [|discriminate].
  cbn [Block.StateCopy Block.set_StateCopy].
  destruct (copyAccount_keeps_keys _ _ _ _ _ H2 (copyAccount_reaches _ _ _ _ HF H1))
    as [aF ->].
  discriminate.
Qed.

Lemma addStakeTx_no_panic (p : Parameters) (s : storage.t) (b : Block.t)
    (tx : StakeTx.t) :
  (forall acc, storage.State s !! StakeTx.Account tx = Some acc ->
     SerializeHashContent E (HCAddress (Account.Address acc)) = StakeTx.Account tx) ->
  fst (miner.addStakeTx E p s b tx) <> Panic.
Proof.
  intros HA. unfold miner.addStakeTx.
  destruct (miner.copyAccount E s (Block.StateCopy b) (StakeTx.Account tx))
    as [sc1|] eqn:H1; [|discriminate].
  cbn [Block.StateCopy Block.set_StateCopy].
  destruct (copyAccount_reaches _ _ _ _ HA H1) as [a ->].
  repeat case_match; discriminate.
Qed.

(** [verifyFundsTx] leaves addresses that are keys of accounts. *)
Lemma verifyFundsTx_true_keys (s : storage.t) (tx tx' : FundsTx.t) :
  miner.verifyFundsTx E s tx = (true, tx') ->
  exists accFrom accTo,
    storage.State s !! FundsTx.From tx = Some accFrom
    /\ storage.State s !! FundsTx.To tx = Some accTo
    /\ FundsTx.From tx'
       = SerializeHashContent E (HCAddress (Account.Address accFrom))
    /\ FundsTx.To tx'
       = SerializeHashContent E (HCAddress (Account.Address accTo)).
Proof.
  unfold miner.verifyFundsTx. intros H.
  repeat case_match; simplify_eq. eauto 10.
Qed.

Lemma verifyIotTx_true_keys (s : storage.t) (tx tx' : IotTx.t) :
  miner.verifyIotTx E s tx = (true, tx') ->
  exists accFrom accTo,
    storage.State s !! IotTx.From tx = Some accFrom
    /\ storage.State s !! IotTx.To tx = Some accTo
    /\ IotTx.From tx'
       = SerializeHashContent E (HCAddress (Account.Address accFrom))
    /\ IotTx.To tx'
       = SerializeHashContent E (HCAddress (Account.Address accTo)).
Proof.
  unfold miner.verifyIotTx. intros H.
  repeat case_match; simplify_eq. eauto 10.
Qed.
End NoPanic.

(** X11: if every account of the global state is stored under
    the hash of its address, [addTx] dereferences no nil account: it
    returns nil or an error for every transaction and every block. *)
Theorem addTx_never_panics (E : Externals) (p : Parameters) (s : storage.t)
    (b : Block.t) (tx : Transaction) :
  keyed_by_hash E (storage.State s) ->
  miner.result (miner.addTx E p s b tx) <> Panic.
Proof.
  intros Hkeyed. unfold miner.addTx.
  destruct (TxFee tx <? Fee_minimum p); [discriminate|].
  destruct (miner.verify E s tx) as [[verified tx'] s'] eqn:Hv.
  destruct verified; cbn [negb]; [|discriminate].
  destruct tx as [t|t|t|t|t|t]; cbn [miner.verify] in Hv.
  - injection Hv as _ <- <-. unfold miner.addAccTx.
    destruct (_ && _); discriminate.
  - destruct (miner.verifyFundsTx E s t) as [v t'] eqn:Hvf.
    injection Hv as -> <- <-.
    destruct (verifyFundsTx_true_keys E s t t' Hvf)
      as (aF & aT & HF & HT & HF' & HT').
    pose proof (addFundsTx_no_panic E s b t') as Hnp.
    destruct (miner.addFundsTx E s b t') as [r b']. cbn in *.
    apply Hnp; intros acc Hacc.
    + apply Hkeyed. exact Hacc.
    + apply Hkeyed. exact Hacc.
  - injection Hv as _ <- <-. discriminate.
  - unfold miner.verifyStakeTx in Hv.
    pose proof (addStakeTx_no_panic E p s' b) as Hnp.
    destruct (storage.State s !! StakeTx.Account t) as [acc|] eqn:Hacc.
    + injection Hv as _ <- <-.
      match goal with |- context [miner.addStakeTx E p s b ?t'] =>
        specialize (Hnp t'); destruct (miner.addStakeTx E p s b t') as [r b']
      end.
      cbn in *. apply Hnp. intros a Ha. apply Hkeyed. exact Ha.
    + injection Hv as _ <- <-.
      match goal with |- context [miner.addStakeTx E p ?s' b ?t'] =>
        specialize (Hnp t'); destruct (miner.addStakeTx E p s' b t') as [r b']
      end.
      cbn in *. apply Hnp. intros a.
      rewrite lookup_insert. case_decide as Hd.
      * intros [= <-]. cbn. reflexivity.
      * intros Ha. apply Hkeyed. exact Ha.
  - injection Hv as <- <-. discriminate.
  - destruct (miner.verifyIotTx E s t) as [v t'] eqn:Hvf.
    injection Hv as -> <- <-.
    pose proof (addIoTTx_no_panic E s b t') as Hnp.
    destruct (miner.addIoTTx E s b t') as [r b']. cbn in *.
    apply Hnp. intros acc Hacc. apply Hkeyed. exact Hacc.
Qed.

(** X12: [addFundsTx] copies the sender's account under
    the hash of its address but reads it back under [tx.From]; when the
    state holds the sender under a key that is not the hash of its address
    and the block has not touched it, the read gives nil and the balance
    check dereferences it. *)
Theorem addFundsTx_panics_on_misfiled_sender (E : Externals) (s : storage.t)
    (b : Block.t) (tx : FundsTx.t) (acc : Account.t) :
  Block.StateCopy b !! FundsTx.From tx = None ->
  storage.State s !! FundsTx.From tx = Some acc ->
  SerializeHashContent E (HCAddress (Account.Address acc)) <> FundsTx.From tx ->
  is_Some (Block.StateCopy b !! FundsTx.To tx)
    \/ is_Some (storage.State s !! FundsTx.To tx) ->
  fst (miner.addFundsTx E s b tx) = Panic.
Proof.
  intros Hb Hs Hne HTo. unfold miner.addFundsTx.
  unfold miner.copyAccount at 1. rewrite Hb, Hs, (bool_decide_eq_false_2 _ Hne).
  cbn [Block.StateCopy Block.set_StateCopy].
  unfold miner.copyAccount.
  destruct (Block.StateCopy b !! FundsTx.To tx) as [aT|] eqn:HbT.
  { cbn [Block.StateCopy Block.set_StateCopy]. rewrite Hb. reflexivity. }
  destruct HTo as [[? HTo]|[aT HTo]]; [discriminate|]. rewrite HTo.
  destruct (bool_decide _) eqn:Hd; cbn [Block.StateCopy Block.set_StateCopy].
  - apply bool_decide_eq_true in Hd.
    rewrite lookup_insert_ne, Hb; [reflexivity|].
    intros Heq. rewrite Heq, Hs in HTo. injection HTo as <-. congruence.
  - rewrite Hb. reflexivity.
Qed.


(** ** Transfers and staking *)

Section Transfer.
Context (E : Externals).

(** What an accepted FundsTx between two different accounts of the overlay
    does to it. *)
Lemma addFundsTx_transfer (s : storage.t) (b b' : Block.t) (tx : FundsTx.t)
    (accFrom accTo : Account.t) :
  Block.StateCopy b !! FundsTx.From tx = Some accFrom ->
  Block.StateCopy b !! FundsTx.To tx = Some accTo ->
  FundsTx.From tx <> FundsTx.To tx ->
  miner.addFundsTx E s b tx = (Nil, b') ->
  exists accTo',
    Block.StateCopy b' !! FundsTx.From tx
      = Some (Account.set_Balance
                (wrap64 (Account.Balance accFrom - FundsTx.Amount tx))
                (Account.set_TxCnt (wrap32 (Account.TxCnt accFrom + 1)) accFrom))
    /\ Block.StateCopy b' !! FundsTx.To tx
       = Some (Account.set_Balance
                 (wrap64 (Account.Balance accTo + FundsTx.Amount tx)) accTo')
    /\ (accTo' = accTo
        \/ exists vars, accTo' = Account.set_ContractVariables vars accTo)
    /\ (forall k, k <> FundsTx.From tx -> k <> FundsTx.To tx ->
                  Block.StateCopy b' !! k = Block.StateCopy b !! k).
Proof.
  intros HF HT Hne Hadd. unfold miner.addFundsTx in Hadd.
  rewrite (copyAccount_present E s _ _ _ HF) in Hadd.
  cbn [Block.StateCopy Block.set_StateCopy] in Hadd.
  rewrite (copyAccount_present E s _ _ _ HT) in Hadd.
  cbn [Block.StateCopy Block.set_StateCopy] in Hadd.
  rewrite HF, HT in Hadd.
  destruct (negb _ && _); [discriminate|].
  destruct (_ >? MAX_MONEY E); [discriminate|].
  assert (Hne' : FundsTx.To tx <> FundsTx.From tx) by congruence.
  assert (Hfin : forall scvm accTo',
            scvm !! FundsTx.From tx = Some accFrom ->
            scvm !! FundsTx.To tx = Some accTo' ->
            (forall k, k <> FundsTx.To tx -> scvm !! k = Block.StateCopy b !! k) ->
            (accTo' = accTo
             \/ exists vars, accTo' = Account.set_ContractVariables vars accTo) ->
            b' = Block.set_FundsTxData
                   (Block.FundsTxData b ++ [FundsTx.Hash (SerializeHashContent E) tx])
                   (Block.set_StateCopy
                      (alter (fun a => Account.set_Balance
                                (wrap64 (Account.Balance a + FundsTx.Amount tx)) a)
                         (FundsTx.To tx)
                         (alter (fun a =>
                                   Account.set_Balance
                                     (wrap64 (Account.Balance
                                        (Account.set_TxCnt
                                           (wrap32 (Account.TxCnt a + 1)) a)
                                        - FundsTx.Amount tx))
                                     (Account.set_TxCnt
                                        (wrap32 (Account.TxCnt a + 1)) a))
                            (FundsTx.From tx) scvm))
                      b) ->
            exists accTo',
              Block.StateCopy b' !! FundsTx.From tx
              = Some (Account.set_Balance
                        (wrap64 (Account.Balance accFrom - FundsTx.Amount tx))
                        (Account.set_TxCnt (wrap32 (Account.TxCnt accFrom + 1))
                           accFrom))
              /\ Block.StateCopy b' !! FundsTx.To tx
                 = Some (Account.set_Balance
                           (wrap64 (Account.Balance accTo + FundsTx.Amount tx))
                           accTo')
              /\ (accTo' = accTo
                  \/ exists vars,
                       accTo' = Account.set_ContractVariables vars accTo)
              /\ (forall k, k <> FundsTx.From tx -> k <> FundsTx.To tx ->
                     Block.StateCopy b' !! k = Block.StateCopy b !! k)).
  { intros scvm accTo' HvF HvT Hother Hcase Hb'. rewrite Hb'. exists accTo'.
    cbn [Block.StateCopy Block.set_StateCopy Block.set_FundsTxData].
    split; [|split; [|split]].
    - rewrite lookup_alter_ne, lookup_alter_eq, HvF by assumption. reflexivity.
    - rewrite lookup_alter_eq, lookup_alter_ne, HvT by assumption.
      destruct Hcase as [->|[vars ->]]; reflexivity.
    - exact Hcase.
    - intros k Hk1 Hk2. rewrite !lookup_alter_ne by congruence.
      apply Hother. assumption. }
  destruct (FundsTx.Data tx) as [d|] eqn:Hd;
    [destruct (Account.Contract accTo) as [c|] eqn:Hc;
       [destruct (vm_Exec E accTo tx) as [vars|] eqn:Hvm; [|discriminate]|]|];
    injection Hadd as Hb'; symmetry in Hb'.
  - apply (Hfin (alter (Account.set_ContractVariables vars) (FundsTx.To tx)
                   (Block.StateCopy b))
                (Account.set_ContractVariables vars accTo));
      first
        [ rewrite lookup_alter_ne by assumption; exact HF
        | rewrite lookup_alter_eq, HT; reflexivity
        | intros k Hk; rewrite lookup_alter_ne by congruence; reflexivity
        | right; eexists; reflexivity
        | rewrite Hb'; destruct b; reflexivity ].
  - apply (Hfin (Block.StateCopy b) accTo); auto;
      rewrite Hb'; destruct b; reflexivity.
  - apply (Hfin (Block.StateCopy b) accTo); auto;
      rewrite Hb'; destruct b; reflexivity.
Qed.
End Transfer.

(** X13: when [addFundsTx] accepts a transfer between two
    different accounts of the block's state copy and no sum leaves the
    64-bit range, the sender's balance goes down by the amount, the
    receiver's goes up by it, their sum is unchanged, the sender can still
    pay the fee, and the receiver stays within MAX_MONEY. *)
Theorem addFundsTx_conserves_money (E : Externals) (s : storage.t)
    (b b' : Block.t) (tx : FundsTx.t) (accFrom accTo : Account.t) :
  Block.StateCopy b !! FundsTx.From tx = Some accFrom ->
  Block.StateCopy b !! FundsTx.To tx = Some accTo ->
  FundsTx.From tx <> FundsTx.To tx ->
  storage.IsRootKey s (FundsTx.From tx) = false ->
  0 <= FundsTx.Amount tx -> 0 <= FundsTx.Fee tx ->
  FundsTx.Amount tx + FundsTx.Fee tx < 2 ^ 64 ->
  0 <= Account.Balance accFrom < 2 ^ 64 ->
  0 <= Account.Balance accTo ->
  Account.Balance accTo + FundsTx.Amount tx < 2 ^ 64 ->
  miner.addFundsTx E s b tx = (Nil, b') ->
  exists accFrom' accTo',
    Block.StateCopy b' !! FundsTx.From tx = Some accFrom'
    /\ Block.StateCopy b' !! FundsTx.To tx = Some accTo'
    /\ Account.Balance accFrom' = Account.Balance accFrom - FundsTx.Amount tx
    /\ Account.Balance accTo' = Account.Balance accTo + FundsTx.Amount tx
    /\ Account.Balance accFrom' + Account.Balance accTo'
       = Account.Balance accFrom + Account.Balance accTo
    /\ FundsTx.Fee tx <= Account.Balance accFrom'
    /\ Account.Balance accTo' <= MAX_MONEY E.
Proof.
  intros HF HT Hne Hroot Ha Hfee Hsum HbF HbT HsumT Hadd.
  destruct (addFundsTx_transfer E s b b' tx accFrom accTo HF HT Hne Hadd)
    as (accTo' & HF' & HT' & _ & _).
  destruct (addFundsTx_receiver_bounded E s b b' tx Hne Hadd)
    as (aT & HaT & Hle).
  rewrite HT' in HaT. injection HaT as <-.
  (* the balance check *)
  unfold miner.addFundsTx in Hadd.
  rewrite (copyAccount_present E s _ _ _ HF) in Hadd.
  cbn [Block.StateCopy Block.set_StateCopy] in Hadd.
  rewrite (copyAccount_present E s _ _ _ HT) in Hadd.
  cbn [Block.StateCopy Block.set_StateCopy] in Hadd.
  rewrite HF, Hroot in Hadd. cbn [negb andb] in Hadd.
  unfold wrap64 in Hadd at 1. rewrite Z.mod_small in Hadd by lia.
  destruct (Z.gtb_spec (FundsTx.Amount tx + FundsTx.Fee tx)
              (Account.Balance accFrom)) as [|Hok]; [discriminate|].
  clear Hadd.
  eexists _, _. split; [exact HF'|]. split; [exact HT'|].
  cbn in Hle |- *. unfold wrap64 in *.
  rewrite (Z.mod_small (Account.Balance accFrom - FundsTx.Amount tx)) by lia.
  rewrite (Z.mod_small (Account.Balance accTo + FundsTx.Amount tx)) in * by lia.
  repeat split; lia.
Qed.

(** X14: when [addStakeTx] accepts a transaction for an account
    of the block's state copy, the account's staking flag differed from the
    transaction's, the account is a root key or its balance is strictly
    above fee plus staking minimum, and the block differs from the old one
    in the account's staking flag and commitment key and in one more
    StakeTx hash. *)
Theorem addStakeTx_accepted (E : Externals) (p : Parameters) (s : storage.t)
    (b b' : Block.t) (tx : StakeTx.t) (acc : Account.t) :
  Block.StateCopy b !! StakeTx.Account tx = Some acc ->
  miner.addStakeTx E p s b tx = (Nil, b') ->
  Account.IsStaking acc <> StakeTx.IsStaking tx
  /\ (storage.IsRootKey s
        (SerializeHashContent E (HCAddress (StakeTx.Account tx))) = true
      \/ wrap64 (StakeTx.Fee tx + Staking_minimum p) < Account.Balance acc)
  /\ Block.StateCopy b'
     = <[StakeTx.Account tx :=
           Account.set_CommitmentKey (StakeTx.CommitmentKey tx)
             (Account.set_IsStaking (StakeTx.IsStaking tx) acc)]>
         (Block.StateCopy b)
  /\ Block.StakeTxData b' = Block.StakeTxData b ++ [StakeTx_Hash E tx].
Proof.
  intros Hb Hadd. unfold miner.addStakeTx in Hadd.
  rewrite (copyAccount_present E s _ _ _ Hb) in Hadd.
  cbn [Block.StateCopy Block.set_StateCopy] in Hadd. rewrite Hb in Hadd.
  destruct (storage.IsRootKey s _) eqn:Hroot; cbn [negb andb] in Hadd.
  - destruct (bool_decide _) eqn:Hd; [discriminate|].
    apply bool_decide_eq_false in Hd. injection Hadd as <-. cbn.
    repeat split; auto.
    apply map_eq. intros k. rewrite lookup_alter, lookup_insert.
    case_decide; subst; [rewrite Hb|]; reflexivity.
  - destruct (Z.geb_spec (wrap64 (StakeTx.Fee tx + Staking_minimum p))
                (Account.Balance acc)) as [|Hlt]; [discriminate|].
    destruct (bool_decide _) eqn:Hd; [discriminate|].
    apply bool_decide_eq_false in Hd. injection Hadd as <-. cbn.
    repeat split; auto.
    apply map_eq. intros k. rewrite lookup_alter, lookup_insert.
    case_decide; subst; [rewrite Hb|]; reflexivity.
Qed.


(** ** The duplicate scan *)

Section Duplicates.

(** One loop of the scan, started with the hashes of [seen] in the set. *)
Lemma scanDuplicates_spec (e : miner.invalid) (hashes seen : list Z) :
  match miner.scanDuplicates e hashes (list_to_set seen) with
  | inl e' => e' = e /\ ~ NoDup (seen ++ hashes)
  | inr d => d = list_to_set (seen ++ hashes)
             /\ (NoDup seen -> NoDup (seen ++ hashes))
  end.
Proof.
  revert seen. induction hashes as [|h l IH]; intros seen; cbn [miner.scanDuplicates].
  - rewrite app_nil_r. auto.
  - case_bool_decide as Hin.
    + split; [reflexivity|]. apply elem_of_list_to_set in Hin.
      intros Hnd. apply NoDup_app in Hnd as (_ & Hd & _).
      apply (Hd h Hin). apply elem_of_cons. auto.
    + assert (Hset : {[h]} ∪ list_to_set seen
                     =@{gset Z} list_to_set (seen ++ [h])).
      { rewrite list_to_set_app_L. cbn [list_to_set].
        rewrite (right_id_L ∅ (∪)). apply (comm_L (∪)). }
      rewrite Hset. specialize (IH (seen ++ [h])).
      rewrite <- app_assoc in IH. cbn [app] in IH.
      destruct (miner.scanDuplicates e l (list_to_set (seen ++ [h]))) as [e'|d].
      * exact IH.
      * destruct IH as [-> IH]. split; [reflexivity|].
        intros Hnd. apply IH. apply NoDup_app. split; [assumption|].
        split; [|apply NoDup_singleton].
        intros x Hx Hx'. apply list_elem_of_singleton in Hx'. subst x.
        apply Hin. apply elem_of_list_to_set. assumption.
Qed.

Lemma NoDup_app_l_inv (l k : list Z) : NoDup (l ++ k) -> NoDup l.
Proof. intros H. apply NoDup_app in H. tauto. Qed.
End Duplicates.

Lemma preValidate_duplicates_NoDup (block : Block.t) :
  miner.preValidate_duplicates block = None
  <-> NoDup (concat (Block.TxData block)).
Proof.
  unfold miner.preValidate_duplicates, Block.TxData. cbn [concat].
  rewrite app_nil_r.
  set (l1 := Block.AccTxData block). set (l2 := Block.FundsTxData block).
  set (l3 := Block.ConfigTxData block). set (l4 := Block.StakeTxData block).
  set (l5 := Block.AggTxData block). set (l6 := Block.IoTTxData block).
  rewrite !app_assoc.
  pose proof (scanDuplicates_spec miner.DuplicateAcc l1 []) as S1.
  cbn [list_to_set app] in S1.
  destruct (miner.scanDuplicates miner.DuplicateAcc l1 ∅) as [e|d1].
  { split; [discriminate|]. intros H. exfalso. apply (proj2 S1).
    do 5 apply NoDup_app_l_inv in H. exact H. }
  destruct S1 as [-> N1]. specialize (N1 (NoDup_nil_2)).
  pose proof (scanDuplicates_spec miner.DuplicateFunds l2 l1) as S2.
  destruct (miner.scanDuplicates miner.DuplicateFunds l2 _) as [e|d2].
  { split; [discriminate|]. intros H. exfalso. apply (proj2 S2).
    do 4 apply NoDup_app_l_inv in H. exact H. }
  destruct S2 as [-> N2]. specialize (N2 N1).
  pose proof (scanDuplicates_spec miner.DuplicateConfig l3 (l1 ++ l2)) as S3.
  destruct (miner.scanDuplicates miner.DuplicateConfig l3 _) as [e|d3].
  { split; [discriminate|]. intros H. exfalso. apply (proj2 S3).
    do 3 apply NoDup_app_l_inv in H. exact H. }
  destruct S3 as [-> N3]. specialize (N3 N2).
  pose proof (scanDuplicates_spec miner.DuplicateStake l4 ((l1 ++ l2) ++ l3)) as S4.
  destruct (miner.scanDuplicates miner.DuplicateStake l4 _) as [e|d4].
  { split; [discriminate|]. intros H. exfalso. apply (proj2 S4).
    do 2 apply NoDup_app_l_inv in H. exact H. }
  destruct S4 as [-> N4]. specialize (N4 N3).
  pose proof (scanDuplicates_spec miner.DuplicateAgg l5 (((l1 ++ l2) ++ l3) ++ l4)) as S5.
  destruct (miner.scanDuplicates miner.DuplicateAgg l5 _) as [e|d5].
  { split; [discriminate|]. intros H. exfalso. apply (proj2 S5).
    apply NoDup_app_l_inv in H. exact H. }
  destruct S5 as [-> N5]. specialize (N5 N4).
  pose proof (scanDuplicates_spec miner.DuplicateIoT l6
                ((((l1 ++ l2) ++ l3) ++ l4) ++ l5)) as S6.
  destruct (miner.scanDuplicates miner.DuplicateIoT l6 _) as [e|d6].
  { split; [discriminate|]. intros H. exfalso. apply (proj2 S6). exact H. }
  destruct S6 as [_ N6]. split; [intros _; exact (N6 N5) | reflexivity].
Qed.

(** X15: the duplicate scan at the head of [preValidate]
    passes exactly when no hash occurs twice in the block's six hash
    sequences taken together, within one sequence or across two. *)
Theorem preValidate_duplicates_iff (block : Block.t) :
  miner.preValidate_duplicates block = None
  <-> NoDup (concat (Block.TxData block)).
Proof. exact (preValidate_duplicates_NoDup block). Qed.

(** X16: [addFundsTx] keeps no record of the hashes it has
    added: when it accepts the same FundsTx twice in a row, the resulting
    block fails the duplicate scan of [preValidate]. *)
Theorem addFundsTx_twice_fails_duplicate_scan (E : Externals) (s : storage.t)
    (b b1 b2 : Block.t) (tx : FundsTx.t) :
  miner.addFundsTx E s b tx = (Nil, b1) ->
  miner.addFundsTx E s b1 tx = (Nil, b2) ->
  miner.preValidate_duplicates b2 <> None.
Proof.
  intros H1 H2 Hnone. apply preValidate_duplicates_NoDup in Hnone.
  destruct (addFundsTx_accepted E s b b1 tx H1) as (?&?&?&?&_&_&_&_&_&_& Hd1).
  destruct (addFundsTx_accepted E s b1 b2 tx H2) as (?&?&?&?&_&_&_&_&_&_& Hd2).
  unfold Block.TxData in Hnone. cbn [concat] in Hnone.
  rewrite Hd2, Hd1 in Hnone.
  apply NoDup_app in Hnone as (_ & _ & Hnone).
  apply NoDup_app in Hnone as (Hnone & _).
  rewrite <- app_assoc in Hnone. apply NoDup_app in Hnone as (_ & _ & Hnone).
  cbn in Hnone. apply NoDup_cons in Hnone as [Hnone _].
  apply Hnone. apply elem_of_cons. auto.
Qed.


(** ** The aggregate record *)

Section AggregateMore.
Context (E : Externals).

Lemma fold_wrap64_sum (txs : list FundsTx.t) (a : Z) :
  fold_left (fun acc tx => wrap64 (acc + FundsTx.Amount tx)) txs (wrap64 a)
  = wrap64 (a + foldr Z.add 0 (map FundsTx.Amount txs)).
Proof.
  revert a. induction txs as [|x l IH]; intros a; cbn [fold_left foldr map].
  - rewrite Z.add_0_r. reflexivity.
  - replace (wrap64 (wrap64 a + FundsTx.Amount x))
      with (wrap64 (a + FundsTx.Amount x)).
    + rewrite IH. f_equal. lia.
    + unfold wrap64. rewrite Z.add_mod_idemp_l by lia. reflexivity.
Qed.

Lemma fold_aggStep_amount_sum (txs : list FundsTx.t) :
  miner.amount (fold_left (miner.aggStep E) txs miner.aggLoop0)
  = wrap64 (foldr Z.add 0 (map FundsTx.Amount txs)).
Proof.
  rewrite fold_aggStep_amount. cbn [miner.aggLoop0 miner.amount].
  exact (fold_wrap64_sum txs 0).
Qed.

Lemma Hash_set_Aggregated (flag : bool) (tx : FundsTx.t) :
  FundsTx.Hash (SerializeHashContent E) (FundsTx.set_Aggregated flag tx)
  = FundsTx.Hash (SerializeHashContent E) tx.
Proof. reflexivity. Qed.
End AggregateMore.

Lemma AggregateFundsTransactions_two_or_more (E : Externals) (s : storage.t)
    (tx0 tx1 : FundsTx.t) (rest : list FundsTx.t) (block : Block.t)
    (selection : Z) :
  let txs := tx0 :: tx1 :: rest in
  let r := miner.AggregateFundsTransactions E s txs block selection in
  exists a : AggTx.t,
    miner.aggTx r = Some a
    /\ miner.aggResult r = Nil
    /\ AggTx.Amount a = wrap64 (foldr Z.add 0 (map FundsTx.Amount txs))
    /\ AggTx.Fee a = FEE_MINIMUM E
    /\ AggTx.AggregatedTxSlice a
       = map (FundsTx.Hash (SerializeHashContent E)) txs
    /\ miner.aggMembers r = map (FundsTx.set_Aggregated true) txs
    /\ map (FundsTx.Hash (SerializeHashContent E)) (miner.aggMembers r)
       = AggTx.AggregatedTxSlice a
    /\ miner.aggBlock r
       = Block.set_AggTxData (Block.AggTxData block ++ [AggTx_Hash E a]) block
    /\ miner.aggStore r = storage.WriteOpenTx (TAggTx a) s.
Proof.
  cbv zeta. unfold miner.AggregateFundsTransactions.
  set (txs := tx0 :: tx1 :: rest).
  assert (Hlen : (1 <? Z.of_nat (length txs)) = true).
  { apply Z.ltb_lt. cbn [txs length]. lia. }
  rewrite Hlen.
  pose proof (fold_aggStep_amount_sum E txs) as Hamt.
  destruct (fold_aggStep_lists E txs miner.aggLoop0) as (_ & _ & Hh).
  cbn [miner.aggLoop0 miner.transactionHashes app] in Hh.
  match goal with
  | |- context [let '(senders, receivers) := ?c in _] => destruct c as [snd rcv]
  end.
  eexists. cbn [miner.aggTx miner.aggResult miner.aggMembers miner.aggBlock
                miner.aggStore AggTx.ConstrAggTx AggTx.Amount AggTx.Fee
                AggTx.AggregatedTxSlice].
  repeat split; try assumption.
  rewrite Hh, map_map. apply map_ext. intros tx. reflexivity.
Qed.

(** X17: for two or more transactions
    [AggregateFundsTransactions] builds an AggTx whose amount is the
    64-bit sum of the amounts, whose fee is FEE_MINIMUM and whose hash list
    is the transactions' hashes in order; the transactions are returned
    marked as aggregated, with hashes unchanged by the mark, and the AggTx
    is written to the open transactions. *)
Theorem AggregateFundsTransactions_record (E : Externals) (s : storage.t)
    (tx0 tx1 : FundsTx.t) (rest : list FundsTx.t) (block : Block.t)
    (selection : Z) :
  exists a : AggTx.t,
    miner.aggTx (miner.AggregateFundsTransactions E s (tx0 :: tx1 :: rest)
                   block selection) = Some a
    /\ AggTx.Amount a
       = wrap64 (foldr Z.add 0 (map FundsTx.Amount (tx0 :: tx1 :: rest)))
    /\ AggTx.Fee a = FEE_MINIMUM E
    /\ AggTx.AggregatedTxSlice a
       = map (FundsTx.Hash (SerializeHashContent E)) (tx0 :: tx1 :: rest)
    /\ miner.aggMembers (miner.AggregateFundsTransactions E s
                           (tx0 :: tx1 :: rest) block selection)
       = map (FundsTx.set_Aggregated true) (tx0 :: tx1 :: rest)
    /\ map (FundsTx.Hash (SerializeHashContent E))
           (miner.aggMembers (miner.AggregateFundsTransactions E s
                                (tx0 :: tx1 :: rest) block selection))
       = AggTx.AggregatedTxSlice a
    /\ miner.aggStore (miner.AggregateFundsTransactions E s
                         (tx0 :: tx1 :: rest) block selection)
       = storage.WriteOpenTx (TAggTx a) s.
Proof.
  destruct (AggregateFundsTransactions_two_or_more E s tx0 tx1 rest block
              selection) as (a & H1 & _ & H3 & H4 & H5 & H6 & H7 & _ & H9).
  exists a. repeat split; assumption.
Qed.

(** X18: [AggregateFundsTransactions] fails exactly on the
    empty list; it never changes the block's state copy; for one
    transaction it appends the transaction's hash to the FundsTx hashes and
    builds no AggTx, for more it appends the AggTx's hash to the AggTx
    hashes. *)
Theorem AggregateFundsTransactions_block (E : Externals) (s : storage.t)
    (txs : list FundsTx.t) (block : Block.t) (selection : Z) :
  let r := miner.AggregateFundsTransactions E s txs block selection in
  (miner.aggResult r = Err ErrNullPointer <-> txs = [])
  /\ (miner.aggResult r = Nil <-> txs <> [])
  /\ Block.StateCopy (miner.aggBlock r) = Block.StateCopy block
  /\ match txs with
     | [] => miner.aggBlock r = block /\ miner.aggStore r = s
     | [tx] =>
         miner.aggBlock r
         = Block.set_FundsTxData
             (Block.FundsTxData block
              ++ [FundsTx.Hash (SerializeHashContent E) tx]) block
         /\ miner.aggStore r = s /\ miner.aggMembers r = [tx]
         /\ miner.aggTx r = None
     | _ =>
         exists a, miner.aggTx r = Some a
           /\ miner.aggBlock r
              = Block.set_AggTxData (Block.AggTxData block ++ [AggTx_Hash E a])
                                    block
     end.
Proof.
  cbv zeta. destruct txs as [|tx0 [|tx1 rest]].
  - cbn. repeat split; auto; try discriminate. intros H; congruence.
  - cbn. repeat split; auto; try discriminate.
  - destruct (AggregateFundsTransactions_two_or_more E s tx0 tx1 rest block selection)
      as (a & Ha & Hr & _ & _ & _ & _ & _ & Hb & _).
    cbv zeta in *. rewrite Hr, Hb. cbn [Block.StateCopy Block.set_AggTxData].
    repeat split; auto; try discriminate. eauto.
Qed.


(** ** Tallies and the sort order *)

Section Tallies.
Lemma getMax_fold (m : gmap Z Z) (keys : list Z) (best : Z * Z) :
  let r := fold_left (miner.getMaxStep m) keys best in
  fst best <= fst r
  /\ (forall k, k ∈ keys -> default 0 (m !! k) <= fst r)
  /\ (r = best \/ (fst best < fst r /\ snd r ∈ keys
                   /\ default 0 (m !! snd r) = fst r)).
Proof.
  revert best. induction keys as [|k keys IH]; intros best; cbn [fold_left].
  - split; [lia|]. split; [|auto]. intros k Hk. apply elem_of_nil in Hk as [].
  - specialize (IH (miner.getMaxStep m best k)). cbv zeta in IH.
    destruct IH as (Hle & Hall & Hkey).
    assert (Hstep : fst best <= fst (miner.getMaxStep m best k)
                    /\ default 0 (m !! k) <= fst (miner.getMaxStep m best k)).
    { unfold miner.getMaxStep.
      destruct (Z.gtb_spec (default 0 (m !! k)) (fst best)); cbn; lia. }
    split; [lia|]. split.
    + intros k' Hk'. apply elem_of_cons in Hk' as [->|Hk']; [lia|auto].
    + destruct Hkey as [Hr|(Hlt & Hin & Hval)].
      * rewrite Hr. unfold miner.getMaxStep.
        destruct (Z.gtb_spec (default 0 (m !! k)) (fst best)) as [Hgt|Hle'];
          [right|left; reflexivity].
        cbn. split; [lia|]. split; [apply elem_of_cons; auto | reflexivity].
      * right. split; [lia|]. split; [apply elem_of_cons; auto | assumption].
Qed.
End Tallies.

(** X19: over the keys of the map,
    [getMaxKeyAndValueFormMap] returns a count that no entry exceeds and,
    when some entry is positive, a key that holds this count; when no entry
    is positive it returns count 0 with the zero key. *)
Theorem getMaxKeyAndValueFormMap_max (keys : list Z) (m : gmap Z Z) :
  keys ≡ₚ (map_to_list m).*1 ->
  let max := fst (miner.getMaxKeyAndValueFormMap keys m) in
  let biggestK := snd (miner.getMaxKeyAndValueFormMap keys m) in
  0 <= max
  /\ (forall k v, m !! k = Some v -> v <= max)
  /\ (0 < max -> m !! biggestK = Some max)
  /\ (max = 0 -> biggestK = 0).
Proof.
  intros Hperm.
  assert (Hkeys : forall k, k ∈ keys <-> is_Some (m !! k)).
  { intros k. rewrite Hperm, list_elem_of_fmap. split.
    - intros ([k' v] & -> & Hin). apply elem_of_map_to_list in Hin. eauto.
    - intros [v Hv]. exists (k, v). split; [reflexivity|].
      apply elem_of_map_to_list. exact Hv. }
  cbv zeta. unfold miner.getMaxKeyAndValueFormMap.
  destruct (getMax_fold m keys (0, 0)) as (Hle & Hall & Hkey). cbn [fst] in *.
  split; [assumption|]. split; [|split].
  - intros k v Hk. assert (Hin : k ∈ keys) by (apply Hkeys; eauto).
    specialize (Hall k Hin). rewrite Hk in Hall. exact Hall.
  - intros Hpos. destruct Hkey as [Hr|(_ & Hin & Hval)].
    + rewrite Hr in Hpos. cbn in Hpos. lia.
    + apply Hkeys in Hin as [v Hv]. rewrite Hv in Hval |- *. cbn in Hval.
      congruence.
  - intros Hz. destruct Hkey as [Hr|(Hlt & _)]; [rewrite Hr; reflexivity | lia].
Qed.


Section Sorting.
Lemma be_bytes_head (k : nat) (v : Z) :
  Z.land (Z.shiftr v (8 * Z.of_nat k)) 255 = (v / 2 ^ (8 * Z.of_nat k)) mod 256.
Proof.
  rewrite Z.shiftr_div_pow2 by lia.
  change 255 with (Z.ones 8). rewrite Z.land_ones by lia. reflexivity.
Qed.

Lemma mod_split (k : nat) (v : Z) :
  v mod 2 ^ (8 * Z.of_nat (S k))
  = v mod 2 ^ (8 * Z.of_nat k)
    + 2 ^ (8 * Z.of_nat k) * ((v / 2 ^ (8 * Z.of_nat k)) mod 256).
Proof.
  replace (8 * Z.of_nat (S k)) with (8 * Z.of_nat k + 8) by lia.
  rewrite Z.pow_add_r by lia. change (2 ^ 8) with 256.
  apply Z.rem_mul_r; lia.
Qed.

(** Comparing the big-endian bytes as strings is comparing the numbers. *)
Lemma string_lt_be_bytes (n : nat) (a b : Z) :
  miner.string_lt (be_bytes n a) (be_bytes n b)
  = (a mod 2 ^ (8 * Z.of_nat n) <? b mod 2 ^ (8 * Z.of_nat n)).
Proof.
  induction n as [|k IH].
  - cbn. rewrite !Z.mod_1_r. reflexivity.
  - cbn [be_bytes miner.string_lt]. rewrite !be_bytes_head, IH, !mod_split.
    set (P := 2 ^ (8 * Z.of_nat k)).
    assert (HP : 0 < P) by (apply Z.pow_pos_nonneg; lia).
    pose proof (Z.mod_pos_bound a P HP). pose proof (Z.mod_pos_bound b P HP).
    pose proof (Z.mod_pos_bound (a / P) 256 eq_refl).
    pose proof (Z.mod_pos_bound (b / P) 256 eq_refl).
    set (x := (a / P) mod 256) in *. set (y := (b / P) mod 256) in *.
    set (r := a mod P) in *. set (r' := b mod P) in *.
    destruct (Z.ltb_spec x y) as [Hxy|Hxy].
    + symmetry. apply Z.ltb_lt. nia.
    + destruct (Z.ltb_spec y x) as [Hyx|Hyx].
      * symmetry. apply Z.ltb_ge. nia.
      * assert (x = y) by lia. subst y.
        destruct (Z.ltb_spec r r'); symmetry; [apply Z.ltb_lt | apply Z.ltb_ge]; lia.
Qed.
End Sorting.

(** X20: the order [sortFundsTxBeforeAggregation] sorts by
    puts one FundsTx before another exactly when its sender is smaller (the
    32 bytes compared as a string) or the senders are equal and its
    transaction count is smaller. *)
Theorem sortFundsTxBeforeAggregation_Less (Slice : list FundsTx.t) (i j : nat)
    (p q : FundsTx.t) :
  Slice !! i = Some p -> Slice !! j = Some q ->
  0 <= FundsTx.From p < 2 ^ 256 -> 0 <= FundsTx.From q < 2 ^ 256 ->
  miner.Less (miner.sortFundsTxBeforeAggregation_sorter Slice) i j
  = Some (bool_decide
            (FundsTx.From p < FundsTx.From q
             \/ (FundsTx.From p = FundsTx.From q
                 /\ FundsTx.TxCnt p < FundsTx.TxCnt q))).
Proof.
  intros Hi Hj Hp Hq. unfold miner.Less, miner.sortFundsTxBeforeAggregation_sorter.
  cbn [miner.transactions miner.less miner.OrderedBy]. rewrite Hi, Hj.
  cbn [miner.lessLoop]. unfold miner.sender, miner.txcount.
  rewrite !string_lt_be_bytes.
  change (8 * Z.of_nat 32) with 256.
  rewrite !Z.mod_small by assumption.
  destruct (Z.ltb_spec (FundsTx.From p) (FundsTx.From q)).
  { rewrite bool_decide_eq_true_2; [reflexivity | auto]. }
  destruct (Z.ltb_spec (FundsTx.From q) (FundsTx.From p)).
  { rewrite bool_decide_eq_false_2; [reflexivity | lia]. }
  destruct (Z.ltb_spec (FundsTx.TxCnt p) (FundsTx.TxCnt q)).
  - rewrite bool_decide_eq_true_2; [reflexivity | right; lia].
  - rewrite bool_decide_eq_false_2; [reflexivity | lia].
Qed.


(** ** Block validation *)

(** X21: [timestampCheck] accepts a timestamp exactly when
    it lies within one hour of the system time or the signed 64-bit
    difference wraps around; it reports a timestamp more than an hour ahead
    as in the future and one more than an hour behind as in the past. *)
Theorem timestampCheck_window (systemTime timestamp : Z) :
  - 2 ^ 63 <= systemTime < 2 ^ 63 ->
  - 2 ^ 63 <= timestamp < 2 ^ 63 ->
  (miner.timestampCheck systemTime timestamp = None
   <-> Z.abs (timestamp - systemTime) <= 3600
       \/ 2 ^ 63 <= Z.abs (timestamp - systemTime))
  /\ (miner.timestampCheck systemTime timestamp = Some miner.TimestampFuture
      <-> 3600 < timestamp - systemTime < 2 ^ 63)
  /\ (miner.timestampCheck systemTime timestamp = Some miner.TimestampPast
      <-> 3600 < systemTime - timestamp < 2 ^ 63).
Proof.
  intros Hs Ht. unfold miner.timestampCheck, miner.wrapInt64.
  destruct (Z.gtb_spec timestamp systemTime) as [Hgt|Hle].
  - destruct (Z_lt_le_dec (timestamp - systemTime) (2 ^ 63)) as [Hsmall|Hbig].
    + rewrite (Z.mod_small (timestamp - systemTime + 2 ^ 63)) by lia.
      destruct (Z.gtb_spec (timestamp - systemTime + 2 ^ 63 - 2 ^ 63) 3600);
        (split; [|split]); split; intros; try discriminate; try lia; try reflexivity.
    + replace ((timestamp - systemTime + 2 ^ 63) mod 2 ^ 64)
        with (timestamp - systemTime + 2 ^ 63 - 2 ^ 64)
        by (apply (Z.mod_unique _ _ 1); lia).
      destruct (Z.gtb_spec (timestamp - systemTime + 2 ^ 63 - 2 ^ 64 - 2 ^ 63) 3600);
        (split; [|split]); split; intros; try discriminate; try lia; try reflexivity.
  - destruct (Z_lt_le_dec (systemTime - timestamp) (2 ^ 63)) as [Hsmall|Hbig].
    + rewrite (Z.mod_small (systemTime - timestamp + 2 ^ 63)) by lia.
      destruct (Z.gtb_spec (systemTime - timestamp + 2 ^ 63 - 2 ^ 63) 3600);
        (split; [|split]); split; intros; try discriminate; try lia; try reflexivity.
    + replace ((systemTime - timestamp + 2 ^ 63) mod 2 ^ 64)
        with (systemTime - timestamp + 2 ^ 63 - 2 ^ 64)
        by (apply (Z.mod_unique _ _ 1); lia).
      destruct (Z.gtb_spec (systemTime - timestamp + 2 ^ 63 - 2 ^ 64 - 2 ^ 63) 3600);
        (split; [|split]); split; intros; try discriminate; try lia; try reflexivity.
Qed.

(** X22: [slashingCheck] leaves the slashing dictionary
    as it is unless it finds the proof valid, in which case it deletes the
    slashed address; a valid proof has two non-zero, different hashes whose
    blocks, as closed storage has them, are not in the same chain. *)
Theorem slashingCheck_valid_only_if
    (ReadClosedBlock ReadClosedBlockWithoutTx ReadOpenBlock : Z -> option Block.t)
    (IsInSameChain : option Block.t -> option Block.t -> bool)
    (getNewChain_ancestor : option Block.t -> bool)
    (Block_Decode : list Z -> option Block.t)
    (window : Z) (dict dict' : gmap Z miner.SlashingProof)
    (slashedAddress h1 h2 hw1 hw2 : Z) (net : list (option (list Z)))
    (r : miner.slashed) :
  miner.slashingCheck ReadClosedBlock ReadClosedBlockWithoutTx ReadOpenBlock
    IsInSameChain getNewChain_ancestor Block_Decode window dict
    slashedAddress h1 h2 hw1 hw2 net = (r, dict') ->
  (r <> miner.SlashValid -> dict' = dict)
  /\ (r = miner.SlashValid ->
      dict' = delete slashedAddress dict
      /\ h1 <> 0 /\ h2 <> 0 /\ h1 <> h2
      /\ IsInSameChain
           (match ReadClosedBlock h1 with
            | Some b => Some b
            | None => ReadClosedBlockWithoutTx hw1
            end)
           (match ReadClosedBlock h2 with
            | Some b => Some b
            | None => ReadClosedBlockWithoutTx hw2
            end) = false).
Proof.
  unfold miner.slashingCheck, miner.findConflictingBlock. intros H.
  repeat (case_bool_decide || case_match); simplify_eq;
    (split; [intros Hr; try reflexivity; congruence
            | intros Hr; try discriminate; repeat split; auto]).
Qed.

(** X23: when both blocks of a proof are in closed storage,
    [slashingCheck] asks neither the open storage nor the network, and its
    verdict is decided by the hashes, the chain test and whether the first
    height lies below the 32-bit sum of window size and second height. *)
Theorem slashingCheck_closed_blocks
    (ReadClosedBlock ReadClosedBlockWithoutTx ReadOpenBlock : Z -> option Block.t)
    (IsInSameChain : option Block.t -> option Block.t -> bool)
    (getNewChain_ancestor : option Block.t -> bool)
    (Block_Decode : list Z -> option Block.t)
    (window : Z) (dict : gmap Z miner.SlashingProof)
    (slashedAddress h1 h2 hw1 hw2 : Z) (net : list (option (list Z)))
    (b1 b2 : Block.t) :
  ReadClosedBlock h1 = Some b1 -> ReadClosedBlock h2 = Some b2 ->
  miner.slashingCheck ReadClosedBlock ReadClosedBlockWithoutTx ReadOpenBlock
    IsInSameChain getNewChain_ancestor Block_Decode window dict
    slashedAddress h1 h2 hw1 hw2 net
  = if bool_decide (h1 = 0 \/ h2 = 0)
    then (miner.SlashInvalid miner.SlashInvalidHashes, dict)
    else if bool_decide (h1 = h2)
    then (miner.SlashInvalid miner.SlashSameHashes, dict)
    else if IsInSameChain (Some b1) (Some b2)
    then (miner.SlashInvalid miner.SlashSameChain, dict)
    else if bool_decide
              (Block.Height b1 < wrap32 (wrap32 window + Block.Height b2))
    then (miner.SlashValid, delete slashedAddress dict)
    else (miner.SlashInvalid miner.SlashWindow, dict).
Proof.
  intros H1 H2. unfold miner.slashingCheck. rewrite H1, H2.
  repeat case_bool_decide; cbn [orb]; try reflexivity; try tauto.
  all: destruct (IsInSameChain (Some b1) (Some b2)); try reflexivity.
  all: destruct (Z.ltb_spec (Block.Height b1)
                   (wrap32 (wrap32 window + Block.Height b2))); cbn [negb];
    try reflexivity; lia.
Qed.

Ltac in_trace H tac :=
  cbn in H;
  repeat (destruct H as [H|H];
          [first [discriminate H | injection H as <-; tac]|]);
  try destruct H.

(** X24: [validateState] rolls back only state changes
    that it applied before and that succeeded, and never the IoT or the
    staking-height change. *)
Theorem validateState_rollbacks_only_applied (failing : miner.step -> bool)
    (s : miner.step) :
  In (miner.Rollback s) (fst (miner.validateState failing)) ->
  In (miner.Change s) (fst (miner.validateState failing))
  /\ failing s = false
  /\ s <> miner.IotStep /\ s <> miner.StakingHeightStep.
Proof.
  unfold miner.validateState.
  repeat match goal with
         | |- context [if failing ?x then _ else _] =>
             destruct (failing x) eqn:?
         end;
    intros H;
    in_trace H ltac:(split; [cbn; auto 20|]; split; [assumption|];
                     split; discriminate).
Qed.



(** ** Fetching FundsTx payloads *)

Section FetchFundsFacts.
Context (E : Externals).
Variables (ReadClosedTx ReadINVALIDOpenTx : Z -> option Transaction).


Lemma ReadOpenTx_hash (s : storage.t) (hash : Z) (tx : Transaction) :
  miner.ReadOpenTx E s hash = Some tx -> TxHash E tx = hash.
Proof.
  unfold miner.ReadOpenTx. intros H. apply find_some in H as [_ H].
  apply bool_decide_eq_true in H. exact H.
Qed.

Lemma fundsStoreAt_spec (cnt : nat) (tx : FundsTx.t)
    (net net' : list miner.fundsResponse) (f f' : miner.fundsFetch) (r : outcome) :
  miner.fundsStoreAt cnt tx net f = (r, net', f') ->
  miner.fundsErrChan f' = miner.fundsErrChan f
  /\ (r = Nil ->
      (cnt < length (miner.fundsTxSlice f))%nat
      /\ miner.fundsTxSlice f' = <[cnt := Some tx]> (miner.fundsTxSlice f)
      /\ miner.fundsStopped f' = miner.fundsStopped f)
  /\ (r = Nil \/ (r = Panic /\ f' = f)).
Proof.
  unfold miner.fundsStoreAt. case_bool_decide; intros [= <- <- <-]; cbn.
  - split; [reflexivity|]. split; [|auto]. intros _. repeat split. assumption.
  - split; [reflexivity|]. split; [discriminate|auto].
Qed.

Lemma fetchFundsTx_spec (initialSetup : bool) (cnt : nat) (txHash : Z)
    (net net' : list miner.fundsResponse) (f f' : miner.fundsFetch) (r : outcome) :
  (forall h tx, ReadClosedTx h = Some tx -> TxHash E tx = h) ->
  (forall h, ReadINVALIDOpenTx h = None) ->
  miner.fetchFundsTx E ReadClosedTx ReadINVALIDOpenTx initialSetup cnt txHash
    net f = (r, net', f') ->
  (miner.fundsErrChan f' = miner.fundsErrChan f
   /\ (r = Nil ->
       exists tx, FundsTx.Hash (SerializeHashContent E) tx = txHash
                  /\ (cnt < length (miner.fundsTxSlice f))%nat
                  /\ miner.fundsTxSlice f'
                     = <[cnt := Some tx]> (miner.fundsTxSlice f)
                  /\ miner.fundsStopped f' = miner.fundsStopped f))
  \/ (exists e, miner.fundsErrChan f' = miner.fundsErrChan f ++ [Some e]).
Proof.
  intros Hclosed Hinv. unfold miner.fetchFundsTx.
  destruct (ReadClosedTx txHash) as [closedTx|] eqn:Hc.
  { destruct initialSetup.
    - destruct closedTx as [t|t|t|t|t|t]; try (intros [= <- <- <-]; left; split; [reflexivity|discriminate]).
      intros H. left. destruct (fundsStoreAt_spec _ _ _ _ _ _ _ H) as (He & Hf & _).
      split; [assumption|]. intros ->. destruct (Hf eq_refl) as (? & ? & ?).
      exists t. repeat split; auto. exact (Hclosed _ _ Hc).
    - intros [= <- <- <-]. right. eexists. reflexivity. }
  destruct (miner.ReadOpenTx E (miner.fundsStore f) txHash) as [tx|] eqn:Ho.
  { destruct tx as [t|t|t|t|t|t]; try (intros [= <- <- <-]; left; split; [reflexivity|discriminate]).
    intros H. left. destruct (fundsStoreAt_spec _ _ _ _ _ _ _ H) as (He & Hf & _).
    split; [assumption|]. intros ->. destruct (Hf eq_refl) as (? & ? & ?).
    exists t. repeat split; auto. exact (ReadOpenTx_hash _ _ _ Ho). }
  rewrite Hinv. unfold miner.requestFundsTx.
  destruct net as [|[| |tx] net0].
  - intros [= <- <- <-]. right. eexists. reflexivity.
  - intros [= <- <- <-]. right. eexists. reflexivity.
  - intros [= <- <- <-]. right. eexists. reflexivity.
  - intros H. destruct (fundsStoreAt_spec _ _ _ _ _ _ _ H) as (He & Hf & _).
    case_bool_decide as Hh.
    + left. split.
      * rewrite He. destruct initialSetup; reflexivity.
      * intros ->. destruct (Hf eq_refl) as (Hlt & Hsl & Hst).
        exists tx. split; [assumption|].
        destruct initialSetup; cbn in *; repeat split; assumption.
    + right. exists miner.FundsHashMismatch. rewrite He.
      destruct initialSetup; reflexivity.
Qed.

Lemma fetchFundsTxLoop_spec (initialSetup : bool) (hashes : list Z) :
  (forall h tx, ReadClosedTx h = Some tx -> TxHash E tx = h) ->
  (forall h, ReadINVALIDOpenTx h = None) ->
  forall (cnt : nat) (net : list miner.fundsResponse) (f f' : miner.fundsFetch)
         (r : outcome),
    miner.fundsStopped f = false ->
    miner.fetchFundsTxLoop E ReadClosedTx ReadINVALIDOpenTx initialSetup cnt
      hashes net f = (r, f') ->
    exists extra,
      miner.fundsErrChan f' = miner.fundsErrChan f ++ extra
      /\ (extra = [None] ->
          r = Nil
          /\ length (miner.fundsTxSlice f') = length (miner.fundsTxSlice f)
          /\ (forall i, (i < cnt)%nat ->
                miner.fundsTxSlice f' !! i = miner.fundsTxSlice f !! i)
          /\ (forall j h, hashes !! j = Some h ->
                exists tx, miner.fundsTxSlice f' !! (cnt + j)%nat = Some (Some tx)
                           /\ FundsTx.Hash (SerializeHashContent E) tx = h))
      /\ (extra = [] -> r = Panic).
Proof.
  intros Hclosed Hinv.
  induction hashes as [|txHash hashes IH]; intros cnt net f f' r Hns;
    cbn [miner.fetchFundsTxLoop].
  - intros [= <- <-]. exists [None]. split; [reflexivity|]. split; [|discriminate].
    intros _. repeat split. intros j h Hj. rewrite lookup_nil in Hj. discriminate Hj.
  - destruct (miner.fetchFundsTx E ReadClosedTx ReadINVALIDOpenTx initialSetup
                cnt txHash net f) as [[r1 net1] f1] eqn:H1.
    destruct (fetchFundsTx_spec _ _ _ _ _ _ _ _ Hclosed Hinv H1)
      as [[He Hok]|[e He]].
    + (* nothing sent in this round *)
      destruct r1.
      * destruct (Hok eq_refl) as (tx & Hh & Hlt & Hsl & Hst).
        destruct (miner.fundsStopped f1) eqn:Hstop.
        { intros [= <- <-]. exists []. split; [rewrite app_nil_r; assumption|].
          split; [discriminate|].
          intros _. congruence. }
        intros Hloop.
        destruct (IH _ _ _ _ _ Hstop Hloop) as (extra & Hx & Hnone & Hnil).
        exists extra. split; [rewrite Hx, He; reflexivity|]. split; [|assumption].
        intros Hextra. destruct (Hnone Hextra) as (-> & Hlen & Hkeep & Hslots).
        split; [reflexivity|]. split.
        { rewrite Hlen, Hsl, length_insert. reflexivity. }
        split.
        { intros i Hi. rewrite Hkeep by lia. rewrite Hsl.
          apply list_lookup_insert_ne. lia. }
        intros [|j] h Hj; cbn in Hj.
        { injection Hj as <-. exists tx. split; [|assumption].
          rewrite Nat.add_0_r, Hkeep by lia. rewrite Hsl.
          apply list_lookup_insert_eq. assumption. }
        replace (cnt + S j)%nat with (S cnt + j)%nat by lia.
        apply Hslots. assumption.
      * intros [= <- <-]. exists []. split; [rewrite app_nil_r; assumption|].
        split; [discriminate|]. intros _.
        (* fetchFundsTx never returns an error value as outcome *)
        exfalso. revert H1. unfold miner.fetchFundsTx, miner.requestFundsTx,
          miner.fundsStoreAt. rewrite Hinv. intros H1.
        repeat (case_match || case_bool_decide); simplify_eq.
      * intros [= <- <-]. exists []. split; [rewrite app_nil_r; assumption|].
        split; [discriminate|reflexivity].
    + (* an error was sent in this round *)
      assert (Hgrow : forall f'' r', 
                 (exists extra, miner.fundsErrChan f'' = miner.fundsErrChan f1 ++ extra) ->
                 exists extra,
                   miner.fundsErrChan f'' = miner.fundsErrChan f ++ extra
                   /\ (extra = [None] -> r' = Nil /\
                        length (miner.fundsTxSlice f'') = length (miner.fundsTxSlice f) /\
                        (forall i, (i < cnt)%nat ->
                           miner.fundsTxSlice f'' !! i = miner.fundsTxSlice f !! i) /\
                        (forall j h, (txHash :: hashes) !! j = Some h ->
                           exists tx, miner.fundsTxSlice f'' !! (cnt + j)%nat = Some (Some tx)
                             /\ FundsTx.Hash (SerializeHashContent E) tx = h))
                   /\ (extra = [] -> r' = Panic)).
      { intros f'' r' [extra Hx]. exists (Some e :: extra).
        split; [rewrite Hx, He, <- app_assoc; reflexivity|].
        split; discriminate. }
      destruct r1.
      * destruct (miner.fundsStopped f1) eqn:Hstop.
        { intros [= <- <-]. apply Hgrow. exists []. rewrite app_nil_r. reflexivity. }
        intros Hloop. destruct (IH _ _ _ _ _ Hstop Hloop) as (extra & Hx & _).
        apply Hgrow. eauto.
      * intros [= <- <-]. apply Hgrow. exists []. rewrite app_nil_r. reflexivity.
      * intros [= <- <-]. apply Hgrow. exists []. rewrite app_nil_r. reflexivity.
Qed.
End FetchFundsFacts.

(** X26: when [fetchFundsTxData] sends nil on its error
    channel, it returns nil and every slot of the slice that belongs to a
    hash of the block holds a FundsTx with that hash, provided the closed
    storage is keyed by hash and the store of invalid transactions is
    empty. *)
Theorem fetchFundsTxData_complete (E : Externals)
    (ReadClosedTx ReadINVALIDOpenTx : Z -> option Transaction)
    (initialSetup : bool) (block : Block.t)
    (fundsTxSlice : list (option FundsTx.t)) (s : storage.t)
    (net : list miner.fundsResponse) (r : outcome) (f : miner.fundsFetch) :
  (forall h tx, ReadClosedTx h = Some tx -> TxHash E tx = h) ->
  (forall h, ReadINVALIDOpenTx h = None) ->
  miner.fetchFundsTxData E ReadClosedTx ReadINVALIDOpenTx initialSetup block
    fundsTxSlice s net = (r, f) ->
  miner.fundsErrChan f = [None] ->
  r = Nil
  /\ length (miner.fundsTxSlice f) = length fundsTxSlice
  /\ forall i h,
       Block.FundsTxData block !! i = Some h ->
       exists tx, miner.fundsTxSlice f !! i = Some (Some tx)
                  /\ FundsTx.Hash (SerializeHashContent E) tx = h.
Proof.
  intros Hclosed Hinv Hrun Hchan. unfold miner.fetchFundsTxData in Hrun.
  destruct (fun Hns =>
              fetchFundsTxLoop_spec E ReadClosedTx ReadINVALIDOpenTx initialSetup
                (Block.FundsTxData block) Hclosed Hinv _ _ _ _ _ Hns Hrun)
    as (extra & Hx & Hnone & _); [reflexivity|].
  cbn in Hx. rewrite Hchan in Hx. symmetry in Hx.
  destruct (Hnone Hx) as (-> & Hlen & _ & Hslots).
  split; [reflexivity|]. split; [exact Hlen|]. exact Hslots.
Qed.

(** X27: when the network answers a request with a FundsTx
    of another hash, [fetchFundsTx] sends the mismatch error but goes on:
    the FundsTx is still written to the open transactions and into its slot
    of the slice. *)
Theorem fetchFundsTx_keeps_mismatched (E : Externals)
    (ReadClosedTx ReadINVALIDOpenTx : Z -> option Transaction)
    (initialSetup : bool) (cnt : nat) (txHash : Z) (tx : FundsTx.t)
    (net : list miner.fundsResponse) (f : miner.fundsFetch) :
  ReadClosedTx txHash = None ->
  miner.ReadOpenTx E (miner.fundsStore f) txHash = None ->
  ReadINVALIDOpenTx txHash = None ->
  FundsTx.Hash (SerializeHashContent E) tx <> txHash ->
  (cnt < length (miner.fundsTxSlice f))%nat ->
  exists f',
    miner.fetchFundsTx E ReadClosedTx ReadINVALIDOpenTx initialSetup cnt txHash
      (miner.FundsReceived tx :: net) f = (Nil, net, f')
    /\ miner.fundsErrChan f'
       = miner.fundsErrChan f ++ [Some miner.FundsHashMismatch]
    /\ miner.fundsTxSlice f' = <[cnt := Some tx]> (miner.fundsTxSlice f)
    /\ storage.OpenTx (miner.fundsStore f')
       = TFundsTx tx :: storage.OpenTx (miner.fundsStore f)
    /\ miner.fundsStopped f' = miner.fundsStopped f.
Proof.
  intros Hc Ho Hi Hh Hlt. unfold miner.fetchFundsTx, miner.requestFundsTx.
  rewrite Hc, Ho, Hi, (bool_decide_eq_false_2 _ Hh).
  unfold miner.fundsStoreAt.
  destruct initialSetup; cbn; rewrite (bool_decide_eq_true_2 _ Hlt);
    eexists; (split; [reflexivity|]); cbn; auto.
Qed.


(** ** Transactions signed by a root key *)

Section RootSigned.
Context (E : Externals).

(** The loop over the root keys finds a verifying key exactly when there is
    one, in whatever order it visits them. *)
Lemma verifyRootSig_spec (s : storage.t) (txHash sig : Z) :
  miner.verifyRootSig E s txHash sig = true
  <-> exists k root,
        storage.RootKeys s !! k = Some root
        /\ ed25519_Verify E (Account.Address root) txHash sig = true.
Proof.
  unfold miner.verifyRootSig, miner.GetPubKeyFromAddressED.
  rewrite existsb_exists. split.
  - intros ([k root] & Hin & Hv). exists k, root. split; [|exact Hv].
    apply elem_of_map_to_list. apply list_elem_of_In. exact Hin.
  - intros (k & root & Hl & Hv). exists (k, root). split; [|exact Hv].
    apply list_elem_of_In. apply elem_of_map_to_list. exact Hl.
Qed.
End RootSigned.

(** X28: [addTx] accepts an AccTx exactly when its fee reaches the minimum,
    some root key verifies its signature, and the removal bit of the header
    is set or the state has no account under the hash of the new public
    key; it then appends the transaction's hash to the AccTx hashes, and
    otherwise leaves the block as it was.  Storage and transaction are
    never changed. *)
Theorem addTx_AccTx_accepted_iff (E : Externals) (p : Parameters)
    (s : storage.t) (b : Block.t) (tx : AccTx.t) :
  let r := miner.addTx E p s b (TAccTx tx) in
  (miner.result r = Nil
   <-> Fee_minimum p <= AccTx.Fee tx
       /\ (exists k root,
              storage.RootKeys s !! k = Some root
              /\ ed25519_Verify E (Account.Address root) (AccTx_Hash E tx)
                   (AccTx.Sig tx) = true)
       /\ (Z.land (AccTx.Header tx) 2 = 2
           \/ storage.State s !! sha3_Sum256 E (AccTx.PubKey tx) = None))
  /\ miner.block r
     = match miner.result r with
       | Nil => Block.set_AccTxData (Block.AccTxData b ++ [AccTx_Hash E tx]) b
       | _ => b
       end
  /\ miner.store r = s /\ miner.transaction r = TAccTx tx.
Proof.
  cbv zeta. unfold miner.addTx. cbn [TxFee]. unfold AccTx.TxFee.
  destruct (Z.ltb_spec (AccTx.Fee tx) (Fee_minimum p)) as [Hfee|Hfee].
  { cbn. split; [|auto]. split; [discriminate | lia]. }
  cbn [miner.verify]. unfold miner.verifyAccTx.
  pose proof (verifyRootSig_spec E s (AccTx_Hash E tx) (AccTx.Sig tx)) as Hroot.
  destruct (miner.verifyRootSig E s (AccTx_Hash E tx) (AccTx.Sig tx)).
  2:{ cbn. split; [|auto]. split; [discriminate|].
      intros (_ & Hex & _). apply Hroot in Hex. discriminate. }
  cbn [negb]. unfold miner.addAccTx.
  destruct (Z.eqb_spec (Z.land (AccTx.Header tx) 2) 2) as [Hbit|Hbit]; cbn [negb andb].
  { cbn. split; [|auto]. split; [|reflexivity].
    intros _. split; [lia|]. split; [apply Hroot; reflexivity | left; exact Hbit]. }
  case_bool_decide as Hex; cbn.
  - split; [|auto]. split; [discriminate|].
    intros (_ & _ & [Hb|Hn]); [contradiction|].
    rewrite Hn in Hex. destruct Hex as [? Hex]. discriminate.
  - split; [|auto]. split; [|reflexivity].
    intros _. split; [lia|]. split; [apply Hroot; reflexivity|].
    right. destruct (storage.State s !! sha3_Sum256 E (AccTx.PubKey tx)) eqn:Hl;
      [|reflexivity]. exfalso. apply Hex. eauto.
Qed.

(** X29: [addTx] accepts a ConfigTx exactly when its fee reaches the minimum
    and some root key verifies its signature; nothing else is checked, in
    particular not the transaction's parameter id or payload.  It then
    appends the transaction's hash to the ConfigTx hashes, and otherwise
    leaves the block as it was. *)
Theorem addTx_ConfigTx_accepted_iff (E : Externals) (p : Parameters)
    (s : storage.t) (b : Block.t) (tx : ConfigTx.t) :
  let r := miner.addTx E p s b (TConfigTx tx) in
  (miner.result r = Nil
   <-> Fee_minimum p <= ConfigTx.Fee tx
       /\ exists k root,
            storage.RootKeys s !! k = Some root
            /\ ed25519_Verify E (Account.Address root) (ConfigTx_Hash E tx)
                 (ConfigTx.Sig tx) = true)
  /\ miner.block r
     = match miner.result r with
       | Nil =>
           Block.set_ConfigTxData (Block.ConfigTxData b ++ [ConfigTx_Hash E tx])
                                  b
       | _ => b
       end
  /\ miner.store r = s /\ miner.transaction r = TConfigTx tx.
Proof.
  cbv zeta. unfold miner.addTx. cbn [TxFee]. unfold ConfigTx.TxFee.
  destruct (Z.ltb_spec (ConfigTx.Fee tx) (Fee_minimum p)) as [Hfee|Hfee].
  { cbn. split; [|auto]. split; [discriminate | lia]. }
  cbn [miner.verify]. unfold miner.verifyConfigTx.
  pose proof (verifyRootSig_spec E s (ConfigTx_Hash E tx) (ConfigTx.Sig tx))
    as Hroot.
  destruct (miner.verifyRootSig E s (ConfigTx_Hash E tx) (ConfigTx.Sig tx)).
  2:{ cbn. split; [|auto]. split; [discriminate|].
      intros (_ & Hex). apply Hroot in Hex. discriminate. }
  cbn. split; [|auto]. split; [|reflexivity].
  intros _. split; [lia|]. apply Hroot. reflexivity.
Qed.


(** ** The further properties on the examples *)

Lemma Example_state_keyed :
  keyed_by_hash Example.externals (storage.State Example.store).
Proof.
  intros k acc. cbn. unfold Example.state.
  rewrite !lookup_insert. repeat case_decide; subst;
    try (intros [= <-]; reflexivity);
    try (rewrite lookup_empty; discriminate).
Qed.

Lemma Example_touchedBlock_keyed :
  keyed_by_hash Example.externals (Block.StateCopy Example.touchedBlock).
Proof.
  intros k acc. cbn.
  rewrite !lookup_insert. repeat case_decide; subst;
    try (intros [= <-]; reflexivity);
    try (rewrite lookup_empty; discriminate).
Qed.

Lemma FundsTx_Hash_survives_encoding_witness :
  FundsTx.Aggregated Example.markedTx = true
  /\ FundsTx.Hash (SerializeHashContent Example.externals)
       (FundsTx.Decode (FundsTx.Encode Example.markedTx))
     = FundsTx.Hash (SerializeHashContent Example.externals) Example.markedTx.
Proof.
  split; [reflexivity|].
  apply (FundsTx_Hash_survives_encoding _ Example.markedTx). discriminate.
Defined.

Lemma ConstrFundsTx_is_verified_witness :
  FundsTx.Aggregated
    (ConstrFundsTx Example.externals Example.sign 0 100 1 0 111 122 11 None)
  = false
  /\ miner.verifyFundsTx Example.externals Example.store
       (ConstrFundsTx Example.externals Example.sign 0 100 1 0 111 122 11 None)
     = (true, FundsTx.mk 0 100 1 0 111 122 111 false None).
Proof.
  apply (ConstrFundsTx_is_verified Example.externals Example.sign Example.store
           0 100 1 0 111 122 11 None Example.alice Example.bob).
  - intros message. exists (11 + message). split; [reflexivity|].
    apply Z.eqb_refl.
  - reflexivity.
  - reflexivity.
  - vm_compute. discriminate.
  - vm_compute. split; [reflexivity | discriminate].
Defined.

Lemma ConstrIotTx_drops_fee_witness :
  IotTx.Fee (ConstrIotTx Example.externals Example.sign 0 10 0 122 111 22 None)
  = 0
  /\ miner.addTx Example.externals Example.parameters Example.store
       Example.emptyBlock
       (TIotTx (ConstrIotTx Example.externals Example.sign 0 10 0 122 111 22 None))
     = miner.mkAdded (Err ErrFeeTooLow) Example.emptyBlock Example.store
         (TIotTx (ConstrIotTx Example.externals Example.sign 0 10 0 122 111 22
                    None)).
Proof.
  apply (ConstrIotTx_drops_fee Example.externals Example.sign
           Example.parameters Example.store Example.emptyBlock).
  reflexivity.
Defined.

Lemma addTx_rejects_unverifiable_FundsTx_witness :
  miner.addTx Example.externals Example.parameters Example.store
    Example.emptyBlock (TFundsTx Example.emptyTx)
  = miner.mkAdded (Err ErrNotVerified) Example.emptyBlock Example.store
      (TFundsTx Example.emptyTx).
Proof.
  apply (addTx_rejects_unverifiable_FundsTx Example.externals
           Example.parameters Example.store Example.emptyBlock Example.emptyTx).
  left. reflexivity.
Defined.

Lemma addTx_appends_one_hash_witness :
  Block.TxData
    (miner.block (miner.addTx Example.externals Example.parameters
                    Example.store Example.emptyBlock
                    (TFundsTx Example.replayedTx)))
  = [[]; [107]; []; []; []; []].
Proof.
  destruct (addTx_appends_one_hash Example.externals Example.parameters
              Example.store Example.emptyBlock (TFundsTx Example.replayedTx)
              eq_refl) as (_ & H & _).
  rewrite H. reflexivity.
Defined.

Lemma addTx_overlay_never_shrinks_witness :
  exists acc',
    Block.StateCopy
      (miner.block (miner.addTx Example.externals Example.parameters
                      Example.store Example.touchedBlock
                      (TFundsTx Example.replayedTx))) !! 111
    = Some acc'
    /\ Account.Address acc' = Account.Address Example.alice.
Proof.
  apply (addTx_overlay_never_shrinks Example.externals Example.parameters
           Example.store Example.touchedBlock (TFundsTx Example.replayedTx)
           111 Example.alice).
  reflexivity.
Defined.

Lemma addTx_overlay_stays_keyed_witness :
  keyed_by_hash Example.externals
    (Block.StateCopy
       (miner.block (miner.addTx Example.externals Example.parameters
                       Example.store Example.touchedBlock
                       (TFundsTx Example.replayedTx)))).
Proof.
  apply (addTx_overlay_stays_keyed Example.externals Example.parameters
           Example.store Example.touchedBlock (TFundsTx Example.replayedTx)).
  exact Example_touchedBlock_keyed.
Defined.

Lemma addTx_never_panics_witness :
  miner.result (miner.addTx Example.externals Example.parameters Example.store
                  Example.emptyBlock (TFundsTx Example.overdraft))
  <> Panic.
Proof.
  apply (addTx_never_panics Example.externals Example.parameters Example.store
           Example.emptyBlock (TFundsTx Example.overdraft)).
  exact Example_state_keyed.
Defined.

Lemma addFundsTx_panics_on_misfiled_sender_witness :
  fst (miner.addFundsTx Example.externals Example.misfiled Example.emptyBlock
         Example.replayedTx) = Panic.
Proof.
  apply (addFundsTx_panics_on_misfiled_sender Example.externals
           Example.misfiled Example.emptyBlock Example.replayedTx
           (Example.account 12 1000 0)).
  - reflexivity.
  - reflexivity.
  - vm_compute. discriminate.
  - right. exists Example.bob. reflexivity.
Defined.

Lemma addFundsTx_conserves_money_witness :
  exists accFrom' accTo',
    Block.StateCopy
      (snd (miner.addFundsTx Example.externals Example.store
              Example.touchedBlock Example.replayedTx)) !! 111 = Some accFrom'
    /\ Block.StateCopy
         (snd (miner.addFundsTx Example.externals Example.store
                 Example.touchedBlock Example.replayedTx)) !! 122 = Some accTo'
    /\ Account.Balance accFrom' = 900
    /\ Account.Balance accTo' = 100.
Proof.
  destruct (addFundsTx_conserves_money Example.externals Example.store
              Example.touchedBlock
              (snd (miner.addFundsTx Example.externals Example.store
                      Example.touchedBlock Example.replayedTx))
              Example.replayedTx Example.alice Example.bob)
    as (a & c & Ha & Hc & Hba & Hbc & _);
    try reflexivity; try (vm_compute; discriminate);
    try (vm_compute; split; [discriminate | reflexivity]).
  exists a, c. split; [exact Ha|]. split; [exact Hc|].
  split; [exact Hba | exact Hbc].
Defined.

Lemma addStakeTx_accepted_witness :
  Block.StakeTxData
    (snd (miner.addStakeTx Example.externals Example.parameters Example.store
            Example.daveBlock Example.affordableStake))
  = [148]
  /\ wrap64 (4 + 1000) < Account.Balance Example.dave.
Proof.
  destruct (addStakeTx_accepted Example.externals Example.parameters
              Example.store Example.daveBlock
              (snd (miner.addStakeTx Example.externals Example.parameters
                      Example.store Example.daveBlock Example.affordableStake))
              Example.affordableStake Example.dave eq_refl eq_refl)
    as (_ & [Hroot | Hbal] & _ & Hdata).
  - discriminate Hroot.
  - split; [rewrite Hdata; reflexivity | exact Hbal].
Defined.

Lemma addFundsTx_twice_fails_duplicate_scan_witness :
  miner.preValidate_duplicates
    (snd (miner.addFundsTx Example.externals Example.store
            (snd (miner.addFundsTx Example.externals Example.store
                    Example.touchedBlock Example.replayedTx))
            Example.replayedTx))
  <> None.
Proof.
  apply (addFundsTx_twice_fails_duplicate_scan Example.externals Example.store
           Example.touchedBlock
           (snd (miner.addFundsTx Example.externals Example.store
                   Example.touchedBlock Example.replayedTx))
           (snd (miner.addFundsTx Example.externals Example.store
                   (snd (miner.addFundsTx Example.externals Example.store
                           Example.touchedBlock Example.replayedTx))
                   Example.replayedTx))
           Example.replayedTx); vm_compute; reflexivity.
Defined.

Lemma getMaxKeyAndValueFormMap_max_witness :
  Example.tallies
    !! snd (miner.getMaxKeyAndValueFormMap
              (map_to_list Example.tallies).*1 Example.tallies)
  = Some (fst (miner.getMaxKeyAndValueFormMap
                 (map_to_list Example.tallies).*1 Example.tallies))
  /\ forall k v,
       Example.tallies !! k = Some v ->
       v <= fst (miner.getMaxKeyAndValueFormMap
                   (map_to_list Example.tallies).*1 Example.tallies).
Proof.
  destruct (getMaxKeyAndValueFormMap_max (map_to_list Example.tallies).*1
              Example.tallies (reflexivity _)) as (_ & Hall & Hkey & _).
  split; [apply Hkey; reflexivity | exact Hall].
Defined.

Lemma sortFundsTxBeforeAggregation_Less_witness :
  miner.Less
    (miner.sortFundsTxBeforeAggregation_sorter [Example.pay2; Example.pay1])
    1 0
  = Some (bool_decide
            (FundsTx.From Example.pay1 < FundsTx.From Example.pay2
             \/ (FundsTx.From Example.pay1 = FundsTx.From Example.pay2
                 /\ FundsTx.TxCnt Example.pay1 < FundsTx.TxCnt Example.pay2))).
Proof.
  apply (sortFundsTxBeforeAggregation_Less [Example.pay2; Example.pay1] 1 0
           Example.pay1 Example.pay2);
    try reflexivity; (vm_compute; split; [discriminate | reflexivity]).
Defined.

Lemma timestampCheck_window_witness :
  miner.timestampCheck 1000000 1003600 = None
  /\ miner.timestampCheck 1000000 1003601 = Some miner.TimestampFuture.
Proof.
  split.
  - apply (timestampCheck_window 1000000 1003600);
      try (vm_compute; split; [discriminate | reflexivity]).
    left. vm_compute. discriminate.
  - apply (timestampCheck_window 1000000 1003601);
      vm_compute; split; solve [discriminate | reflexivity].
Defined.

Lemma slashingCheck_valid_only_if_witness :
  Example.differentChains (Example.closedBlocks 70) (Example.closedBlocks 90)
  = false
  /\ delete 555 Example.slashingDict = (∅ : gmap Z miner.SlashingProof).
Proof.
  destruct (slashingCheck_valid_only_if Example.closedBlocks Example.noBlock
              Example.noBlock Example.differentChains Example.hasAncestor
              Example.undecodable 100 Example.slashingDict
              (delete 555 Example.slashingDict) 555 70 90 71 91 []
              miner.SlashValid eq_refl) as [_ H].
  destruct (H eq_refl) as (_ & _ & _ & _ & Hchain).
  split; [exact Hchain | reflexivity].
Defined.

Lemma slashingCheck_closed_blocks_witness :
  miner.slashingCheck Example.closedBlocks Example.noBlock Example.noBlock
    Example.differentChains Example.hasAncestor Example.undecodable 100
    Example.slashingDict 555 70 90 71 91 []
  = (miner.SlashValid, delete 555 Example.slashingDict).
Proof.
  rewrite (slashingCheck_closed_blocks Example.closedBlocks Example.noBlock
             Example.noBlock Example.differentChains Example.hasAncestor
             Example.undecodable 100 Example.slashingDict 555 70 90 71 91 []
             (miner.newBlock 0 0 0 7) (miner.newBlock 0 0 0 9)
             eq_refl eq_refl).
  reflexivity.
Defined.

Lemma validateState_rollbacks_only_applied_witness :
  In (miner.Change miner.AccStep) (fst (miner.validateState Example.feesFail))
  /\ Example.feesFail miner.AccStep = false.
Proof.
  destruct (validateState_rollbacks_only_applied Example.feesFail miner.AccStep)
    as (H1 & H2 & _).
  - vm_compute. tauto.
  - split; [exact H1 | exact H2].
Defined.


Lemma fetchFundsTxData_complete_witness :
  fst (miner.fetchFundsTxData Example.externals Example.nothing Example.nothing
         false Example.fundsWanted [None] Example.store
         [miner.FundsReceived Example.replayedTx]) = Nil
  /\ exists tx,
       miner.fundsTxSlice
         (snd (miner.fetchFundsTxData Example.externals Example.nothing
                 Example.nothing false Example.fundsWanted [None] Example.store
                 [miner.FundsReceived Example.replayedTx])) !! 0%nat
       = Some (Some tx)
       /\ FundsTx.Hash (SerializeHashContent Example.externals) tx = 107.
Proof.
  destruct (fetchFundsTxData_complete Example.externals Example.nothing
              Example.nothing false Example.fundsWanted [None] Example.store
              [miner.FundsReceived Example.replayedTx]
              (fst (miner.fetchFundsTxData Example.externals Example.nothing
                      Example.nothing false Example.fundsWanted [None]
                      Example.store [miner.FundsReceived Example.replayedTx]))
              (snd (miner.fetchFundsTxData Example.externals Example.nothing
                      Example.nothing false Example.fundsWanted [None]
                      Example.store [miner.FundsReceived Example.replayedTx])))
    as (Hr & _ & Hall).
  - intros h tx H. discriminate H.
  - intros h. reflexivity.
  - reflexivity.
  - reflexivity.
  - split; [exact Hr|]. apply (Hall 0%nat 107). reflexivity.
Defined.

Lemma fetchFundsTx_keeps_mismatched_witness :
  exists f',
    miner.fetchFundsTx Example.externals Example.nothing Example.nothing false
      0 999 [miner.FundsReceived Example.replayedTx] Example.emptyFetch
    = (Nil, [], f')
    /\ miner.fundsErrChan f' = [Some miner.FundsHashMismatch]
    /\ miner.fundsTxSlice f' = [Some Example.replayedTx].
Proof.
  destruct (fetchFundsTx_keeps_mismatched Example.externals Example.nothing
              Example.nothing false 0 999 Example.replayedTx []
              Example.emptyFetch)
    as (f' & Hrun & Herr & Hslice & _);
    try reflexivity; try (vm_compute; discriminate); try (cbn; lia).
  exists f'. split; [exact Hrun|]. split; [exact Herr | exact Hslice].
Defined.
